(** * Inferred TypeScript targets: a model of [packages/js/src/plugins/typescript/plugin.ts]

    The plugin derives [typecheck] and [build] targets for a project from its
    [tsconfig*.json] files.  This development embeds the functions of
    [plugin.ts] as Rocq functions and proves properties of them.

    Layout:
    - JavaScript and [node:path] helpers the plugin relies on;
    - the data model ([ParsedCommandLine], JSON values, targets);
    - the [Host] record: file system, configuration parser, hashing, glob
      matcher and module resolution, which the plugin only consumes;
    - the plugin's functions, in the order of the source file;
    - the properties. *)

From Stdlib Require Import String Ascii List Bool Arith Lia.
Import ListNotations.

Open Scope list_scope.
Open Scope string_scope.

(** ** Outcomes of a computation

    A call of the source either returns, throws, or keeps recursing/looping.
    Loops and recursions whose termination depends on the data carry a fuel
    argument; [OutOfFuel] is the outcome of a run that needs more steps than
    the fuel given. *)

Inductive Outcome (A : Type) : Type :=
| Done (a : A)
| Threw
| OutOfFuel.

Arguments Done {A} a.
Arguments Threw {A}.
Arguments OutOfFuel {A}.

Definition bind {A B : Type} (m : Outcome A) (k : A -> Outcome B) : Outcome B :=
  match m with
  | Done a => k a
  | Threw => Threw
  | OutOfFuel => OutOfFuel
  end.

Notation "x <- m ;; k" := (bind m (fun x => k))
  (at level 61, m at next level, right associativity).

(** ** JavaScript strings *)

Module Js.

Definition startsWith (s p : string) : bool := String.prefix p s.

Definition endsWith (s p : string) : bool :=
  String.prefix (string_of_list_ascii (rev (list_ascii_of_string p)))
                (string_of_list_ascii (rev (list_ascii_of_string s))).

(** [s.slice(n)] for [0 <= n]. *)
Definition sliceFrom (n : nat) (s : string) : string :=
  String.substring n (String.length s - n) s.

(** [s.slice(0, s.length - n)], used to drop a known suffix. *)
Definition dropRight (n : nat) (s : string) : string :=
  String.substring 0 (String.length s - n) s.

(** [array.includes(x)] on strings. *)
Definition includes (l : list string) (x : string) : bool :=
  existsb (String.eqb x) l.

(** Insertion into a JavaScript [Set]: iteration order is insertion order,
    adding a present element changes nothing. *)
Definition setAdd (x : string) (s : list string) : list string :=
  if includes s x then s else (s ++ [x])%list.

Definition setAddAll (xs : list string) (s : list string) : list string :=
  fold_left (fun acc x => setAdd x acc) xs s.

(** A JavaScript object used as a record with string keys:
    [Object.keys] lists keys in insertion order, assigning to a present key
    keeps its position. *)
Definition Record_ (V : Type) : Type := list (string * V).

Fixpoint recordSet {V : Type} (k : string) (v : V) (r : Record_ V) : Record_ V :=
  match r with
  | [] => [(k, v)]
  | (k', v') :: r' =>
      if String.eqb k' k then (k', v) :: r' else (k', v') :: recordSet k v r'
  end.

Fixpoint recordGet {V : Type} (k : string) (r : Record_ V) : option V :=
  match r with
  | [] => None
  | (k', v') :: r' => if String.eqb k' k then Some v' else recordGet k r'
  end.

Definition keys {V : Type} (r : Record_ V) : list string := map fst r.
Definition values {V : Type} (r : Record_ V) : list V := map snd r.

(** Truthiness of an optional string ([undefined] and [''] are falsy). *)
Definition truthy (o : option string) : bool :=
  match o with
  | Some s => negb (String.eqb s "")
  | None => false
  end.

End Js.

(** ** [node:path], POSIX flavour

    [resolve] and [relative] consult the process working directory, which is
    passed explicitly as [cwd]; it is taken to be absolute, as the operating
    system reports it. *)

Module Path.

Definition sep : string := "/".

Definition isSlash (c : ascii) : bool := Ascii.eqb c "/"%char.

Definition isAbsolute (p : string) : bool :=
  match p with
  | String c _ => isSlash c
  | EmptyString => false
  end.

(** The pieces of [p] between separators; ["a//b"] has pieces [a], [], [b]. *)
Fixpoint segments (p : string) : list string :=
  match p with
  | EmptyString => [EmptyString]
  | String c p' =>
      if isSlash c then EmptyString :: segments p'
      else match segments p' with
           | seg :: rest => String c seg :: rest
           | [] => [String c EmptyString]
           end
  end.

Definition joinSegments (segs : list string) : string := String.concat "/" segs.

(** One step of [normalizeString]: [acc] is the stack of kept segments,
    innermost first. *)
Definition normStep (allowAboveRoot : bool) (acc : list string) (seg : string)
  : list string :=
  if String.eqb seg "" || String.eqb seg "." then acc
  else if String.eqb seg ".." then
    match acc with
    | last :: acc' =>
        if String.eqb last ".."
        then (if allowAboveRoot then ".." :: acc else acc)
        else acc'
    | [] => if allowAboveRoot then [".."] else []
    end
  else seg :: acc.

Definition normSegments (allowAboveRoot : bool) (p : string) : list string :=
  rev (fold_left (normStep allowAboveRoot) (segments p) []).

Definition normalizeString (p : string) (allowAboveRoot : bool) : string :=
  joinSegments (normSegments allowAboveRoot p).

Definition normalize (p : string) : string :=
  if String.eqb p "" then "."
  else
    let isAbs := isAbsolute p in
    let trailing := Js.endsWith p "/" in
    let q := normalizeString p (negb isAbs) in
    if String.eqb q "" then
      (if isAbs then "/" else if trailing then "./" else ".")
    else
      let q' := if trailing then q ++ "/" else q in
      if isAbs then "/" ++ q' else q'.

Definition join (args : list string) : string :=
  match filter (fun a => negb (String.eqb a "")) args with
  | [] => "."
  | parts => normalize (String.concat "/" parts)
  end.

(** [resolve]: arguments are consumed right to left until an absolute one
    is met; the working directory is the last resort. *)
Fixpoint resolveLoop (cwd : string) (argsRev : list string) (acc : string)
  : string * bool :=
  match argsRev with
  | [] =>
      if String.eqb cwd "" then (acc, false)
      else (cwd ++ "/" ++ acc, isAbsolute cwd)
  | p :: rest =>
      if String.eqb p "" then resolveLoop cwd rest acc
      else if isAbsolute p then (p ++ "/" ++ acc, true)
      else resolveLoop cwd rest (p ++ "/" ++ acc)
  end.

Definition resolve (cwd : string) (args : list string) : string :=
  let '(resolvedPath, resolvedAbsolute) := resolveLoop cwd (rev args) "" in
  let q := normalizeString resolvedPath (negb resolvedAbsolute) in
  if resolvedAbsolute then "/" ++ q
  else if String.eqb q "" then "." else q.

Fixpoint stripCommon (a b : list string) : list string * list string :=
  match a, b with
  | x :: a', y :: b' => if String.eqb x y then stripCommon a' b' else (a, b)
  | _, _ => (a, b)
  end.

Definition keptSegments (p : string) : list string :=
  filter (fun s => negb (String.eqb s "")) (segments p).

Definition relative (cwd : string) (from to : string) : string :=
  if String.eqb from to then ""
  else
    let from' := resolve cwd [from] in
    let to' := resolve cwd [to] in
    if String.eqb from' to' then ""
    else
      let '(up, down) := stripCommon (keptSegments from') (keptSegments to') in
      joinSegments (map (fun _ => "..") up ++ down)%list.

Fixpoint dropWhile {A : Type} (f : A -> bool) (l : list A) : list A :=
  match l with
  | [] => []
  | x :: l' => if f x then dropWhile f l' else l
  end.

Fixpoint takeWhile {A : Type} (f : A -> bool) (l : list A) : list A :=
  match l with
  | [] => []
  | x :: l' => if f x then x :: takeWhile f l' else []
  end.

Definition notSlash (c : ascii) : bool := negb (isSlash c).

Definition dirname (p : string) : string :=
  match p with
  | EmptyString => "."
  | String c0 rest =>
      let hasRoot := isSlash c0 in
      let r := rev (list_ascii_of_string rest) in
      match dropWhile notSlash (dropWhile isSlash r) with
      | [] => if hasRoot then "/" else "."
      | _ :: before =>
          if hasRoot && Nat.eqb (List.length before) 0 then "//"
          else String c0 (string_of_list_ascii (rev before))
      end
  end.

(** The last segment, trailing separators ignored. *)
Definition lastSegment (p : string) : string :=
  string_of_list_ascii
    (rev (takeWhile notSlash (dropWhile isSlash (rev (list_ascii_of_string p))))).

Definition trailingSlashes (p : string) : string :=
  string_of_list_ascii (takeWhile isSlash (rev (list_ascii_of_string p))).

Definition basename (p : string) : string := lastSegment p.

(** [basename(p, suffix)]. *)
Definition basenameExt (p suffix : string) : string :=
  if String.eqb suffix "" || Nat.ltb (String.length p) (String.length suffix)
  then lastSegment p
  else if String.eqb suffix p then ""
  else
    let base := lastSegment p in
    if String.eqb base "" then p
    else if Js.endsWith base suffix then
      (if String.eqb base suffix then base
       else Js.dropRight (String.length suffix) base)
    else if Js.endsWith suffix base then base ++ trailingSlashes p
    else base.

Fixpoint lastDot (cs : list ascii) (i : nat) (found : option nat) : option nat :=
  match cs with
  | [] => found
  | c :: cs' =>
      lastDot cs' (S i) (if Ascii.eqb c "."%char then Some i else found)
  end.

Definition extname (p : string) : string :=
  let seg := lastSegment p in
  match lastDot (list_ascii_of_string seg) 0 None with
  | None => ""
  | Some 0 => ""
  | Some d => if String.eqb seg ".." then "" else Js.sliceFrom d seg
  end.

End Path.

(** ** [@nx/devkit] path helpers *)

Definition isUpper (c : ascii) : bool :=
  let n := nat_of_ascii c in Nat.leb 65 n && Nat.leb n 90.

Definition removeWindowsDriveLetter (osSpecificPath : string) : string :=
  match osSpecificPath with
  | String c (String ":" rest) => if isUpper c then rest else osSpecificPath
  | _ => osSpecificPath
  end.

Fixpoint backslashesToSlashes (s : string) : string :=
  match s with
  | EmptyString => EmptyString
  | String c s' =>
      String (if Ascii.eqb c "\"%char then "/"%char else c) (backslashesToSlashes s')
  end.

Definition normalizePath (osSpecificPath : string) : string :=
  backslashesToSlashes (removeWindowsDriveLetter osSpecificPath).

Definition joinPathFragments (fragments : list string) : string :=
  normalizePath (Path.join fragments).

(** ** Data model *)

(** The compiler options the plugin reads from [ParsedCommandLine.options]. *)
Record CompilerOptions : Type := mkCompilerOptions {
  outFile : option string;
  outDir : option string;
  tsBuildInfoFile : option string;
  rootDir : option string;
  noEmit : bool
}.

(** The fields of [ParsedCommandLine.raw] the plugin reads.  An [extends]
    given as an array is not a string specifier and is not followed. *)
Record RawTsConfig : Type := mkRaw {
  extends : option string;
  include : option (list string);
  exclude : option (list string)
}.

(** [projectReferences] holds the [path] of every reference, [[]] when the
    field is absent. *)
Record ParsedCommandLine : Type := mkParsed {
  options : CompilerOptions;
  raw : RawTsConfig;
  fileNames : list string;
  projectReferences : list string
}.

(** Parsed JSON.  The fields of an object are listed in enumeration order,
    each key once. *)
#[warnings="-register-all"]
Inductive JSON : Type :=
| JNull
| JBool (b : bool)
| JNumber (n : nat)
| JString (s : string)
| JArray (items : list JSON)
| JObject (fields : list (string * JSON)).

Module JsonOps.

Definition truthy (v : option JSON) : bool :=
  match v with
  | None | Some JNull | Some (JBool false) | Some (JNumber 0) => false
  | Some (JString s) => negb (String.eqb s "")
  | Some _ => true
  end.

Fixpoint lookup (k : string) (fields : list (string * JSON)) : option JSON :=
  match fields with
  | [] => None
  | (k', v) :: rest => if String.eqb k' k then Some v else lookup k rest
  end.

(** Decimal rendering of an array index, as [for..in] and
    [Object.entries] produce it. *)
Definition digit (n : nat) : ascii := ascii_of_nat (48 + n).

Fixpoint indexKeyFuel (fuel n : nat) (acc : string) : string :=
  match fuel with
  | O => acc
  | S fuel' =>
      let acc' := String (digit (n mod 10)) acc in
      if Nat.ltb n 10 then acc' else indexKeyFuel fuel' (n / 10) acc'
  end.

Definition indexKey (n : nat) : string := indexKeyFuel (S n) n "".

Fixpoint indexed (i : nat) (items : list JSON) : list (string * JSON) :=
  match items with
  | [] => []
  | v :: rest => (indexKey i, v) :: indexed (S i) rest
  end.

(** The own enumerable string-keyed properties of a value; [None] where
    [Object.entries] throws. *)
Definition entries (v : JSON) : option (list (string * JSON)) :=
  match v with
  | JNull => None
  | JObject fields => Some fields
  | JArray items => Some (indexed 0 items)
  | _ => Some []
  end.

(** [v?.[k]] for a property name that is no array index. *)
Definition getOpt (v : JSON) (k : string) : option JSON :=
  match v with
  | JObject fields => lookup k fields
  | _ => None
  end.

End JsonOps.

Inductive InputDefinition : Type :=
| InputString (s : string)
| InputDependentTasksOutputFiles (glob : string)
| InputExternalDependencies (names : list string).

Record TargetMetadata : Type := mkMetadata {
  technologies : list string;
  description : string;
  helpCommand : string;
  helpExampleArgs : list string
}.

Record TargetConfiguration : Type := mkTarget {
  dependsOn : list string;
  command : string;
  cwdOption : string;
  cache : bool;
  inputs : list InputDefinition;
  outputs : list string;
  syncGenerators : list string;
  metadata : TargetMetadata
}.

Definition Targets : Type := Js.Record_ TargetConfiguration.

Record TypecheckOptions : Type := mkTypecheck { typecheckTargetName : string }.

Record BuildOptions : Type := mkBuild {
  buildTargetName : string;
  configName : string;
  buildDepsName : option string;
  watchDepsName : option string
}.

Record NormalizedPluginOptions : Type := mkOptions {
  typecheck : option TypecheckOptions;
  build : option BuildOptions;
  verboseOutput : bool
}.

Record TscProjectResult : Type := mkResult { targets : Targets }.

Record ProjectConfiguration : Type := mkProject {
  projectType : string;
  projectTargets : Targets
}.

(** [{}] is [projects := None]. *)
Record CreateNodesResult : Type := mkNodes {
  projects : option (Js.Record_ ProjectConfiguration)
}.

Definition emptyResult : CreateNodesResult := mkNodes None.

(** ** The host

    Everything the plugin imports and only calls: the file system
    ([node:fs]), the configuration parser ([readTsConfig]), [readJsonFile],
    module resolution ([require.resolve]), [minimatch], the hashers of
    [nx/src/hasher/file-hasher], [getNamedInputs], the package manager
    command and [addBuildAndWatchDepsTargets] of [./util]. *)

Record Host : Type := mkHost {
  cwd : string;
  existsSync : string -> bool;
  (** [statSync(p).isFile()]; [None] when [statSync] throws. *)
  statIsFile : string -> option bool;
  (** [statSync(p).mtimeMs] of an existing path, as it prints. *)
  mtimeMs : string -> string;
  (** [readdirSync(p)]; [None] when it throws. *)
  readdirSync : string -> option (list string);
  (** The bytes of a file; [None] when there is no such file. *)
  readFile : string -> option string;
  readTsConfig : string -> ParsedCommandLine;
  readJsonFile : string -> option JSON;
  (** [require.resolve(specifier, { paths: [directory] })]; [None] when it throws. *)
  requireResolve : string -> string -> option string;
  (** [minimatch(path, pattern)]. *)
  minimatch : string -> string -> bool;
  (** The hash of a file's bytes. *)
  hashContent : string -> string;
  (** [hashArray] of an array of strings. *)
  hashArray : list string -> string;
  hashOptions : NormalizedPluginOptions -> string;
  hashJson : JSON -> string;
  (** The names defined by [getNamedInputs(projectRoot, context)]. *)
  namedInputs : string -> list string;
  pmcExec : string;
  addBuildAndWatchDepsTargets :
    string -> string -> Targets -> option string -> option string -> Targets
}.

(** [hashFile(path)]: the hash of the file's bytes, [null] ([None]) for a
    file that cannot be read. *)
Definition hashFile (h : Host) (path : string) : option string :=
  option_map (hashContent h) (readFile h path).

(** [paths.map(hashFile)] as [hashArray] takes it: [hashArray] raises on an
    array that holds a [null]. *)
Fixpoint hashFiles (h : Host) (paths : list string) : Outcome (list string) :=
  match paths with
  | [] => Done []
  | path :: rest =>
      match hashFile h path with
      | Some hash => hashes <- hashFiles h rest ;; Done (hash :: hashes)
      | None => Threw
      end
  end.

(** ** Config loader *)

(** The process-wide [tsConfigCache], a [Map] from cache key to parsed
    configuration. *)
Definition TsConfigCache : Type := Js.Record_ ParsedCommandLine.

Definition getTsConfigCacheKey (h : Host) (tsConfigPath : string) : Outcome string :=
  match statIsFile h tsConfigPath with
  | None => Threw
  | Some _ => Done (tsConfigPath ++ "-" ++ mtimeMs h tsConfigPath)
  end.

Definition readCachedTsConfig (h : Host) (tsConfigCache : TsConfigCache)
  (tsConfigPath : string) : Outcome (ParsedCommandLine * TsConfigCache) :=
  cacheKey <- getTsConfigCacheKey h tsConfigPath ;;
  match Js.recordGet cacheKey tsConfigCache with
  | Some tsConfig => Done (tsConfig, tsConfigCache)
  | None =>
      let tsConfig := readTsConfig h tsConfigPath in
      Done (tsConfig, Js.recordSet cacheKey tsConfig tsConfigCache)
  end.

(** A table is coherent with the tree when what it holds under the key of an
    existing path is what the parser returns for that path. *)
Definition CoherentCache (h : Host) (tsConfigCache : TsConfigCache) : Prop :=
  forall path tsConfig,
    statIsFile h path <> None ->
    Js.recordGet (path ++ "-" ++ mtimeMs h path) tsConfigCache = Some tsConfig ->
    tsConfig = readTsConfig h path.

(** What [readCachedTsConfig] hands out from a coherent table (see
    [readCachedTsConfig_coherent] and [readCachedTsConfig_keeps_coherent]):
    the parsed configuration, or a throw for a path that does not exist.
    The functions of the plugin are stated over this loader; the table, which
    stays coherent, is left implicit. *)
Definition loadTsConfig (h : Host) (tsConfigPath : string)
  : Outcome ParsedCommandLine :=
  match statIsFile h tsConfigPath with
  | None => Threw
  | Some _ => Done (readTsConfig h tsConfigPath)
  end.

(** ** The plugin *)

(** The string behind an option that was tested for truthiness. *)
Definition valueOf (o : option string) : string :=
  match o with
  | Some s => s
  | None => ""
  end.

Definition pathToInputOrOutput (h : Host) (path workspaceRoot projectRoot : string)
  : string :=
  let fullProjectRoot := Path.resolve (cwd h) [workspaceRoot; projectRoot] in
  let fullPath := Path.resolve (cwd h) [workspaceRoot; path] in
  let pathRelativeToProjectRoot :=
    normalizePath (Path.relative (cwd h) fullProjectRoot fullPath) in
  if Js.startsWith pathRelativeToProjectRoot ".." then
    joinPathFragments
      ["{workspaceRoot}"; Path.relative (cwd h) workspaceRoot fullPath]
  else joinPathFragments ["{projectRoot}"; pathRelativeToProjectRoot].

Record ExtendedPath : Type := mkExtendedPath {
  filePath : string;
  externalPackage : option string
}.

Definition resolveExtendedTsConfigPath (h : Host) (tsConfigPath directory : string)
  : option ExtendedPath :=
  match requireResolve h tsConfigPath directory with
  | None => None
  | Some resolvedPath =>
      if Js.startsWith tsConfigPath "." then Some (mkExtendedPath resolvedPath None)
      else
        let packageName :=
          if Js.startsWith tsConfigPath "@"
          then Path.joinSegments (firstn 2 (Path.segments tsConfigPath))
          else hd "" (Path.segments tsConfigPath) in
        Some (mkExtendedPath resolvedPath (Some packageName))
  end.

Record ExtendedConfigFiles : Type := mkExtended {
  files : list string;
  packages : list string
}.

(** The [while] loop of [getExtendedConfigFiles]; one unit of fuel per
    evaluation of the loop condition. *)
Fixpoint getExtendedConfigFilesLoop (h : Host) (fuel : nat)
  (currentConfigPath : string) (currentConfig : ParsedCommandLine)
  (extendedConfigFiles extendedExternalPackages : list string)
  : Outcome ExtendedConfigFiles :=
  match fuel with
  | O => OutOfFuel
  | S fuel' =>
      if Js.truthy (extends (raw currentConfig)) then
        match resolveExtendedTsConfigPath h (valueOf (extends (raw currentConfig)))
                (Path.dirname currentConfigPath) with
        | None => Done (mkExtended extendedConfigFiles extendedExternalPackages)
        | Some extendedConfigPath =>
            if Js.truthy (externalPackage extendedConfigPath) then
              Done (mkExtended extendedConfigFiles
                      (Js.setAdd (valueOf (externalPackage extendedConfigPath))
                         extendedExternalPackages))
            else
              cfg <- loadTsConfig h (filePath extendedConfigPath) ;;
              getExtendedConfigFilesLoop h fuel' (filePath extendedConfigPath) cfg
                (Js.setAdd (filePath extendedConfigPath) extendedConfigFiles)
                extendedExternalPackages
        end
      else Done (mkExtended extendedConfigFiles extendedExternalPackages)
  end.

Definition getExtendedConfigFiles (h : Host) (fuel : nat)
  (tsConfigPath : string) (tsConfig : ParsedCommandLine)
  : Outcome ExtendedConfigFiles :=
  getExtendedConfigFilesLoop h fuel tsConfigPath tsConfig [] [].

Definition getTsConfigDirName (h : Host) (tsConfigPath : string) : Outcome string :=
  match statIsFile h tsConfigPath with
  | None => Threw
  | Some true => Done (Path.dirname tsConfigPath)
  | Some false => Done (Path.normalize tsConfigPath)
  end.

Definition hasProjectMarker (h : Host) (dir : string) : bool :=
  existsSync h (Path.join [dir; "package.json"])
  || existsSync h (Path.join [dir; "project.json"]).

(** The [while] loop of [isExternalProjectReference]; one unit of fuel per
    evaluation of the loop condition. *)
Fixpoint isExternalProjectReferenceLoop (h : Host) (fuel : nat)
  (currentPath absoluteProjectRoot : string) : Outcome bool :=
  match fuel with
  | O => OutOfFuel
  | S fuel' =>
      if String.eqb currentPath absoluteProjectRoot then Done false
      else if hasProjectMarker h currentPath then Done true
      else isExternalProjectReferenceLoop h fuel' (Path.dirname currentPath)
             absoluteProjectRoot
  end.

Definition isExternalProjectReference (h : Host) (fuel : nat)
  (refTsConfigPath workspaceRoot projectRoot : string) : Outcome bool :=
  let absoluteProjectRoot := Path.join [workspaceRoot; projectRoot] in
  currentPath <- getTsConfigDirName h refTsConfigPath ;;
  if Js.startsWith (Path.relative (cwd h) absoluteProjectRoot currentPath) ".."
  then Done true
  else isExternalProjectReferenceLoop h fuel currentPath absoluteProjectRoot.

(** What a visitor hands back: [false] stops the descent, anything else
    lets the walk recurse. *)
Inductive VisitorResult : Type := ReturnsFalse | ReturnsVoid.

(** A visitor reads and updates the state [St] it closes over. *)
Definition Visitor (St : Type) : Type :=
  string -> ParsedCommandLine -> St -> Outcome (St * VisitorResult).

Definition refConfigPathOf (ref : string) : string :=
  if Js.endsWith ref ".json" then ref else Path.join [ref; "tsconfig.json"].

(** The [for] loop of [walkProjectReferences]; [recurse] is the recursive
    call, [projectReferencesMap] the source's [projectReferences] parameter,
    the map the loop consults for references already resolved. *)
Fixpoint walkReferencesLoop {St : Type} (h : Host)
  (recurse : ParsedCommandLine -> St -> Outcome St)
  (visitor : Visitor St) (projectReferencesMap : Js.Record_ ParsedCommandLine)
  (refs : list string) (st : St) : Outcome St :=
  match refs with
  | [] => Done st
  | ref :: rest =>
      match Js.recordGet ref projectReferencesMap with
      | Some _ => walkReferencesLoop h recurse visitor projectReferencesMap rest st
      | None =>
          if negb (existsSync h ref)
          then walkReferencesLoop h recurse visitor projectReferencesMap rest st
          else
            refTsConfig <- loadTsConfig h (refConfigPathOf ref) ;;
            r <- visitor (refConfigPathOf ref) refTsConfig st ;;
            match snd r with
            | ReturnsFalse =>
                walkReferencesLoop h recurse visitor projectReferencesMap rest (fst r)
            | ReturnsVoid =>
                st' <- recurse refTsConfig (fst r) ;;
                walkReferencesLoop h recurse visitor projectReferencesMap rest st'
            end
      end
  end.

(** [walkProjectReferences]; one unit of fuel per nested call.  The
    recursive call leaves the last parameter to its default, a fresh [{}]. *)
Fixpoint walkProjectReferences {St : Type} (h : Host) (fuel : nat)
  (tsConfig : ParsedCommandLine) (workspaceRoot projectRoot : string)
  (visitor : Visitor St) (projectReferencesMap : Js.Record_ ParsedCommandLine)
  (st : St) : Outcome St :=
  match fuel with
  | O => OutOfFuel
  | S fuel' =>
      walkReferencesLoop h
        (fun refTsConfig st' =>
           walkProjectReferences h fuel' refTsConfig workspaceRoot projectRoot
             visitor [] st')
        visitor projectReferencesMap (projectReferences tsConfig) st
  end.

Definition internalVisitor (h : Host) (fuel : nat) (workspaceRoot projectRoot : string)
  : Visitor (Js.Record_ ParsedCommandLine) :=
  fun configPath config collected =>
    ext <- isExternalProjectReference h fuel configPath workspaceRoot projectRoot ;;
    if ext then Done (collected, ReturnsFalse)
    else Done (Js.recordSet configPath config collected, ReturnsVoid).

Definition resolveInternalProjectReferences (h : Host) (fuel : nat)
  (tsConfig : ParsedCommandLine) (workspaceRoot projectRoot : string)
  (projectReferencesMap : Js.Record_ ParsedCommandLine)
  : Outcome (Js.Record_ ParsedCommandLine) :=
  walkProjectReferences h fuel tsConfig workspaceRoot projectRoot
    (internalVisitor h fuel workspaceRoot projectRoot) [] projectReferencesMap.

Definition shallowExternalVisitor (h : Host) (fuel : nat)
  (workspaceRoot projectRoot : string) : Visitor (Js.Record_ ParsedCommandLine) :=
  fun configPath config collected =>
    ext <- isExternalProjectReference h fuel configPath workspaceRoot projectRoot ;;
    if ext then Done (Js.recordSet configPath config collected, ReturnsFalse)
    else Done (collected, ReturnsFalse).

Definition resolveShallowExternalProjectReferences (h : Host) (fuel : nat)
  (tsConfig : ParsedCommandLine) (workspaceRoot projectRoot : string)
  (projectReferencesMap : Js.Record_ ParsedCommandLine)
  : Outcome (Js.Record_ ParsedCommandLine) :=
  walkProjectReferences h fuel tsConfig workspaceRoot projectRoot
    (shallowExternalVisitor h fuel workspaceRoot projectRoot) [] projectReferencesMap.

(** The [for] loop of [hasExternalProjectReferences].  [seen] is one set
    shared by all nested calls, so it is threaded through and handed back. *)
Fixpoint hasExternalReferencesLoop (h : Host)
  (recurse : string -> ParsedCommandLine -> list string -> Outcome (bool * list string))
  (fuel : nat) (workspaceRoot projectRoot : string)
  (refs : list string) (seen : list string) : Outcome (bool * list string) :=
  match refs with
  | [] => Done (false, seen)
  | ref :: rest =>
      if Js.includes seen ref
      then hasExternalReferencesLoop h recurse fuel workspaceRoot projectRoot rest seen
      else if negb (existsSync h ref)
      then hasExternalReferencesLoop h recurse fuel workspaceRoot projectRoot rest seen
      else
        ext <- isExternalProjectReference h fuel ref workspaceRoot projectRoot ;;
        if ext then Done (true, seen)
        else
          refTsConfig <- loadTsConfig h (refConfigPathOf ref) ;;
          r <- recurse (refConfigPathOf ref) refTsConfig seen ;;
          if fst r then Done (true, snd r)
          else hasExternalReferencesLoop h recurse fuel workspaceRoot projectRoot
                 rest (snd r)
  end.

Fixpoint hasExternalProjectReferences (h : Host) (fuel : nat)
  (tsConfigPath : string) (tsConfig : ParsedCommandLine)
  (workspaceRoot projectRoot : string) (seen : list string)
  : Outcome (bool * list string) :=
  match fuel with
  | O => OutOfFuel
  | S fuel' =>
      match projectReferences tsConfig with
      | [] => Done (false, seen)
      | refs =>
          hasExternalReferencesLoop h
            (fun path config seen' =>
               hasExternalProjectReferences h fuel' path config
                 workspaceRoot projectRoot seen')
            fuel workspaceRoot projectRoot refs (Js.setAdd tsConfigPath seen)
      end
  end.

Definition rawInclude (config : ParsedCommandLine) : list string :=
  match include (raw config) with
  | Some l => l
  | None => []
  end.

(** The local [normalize] of [getInputs]. *)
Definition stripDotSlash (p : string) : string :=
  if Js.startsWith p "./" then Js.sliceFrom 2 p else p.

Definition overlaps (h : Host) (includePath excludePath : string) : bool :=
  minimatch h (stripDotSlash includePath) (stripDotSlash excludePath)
  || minimatch h (stripDotSlash excludePath) (stripDotSlash includePath).

Definition otherFilesInclude (projectTsConfigFiles : list (string * ParsedCommandLine))
  (configPath : string) : list string :=
  flat_map (fun pc => if String.eqb (fst pc) configPath then [] else rawInclude (snd pc))
           projectTsConfigFiles.

(** The three sets [getInputs] fills while it goes over the project's
    configuration files. *)
Record InputSets : Type := mkInputSets {
  configFiles : list string;
  includePaths : list string;
  excludePaths : list string
}.

Definition collectConfig (h : Host) (absoluteProjectRoot : string)
  (projectTsConfigFiles : list (string * ParsedCommandLine))
  (acc : InputSets) (entry : string * ParsedCommandLine) : InputSets :=
  let configPath := fst entry in
  let config := snd entry in
  let offset := Path.relative (cwd h) absoluteProjectRoot (Path.dirname configPath) in
  let includePaths' :=
    Js.setAddAll (map (fun p => Path.join [offset; p]) (rawInclude config))
                 (includePaths acc) in
  let excludePaths' :=
    match exclude (raw config) with
    | None => excludePaths acc
    | Some excl =>
        let others := otherFilesInclude projectTsConfigFiles configPath in
        Js.setAddAll
          (filter (fun excludePath =>
                     negb (existsb (fun includePath => overlaps h includePath excludePath)
                                   others))
                  excl)
          (excludePaths acc)
    end in
  mkInputSets (Js.setAdd configPath (configFiles acc)) includePaths' excludePaths'.

Definition namedInput (names : list string) (prefix : string) : InputDefinition :=
  InputString (prefix ++ (if Js.includes names "production" then "production" else "default")).

Definition getInputs (h : Host) (fuel : nat) (names : list string)
  (configFilePath : string) (tsConfig : ParsedCommandLine)
  (internalProjectReferences : Js.Record_ ParsedCommandLine)
  (workspaceRoot projectRoot : string) : Outcome (list InputDefinition) :=
  extendedConfigFiles <- getExtendedConfigFiles h fuel configFilePath tsConfig ;;
  let externalDependencies := ("typescript" :: packages extendedConfigFiles)%list in
  let projectTsConfigFiles := (configFilePath, tsConfig) :: internalProjectReferences in
  let absoluteProjectRoot := Path.join [workspaceRoot; projectRoot] in
  let sets :=
    fold_left (collectConfig h absoluteProjectRoot projectTsConfigFiles)
      projectTsConfigFiles
      (mkInputSets (Js.setAddAll (files extendedConfigFiles) []) [] []) in
  let sourceInputs :=
    match includePaths sets with
    | [] => [namedInput names ""]
    | _ =>
        ((if existsSync h (Path.join [workspaceRoot; projectRoot; "package.json"])
          then [InputString "{projectRoot}/package.json"] else [])
         ++ map (fun p => InputString (pathToInputOrOutput h p workspaceRoot projectRoot))
                (configFiles sets)
         ++ map (fun p => InputString
                            (pathToInputOrOutput h (joinPathFragments [projectRoot; p])
                               workspaceRoot projectRoot))
                (includePaths sets))%list
    end in
  let negated :=
    map (fun p => InputString
                    ("!" ++ pathToInputOrOutput h (joinPathFragments [projectRoot; p])
                              workspaceRoot projectRoot))
        (excludePaths sets) in
  r <- hasExternalProjectReferences h fuel configFilePath tsConfig
         workspaceRoot projectRoot [] ;;
  let upstream :=
    if fst r then InputDependentTasksOutputFiles "**/*.d.ts"
    else namedInput names "^" in
  Done (sourceInputs ++ negated ++ [upstream]
        ++ [InputExternalDependencies externalDependencies])%list.

Definition inPlaceOutputs : list string :=
  map (fun g => joinPathFragments ["{projectRoot}"; g])
    ["**/*.js"; "**/*.cjs"; "**/*.mjs"; "**/*.jsx"; "**/*.js.map"; "**/*.jsx.map";
     "**/*.d.ts"; "**/*.d.cts"; "**/*.d.mts"; "**/*.d.ts.map"; "**/*.d.cts.map";
     "**/*.d.mts.map"].

(** The five outputs of a configuration that bundles into [outFile]. *)
Definition outFileOutputs (h : Host) (tsConfig config : ParsedCommandLine)
  (workspaceRoot projectRoot : string) : list string :=
  let file := valueOf (outFile (options config)) in
  let outFileName := Path.basenameExt file ".js" in
  let outFileDir := Path.dirname file in
  let outDir' := Path.relative (cwd h) workspaceRoot outFileDir in
  [ pathToInputOrOutput h file workspaceRoot projectRoot;
    pathToInputOrOutput h (joinPathFragments [outDir'; outFileName ++ ".js.map"])
      workspaceRoot projectRoot;
    pathToInputOrOutput h (joinPathFragments [outDir'; outFileName ++ ".d.ts"])
      workspaceRoot projectRoot;
    pathToInputOrOutput h (joinPathFragments [outDir'; outFileName ++ ".d.ts.map"])
      workspaceRoot projectRoot;
    if Js.truthy (tsBuildInfoFile (options tsConfig))
    then pathToInputOrOutput h (valueOf (tsBuildInfoFile (options tsConfig)))
           workspaceRoot projectRoot
    else pathToInputOrOutput h
           (joinPathFragments [outDir'; outFileName ++ ".tsbuildinfo"])
           workspaceRoot projectRoot ].

Definition outDirOutputs (h : Host) (config : ParsedCommandLine)
  (workspaceRoot projectRoot : string) : list string :=
  let dir := valueOf (outDir (options config)) in
  (pathToInputOrOutput h dir workspaceRoot projectRoot
   :: (if Js.truthy (tsBuildInfoFile (options config)) then
         let info := valueOf (tsBuildInfoFile (options config)) in
         if negb (Js.startsWith (Path.normalize info)
                                (Path.normalize dir ++ Path.sep)%string)
         then [pathToInputOrOutput h info workspaceRoot projectRoot]
         else []
       else if Js.truthy (rootDir (options config))
               && negb (String.eqb (valueOf (rootDir (options config))) ".") then
         let relativeRootDir :=
           Path.relative (cwd h) (valueOf (rootDir (options config)))
             (Path.join [workspaceRoot; projectRoot]) in
         [pathToInputOrOutput h
            (joinPathFragments [dir; relativeRootDir; "*.tsbuildinfo"])
            workspaceRoot projectRoot]
       else []))%list.

Definition inPlaceModeOutputs (h : Host) (configFilePath : string)
  (tsConfig : ParsedCommandLine) (workspaceRoot projectRoot : string) : list string :=
  (inPlaceOutputs
   ++ [if Js.truthy (tsBuildInfoFile (options tsConfig))
       then pathToInputOrOutput h (valueOf (tsBuildInfoFile (options tsConfig)))
              workspaceRoot projectRoot
       else joinPathFragments
              ["{projectRoot}";
               (Path.basenameExt configFilePath ".json" ++ ".tsbuildinfo")%string]])%list.

Definition configOutputs (h : Host) (configFilePath : string)
  (tsConfig config : ParsedCommandLine) (workspaceRoot projectRoot : string)
  : list string :=
  if Js.truthy (outFile (options config))
  then outFileOutputs h tsConfig config workspaceRoot projectRoot
  else if Js.truthy (outDir (options config))
  then outDirOutputs h config workspaceRoot projectRoot
  else match fileNames config with
       | [] => []
       | _ => inPlaceModeOutputs h configFilePath tsConfig workspaceRoot projectRoot
       end.

Definition getOutputs (h : Host) (configFilePath : string)
  (tsConfig : ParsedCommandLine)
  (internalProjectReferences : Js.Record_ ParsedCommandLine)
  (workspaceRoot projectRoot : string) : list string :=
  fold_left
    (fun outputs' config =>
       Js.setAddAll
         (configOutputs h configFilePath tsConfig config workspaceRoot projectRoot)
         outputs')
    (tsConfig :: Js.values internalProjectReferences) [].

(** *** Validation of [package.json] against the build output *)

Definition tsSourceExtensions : list string := [".ts"; ".tsx"; ".cts"; ".mts"].

Definition resolvedOutDirOf (h : Host) (tsConfig : ParsedCommandLine)
  (workspaceRoot projectRoot : string) : option string :=
  let outDir' :=
    if Js.truthy (outFile (options tsConfig))
    then Some (Path.dirname (valueOf (outFile (options tsConfig))))
    else outDir (options tsConfig) in
  if Js.truthy outDir'
  then Some (Path.resolve (cwd h) [workspaceRoot; projectRoot; valueOf outDir'])
  else None.

Definition isPathSourceFile (h : Host) (resolvedOutDir : option string)
  (workspaceRoot projectRoot : string) (path : string) : bool :=
  if Js.truthy resolvedOutDir then
    let pathToCheck := Path.resolve (cwd h) [workspaceRoot; projectRoot; path] in
    negb (Js.startsWith pathToCheck (valueOf resolvedOutDir))
  else Js.includes tsSourceExtensions (Path.extname path).

(** [containsInvalidPath]; [Object.entries(null)] throws. *)
Definition containsInvalidPath (isSource : string -> bool) (value : JSON)
  : Outcome bool :=
  match value with
  | JString s => Done (isSource s)
  | JNull => Threw
  | JObject _ | JArray _ =>
      match JsonOps.entries value with
      | None => Threw
      | Some es =>
          Done (existsb
                  (fun kv =>
                     if String.eqb (fst kv) "types" then false
                     else match snd kv with
                          | JString s => isSource s
                          | _ => false
                          end)
                  es)
      end
  | _ => Done false
  end.

(** The [for (const key in exports)] loop. *)
Fixpoint otherExportsValid (isSource : string -> bool) (es : list (string * JSON))
  : Outcome bool :=
  match es with
  | [] => Done true
  | (key, value) :: rest =>
      if String.eqb key "." then otherExportsValid isSource rest
      else
        bad <- containsInvalidPath isSource value ;;
        if bad then Done false else otherExportsValid isSource rest
  end.

(** The fallback over [main] and [module]; a truthy value that is not a
    string makes the path functions throw. *)
Fixpoint buildPathsValid (isSource : string -> bool) (packageJson : JSON)
  (fields : list string) : Outcome bool :=
  match fields with
  | [] => Done true
  | field :: rest =>
      match packageJson with
      | JNull => Threw
      | _ =>
          let v := JsonOps.getOpt packageJson field in
          if JsonOps.truthy v then
            match v with
            | Some (JString s) =>
                if isSource s then Done false
                else buildPathsValid isSource packageJson rest
            | _ => Threw
            end
          else buildPathsValid isSource packageJson rest
      end
  end.

Definition isValidPackageJsonBuildConfig (h : Host) (tsConfig : ParsedCommandLine)
  (workspaceRoot projectRoot : string) : Outcome bool :=
  let packageJsonPath := Path.join [workspaceRoot; projectRoot; "package.json"] in
  if negb (existsSync h packageJsonPath) then Done true
  else
    match readJsonFile h packageJsonPath with
    | None => Threw
    | Some packageJson =>
        let resolvedOutDir := resolvedOutDirOf h tsConfig workspaceRoot projectRoot in
        let isSource := isPathSourceFile h resolvedOutDir workspaceRoot projectRoot in
        let exports := JsonOps.getOpt packageJson "exports" in
        if JsonOps.truthy exports then
          match exports with
          | Some (JString s) => Done (negb (isSource s))
          | Some (JObject fields) =>
              match JsonOps.lookup "." fields with
              | Some dotExport =>
                  bad <- containsInvalidPath isSource dotExport ;;
                  Done (negb bad)
              | None => otherExportsValid isSource fields
              end
          | Some (JArray items) =>
              otherExportsValid isSource (JsonOps.indexed 0 items)
          | _ => Done true
          end
        else buildPathsValid isSource packageJson ["main"; "module"]
    end.

(** *** Targets *)

Definition doubleQuote : string := String (ascii_of_nat 34) EmptyString.

Definition verboseFlag (opts : NormalizedPluginOptions) : string :=
  if verboseOutput opts then " --verbose" else "".

Definition typecheckDisabledCommand : string :=
  "echo " ++ doubleQuote
  ++ "The 'typecheck' target is disabled because one or more project references set 'noEmit: true' in their tsconfig. Remove this property to resolve this issue."
  ++ doubleQuote.

Definition typecheckDescription : string := "Runs type-checking for the project.".
Definition buildDescription : string := "Builds the project with `tsc`.".

Definition helpMetadata (h : Host) (text : string) : TargetMetadata :=
  mkMetadata ["typescript"] text (pmcExec h ++ " tsc --build --help") ["--force"].

Definition anyNoEmit (refs : Js.Record_ ParsedCommandLine) : bool :=
  existsb (fun ref => noEmit (options ref)) (Js.values refs).

(** The typecheck block of [buildTscTargets]: the targets after it and the
    internal references it resolved, if it ran.

    Target names are taken to be ordinary property names.  On the plain
    object [targets], a name that [Object.prototype] defines ([constructor],
    [toString], [__proto__], ...) reads as truthy before anything is
    assigned, and assigning to [__proto__] adds no key; [Js.recordGet] and
    [Js.recordSet] do not model these names. *)
Definition typecheckBlock (h : Host) (fuel : nat) (configFilePath projectRoot : string)
  (opts : NormalizedPluginOptions) (workspaceRoot : string)
  (tsConfig : ParsedCommandLine) (targets0 : Targets)
  : Outcome (Targets * option (Js.Record_ ParsedCommandLine)) :=
  match typecheck opts with
  | Some tc =>
      if String.eqb (Path.basename configFilePath) "tsconfig.json" then
        internalProjectReferences <-
          resolveInternalProjectReferences h fuel tsConfig workspaceRoot projectRoot [] ;;
        externalProjectReferences <-
          resolveShallowExternalProjectReferences h fuel tsConfig workspaceRoot
            projectRoot [] ;;
        let targetName := typecheckTargetName tc in
        match Js.recordGet targetName targets0 with
        | Some _ => Done (targets0, Some internalProjectReferences)
        | None =>
            let command' :=
              if noEmit (options tsConfig)
                 || anyNoEmit internalProjectReferences
                 || anyNoEmit externalProjectReferences
              then typecheckDisabledCommand
              else "tsc --build --emitDeclarationOnly" ++ verboseFlag opts in
            ins <- getInputs h fuel (namedInputs h projectRoot) configFilePath tsConfig
                     internalProjectReferences workspaceRoot projectRoot ;;
            let outs := getOutputs h configFilePath tsConfig internalProjectReferences
                          workspaceRoot projectRoot in
            Done (Js.recordSet targetName
                    (mkTarget ["^" ++ targetName] command' projectRoot true ins outs
                       ["@nx/js:typescript-sync"] (helpMetadata h typecheckDescription))
                    targets0,
                  Some internalProjectReferences)
        end
      else Done (targets0, None)
  | None => Done (targets0, None)
  end.

(** The condition guarding the build block. *)
Definition buildGate (h : Host) (configFilePath projectRoot : string)
  (opts : NormalizedPluginOptions) (workspaceRoot : string)
  (tsConfig : ParsedCommandLine) : Outcome (option BuildOptions) :=
  match build opts with
  | None => Done None
  | Some b =>
      if String.eqb (Path.basename configFilePath) (configName b) then
        valid <- isValidPackageJsonBuildConfig h tsConfig workspaceRoot projectRoot ;;
        Done (if valid then Some b else None)
      else Done None
  end.

Definition buildTarget (h : Host) (b : BuildOptions) (opts : NormalizedPluginOptions)
  (projectRoot : string) (ins : list InputDefinition) (outs : list string)
  : TargetConfiguration :=
  mkTarget ["^" ++ buildTargetName b]
    ("tsc --build " ++ configName b ++ verboseFlag opts)
    projectRoot true ins outs ["@nx/js:typescript-sync"]
    (helpMetadata h buildDescription).

Definition buildTscTargets (h : Host) (fuel : nat) (configFilePath projectRoot : string)
  (opts : NormalizedPluginOptions) (workspaceRoot : string) : Outcome TscProjectResult :=
  tsConfig <- loadTsConfig h configFilePath ;;
  r <- typecheckBlock h fuel configFilePath projectRoot opts workspaceRoot tsConfig [] ;;
  gate <- buildGate h configFilePath projectRoot opts workspaceRoot tsConfig ;;
  match gate with
  | None => Done (mkResult (fst r))
  | Some b =>
      internalProjectReferences <-
        match snd r with
        | Some refs => Done refs
        | None =>
            resolveInternalProjectReferences h fuel tsConfig workspaceRoot projectRoot []
        end ;;
      ins <- getInputs h fuel (namedInputs h projectRoot) configFilePath tsConfig
               internalProjectReferences workspaceRoot projectRoot ;;
      let outs := getOutputs h configFilePath tsConfig internalProjectReferences
                    workspaceRoot projectRoot in
      Done (mkResult
              (addBuildAndWatchDepsTargets h workspaceRoot projectRoot
                 (Js.recordSet (buildTargetName b)
                    (buildTarget h b opts projectRoot ins outs) (fst r))
                 (buildDepsName b) (watchDepsName b)))
  end.

(** *** [createNodesInternal] *)

Definition nextConfigFiles : list string :=
  ["next.config.js"; "next.config.cjs"; "next.config.mjs"; "next.config.ts"].

(** The files whose hashes enter the cache key, in the order of the source. *)
Definition hashedFiles (h : Host) (fuel : nat) (configFilePath : string)
  (workspaceRoot lockFileName : string) : Outcome (list string) :=
  let projectRoot := Path.dirname configFilePath in
  let fullConfigPath := joinPathFragments [workspaceRoot; configFilePath] in
  tsConfig <- loadTsConfig h fullConfigPath ;;
  extendedConfigFiles <- getExtendedConfigFiles h fuel fullConfigPath tsConfig ;;
  internalReferencedFiles <-
    resolveInternalProjectReferences h fuel tsConfig workspaceRoot projectRoot [] ;;
  externalProjectReferences <-
    resolveShallowExternalProjectReferences h fuel tsConfig workspaceRoot projectRoot [] ;;
  Done ([fullConfigPath]
        ++ files extendedConfigFiles
        ++ Js.keys internalReferencedFiles
        ++ Js.keys externalProjectReferences
        ++ [Path.join [workspaceRoot; lockFileName]])%list.

Definition cacheKeyOf (h : Host) (fuel : nat) (configFilePath : string)
  (opts : NormalizedPluginOptions) (workspaceRoot lockFileName : string)
  : Outcome string :=
  let projectRoot := Path.dirname configFilePath in
  influencing <- hashedFiles h fuel configFilePath workspaceRoot lockFileName ;;
  let packageJsonPath := joinPathFragments [projectRoot; "package.json"] in
  packageJson <-
    (if existsSync h packageJsonPath
     then match readJsonFile h packageJsonPath with
          | Some j => Done (Some j)
          | None => Threw
          end
     else Done None) ;;
  fileHashes <- hashFiles h influencing ;;
  let nodeHash :=
    hashArray h
      (fileHashes
       ++ [hashOptions h opts]
       ++ (if JsonOps.truthy packageJson
           then match packageJson with Some j => [hashJson h j] | None => [] end
           else []))%list in
  Done (nodeHash ++ "_" ++ configFilePath).

Definition createNodesInternal (h : Host) (fuel : nat) (configFilePath : string)
  (opts : NormalizedPluginOptions) (workspaceRoot lockFileName : string)
  (targetsCache : Js.Record_ TscProjectResult)
  : Outcome (CreateNodesResult * Js.Record_ TscProjectResult) :=
  let projectRoot := Path.dirname configFilePath in
  let fullConfigPath := joinPathFragments [workspaceRoot; configFilePath] in
  if String.eqb projectRoot "." then Done (emptyResult, targetsCache)
  else
    match readdirSync h (Path.join [workspaceRoot; projectRoot]) with
    | None => Threw
    | Some siblingFiles =>
        if negb (Js.includes siblingFiles "package.json")
           && negb (Js.includes siblingFiles "project.json")
        then Done (emptyResult, targetsCache)
        else if negb (String.eqb (Path.basename configFilePath) "tsconfig.json")
                && negb (Js.includes siblingFiles "tsconfig.json")
        then Done (emptyResult, targetsCache)
        else if existsb (Js.includes siblingFiles) nextConfigFiles
        then Done (emptyResult, targetsCache)
        else
          cacheKey <- cacheKeyOf h fuel configFilePath opts workspaceRoot lockFileName ;;
          cached <-
            match Js.recordGet cacheKey targetsCache with
            | Some hit => Done (hit, targetsCache)
            | None =>
                built <- buildTscTargets h fuel fullConfigPath projectRoot opts
                           workspaceRoot ;;
                Done (built, Js.recordSet cacheKey built targetsCache)
            end ;;
          Done (mkNodes (Some [(projectRoot, mkProject "library" (targets (fst cached)))]),
                snd cached)
    end.


(** ** Concrete hosts

    A host built from tables, used to run the plugin on explicit trees. *)

Module Fixture.

Fixpoint assoc {A : Type} (k : string) (tbl : list (string * A)) : option A :=
match tbl with
| [] => None
| (k', v) :: rest => if String.eqb k' k then Some v else assoc k rest
end.

Definition noOptions : CompilerOptions := mkCompilerOptions None None None None false.

Definition emptyParsed : ParsedCommandLine :=
mkParsed noOptions (mkRaw None None None) [] [].

(** A tree: directories with their entries, files with their bytes, what
  the configuration parser and the JSON reader return for a path, and
  where package-style specifiers resolve to. *)
Record Tree : Type := mkTree {
dirs : list (string * list string);
sources : list (string * string);
configs : list (string * ParsedCommandLine);
jsons : list (string * JSON);
resolutions : list (string * string)
}.

Definition isDir (t : Tree) (p : string) : bool :=
match assoc p (dirs t) with Some _ => true | None => false end.

Definition isFile (t : Tree) (p : string) : bool :=
match assoc p (sources t) with Some _ => true | None => false end.

(** A matcher for patterns without glob characters: a path matches the
  pattern it is equal to. *)
Definition literalMatch (path pattern : string) : bool := String.eqb path pattern.

Definition hashBytes (bytes : string) : string := "+" ++ bytes.

Fixpoint ones (n : nat) : string :=
match n with
| O => ""
| S n' => String "1" (ones n')
end.

(** Each element is written behind its length in unary, so the list can
  be read back from the result. *)
Definition lengthPrefixed (s : string) : string :=
ones (String.length s) ++ String "0" s.

Fixpoint hashList (l : list string) : string :=
match l with
| [] => ""
| s :: rest => lengthPrefixed s ++ hashList rest
end.

(** The process runs in the workspace root; the file system interprets a
  relative path from there. *)
Definition workingDirectory : string := "/ws".

Definition abs (p : string) : string := Path.resolve workingDirectory [p].

Definition resolveSpecifier (t : Tree) (specifier directory : string) : option string :=
if Js.startsWith specifier "." then
  let p := Path.resolve workingDirectory [directory; specifier] in
  if isFile t p then Some p else None
else assoc specifier (resolutions t).

Definition host (t : Tree) : Host :=
mkHost workingDirectory
  (fun p => isDir t (abs p) || isFile t (abs p))
  (fun p => if isFile t (abs p) then Some true
            else if isDir t (abs p) then Some false else None)
  (fun _ => "1700000000000")
  (fun p => assoc (abs p) (dirs t))
  (fun p => assoc (abs p) (sources t))
  (fun p => match assoc (abs p) (configs t) with
            | Some c => c
            | None => emptyParsed
            end)
  (fun p => assoc (abs p) (jsons t))
  (resolveSpecifier t)
  literalMatch
  hashBytes
  hashList
  (fun _ => "options")
  (fun _ => "package")
  (fun _ => ["default"; "production"])
  "npx"
  (fun _ _ targets' _ _ => targets').

(** The same tree with other bytes in its files. *)
Definition withSources (t : Tree) (bytes : list (string * string)) : Tree :=
  mkTree (dirs t) bytes (configs t) (jsons t) (resolutions t).

(** The bytes of the files with those of the file at [path] replaced. *)
Fixpoint rewritten (path bytes : string) (files : list (string * string))
  : list (string * string) :=
match files with
| [] => []
| (p, b) :: rest =>
    (p, if String.eqb p path then bytes else b) :: rewritten path bytes rest
end.

(** The same tree after the file at [path] was given other bytes. *)
Definition edit (t : Tree) (path bytes : string) : Tree :=
  withSources t (rewritten path bytes (sources t)).

(** A library project [libs/mylib] with a build configuration
  [tsconfig.lib.json] and a [package.json]. *)
Definition libraryTree (compilerOptions : CompilerOptions) (packageJson : JSON)
: Tree :=
mkTree
  [("/ws", ["libs"; "package-lock.json"; "package.json"]);
   ("/ws/libs", ["mylib"]);
   ("/ws/libs/mylib", ["package.json"; "src"; "tsconfig.json"; "tsconfig.lib.json"]);
   ("/ws/libs/mylib/src", ["index.ts"])]
  [("/ws/package-lock.json", "lock");
   ("/ws/package.json", "{}");
   ("/ws/libs/mylib/package.json", "package");
   ("/ws/libs/mylib/tsconfig.json", "{}");
   ("/ws/libs/mylib/tsconfig.lib.json", "lib");
   ("/ws/libs/mylib/src/index.ts", "export {}")]
  [("/ws/libs/mylib/tsconfig.lib.json",
    mkParsed compilerOptions (mkRaw None (Some ["src"]) None)
      ["/ws/libs/mylib/src/index.ts"] [])]
  [("/ws/libs/mylib/package.json", packageJson)]
  [].

Definition buildOnly : NormalizedPluginOptions :=
mkOptions None
  (Some (mkBuild "build" "tsconfig.lib.json" (Some "build-deps") (Some "watch-deps")))
  false.

Definition outDirDist : CompilerOptions :=
mkCompilerOptions None (Some "dist") None None false.

Definition mainInSource : JSON := JObject [("main", JString "src/index.ts")].

Definition exportsInDist : JSON :=
JObject [("exports", JObject [(".", JString "./dist/index.js")])].

Definition mainJsInSource : JSON := JObject [("main", JString "./src/index.js")].

Definition exportsJsInSource : JSON :=
JObject [("exports", JObject [(".", JString "./src/index.js")])].

End Fixture.

(** A configuration with its reference list replaced. *)
Definition withReferences (config : ParsedCommandLine) (refs : list string)
  : ParsedCommandLine :=
  mkParsed (options config) (raw config) (fileNames config) refs.

(** A configuration with its raw [exclude] replaced. *)
Definition withExclude (config : ParsedCommandLine) (excl : option (list string))
  : ParsedCommandLine :=
  mkParsed (options config)
    (mkRaw (extends (raw config)) (include (raw config)) excl)
    (fileNames config) (projectReferences config).

(** The entry [getInputs] derives from a raw exclude pattern. *)
Definition negatedInput (h : Host) (workspaceRoot projectRoot excludePath : string)
  : InputDefinition :=
  InputString
    ("!" ++ pathToInputOrOutput h (joinPathFragments [projectRoot; excludePath])
              workspaceRoot projectRoot).

(** A visitor that also records, in order, the paths it is invoked with. *)
Definition logged {St : Type} (visitor : Visitor St) : Visitor (St * list string) :=
  fun configPath config st =>
    r <- visitor configPath config (fst st) ;;
    Done ((fst r, snd st ++ [configPath])%list, snd r).

(** ** Directories below the project root

    The words of the classification rule: the referenced directory lies at
    [descend root segs], and the walk up from it passes the directories
    [dirsBelow root (rev segs)], the referenced one first and [root] left
    out. *)

Definition descend (root : string) (segs : list string) : string :=
  fold_left (fun dir seg => dir ++ "/" ++ seg) segs root.

(** [segsRev] lists the segments innermost first. *)
Fixpoint dirsBelow (root : string) (segsRev : list string) : list string :=
  match segsRev with
  | [] => []
  | _ :: outer => descend root (rev segsRev) :: dirsBelow root outer
  end.

(** A segment of a path: not empty, no separator in it. *)
Definition plainSegment (s : string) : Prop :=
  s <> "" /\ forallb Path.notSlash (list_ascii_of_string s) = true.

(** The rule in the words of the specification: external when the
    directory lies outside the root, or when a directory on the way up to
    the root holds [package.json] or [project.json]. *)
Definition classifiedExternal (h : Host) (root dir : string) (segsRev : list string)
  : bool :=
  Js.startsWith (Path.relative (cwd h) root dir) ".."
  || existsb (hasProjectMarker h) (dirsBelow root segsRev).

(** ** Chains of [extends]

    [followsExtends h path config next]: the loop of
    [getExtendedConfigFiles], standing at [config] read from [path], goes on
    to the file [next]. *)
Definition followsExtends (h : Host) (path : string) (config : ParsedCommandLine)
  (next : string) : Prop :=
  Js.truthy (extends (raw config)) = true
  /\ exists r,
      resolveExtendedTsConfigPath h (valueOf (extends (raw config))) (Path.dirname path)
      = Some r
      /\ Js.truthy (externalPackage r) = false
      /\ filePath r = next.

(** [ChainEnds h path config n]: the chain of [extends] that starts at
    [config] leaves the files after [n] steps. *)
Inductive ChainEnds (h : Host) : string -> ParsedCommandLine -> nat -> Prop :=
| chain_stops (path : string) (config : ParsedCommandLine) :
    (forall next, ~ followsExtends h path config next) ->
    ChainEnds h path config 0
| chain_goes_on (path : string) (config : ParsedCommandLine) (next : string) (n : nat) :
    followsExtends h path config next ->
    ChainEnds h next (readTsConfig h next) n ->
    ChainEnds h path config (S n).

(** ** Vocabulary of the statements *)

(** The four situations in which [createNodesInternal] declines to create a
    project. *)
Definition declined (configFilePath : string) (siblingFiles : list string) : Prop :=
  (~ In "package.json" siblingFiles /\ ~ In "project.json" siblingFiles)
  \/ (Path.basename configFilePath <> "tsconfig.json"
      /\ ~ In "tsconfig.json" siblingFiles)
  \/ (exists next, In next nextConfigFiles /\ In next siblingFiles).

(** What [buildTscTargets] hands to [addBuildAndWatchDepsTargets] when the
    build block runs: the targets so far with the build target assigned. *)
Definition withBuildTarget (h : Host) (b : BuildOptions) (opts : NormalizedPluginOptions)
  (workspaceRoot projectRoot : string) (res : TscProjectResult) : Prop :=
  exists ins outs before,
    targets res
    = addBuildAndWatchDepsTargets h workspaceRoot projectRoot
        (Js.recordSet (buildTargetName b) (buildTarget h b opts projectRoot ins outs) before)
        (buildDepsName b) (watchDepsName b).

Definition onlyTypecheckTargets (res : TscProjectResult) : Prop :=
  forall name t, Js.recordGet name (targets res) = Some t ->
                 description (metadata t) = typecheckDescription.

(** The exclude patterns of a configuration that no include pattern of the
    other configurations overlaps. *)
Definition keptExcludes (h : Host) (others : list string) (excl : list string)
  : list string :=
  filter (fun excludePath =>
            negb (existsb (fun includePath => overlaps h includePath excludePath) others))
         excl.

(** ** The files that influence a configuration file

    The influencing set in the words of the specification: the
    configuration file, the configuration files it extends, transitively,
    the referenced configuration files that are internal to the project or
    referenced directly and external, and the lock file. *)

(** A specifier that names a file: it starts with a dot or is absolute. *)
Definition fileSpecifier (specifier : string) : bool :=
  Js.startsWith specifier "." || Js.startsWith specifier "/".

Definition anySpecifier (specifier : string) : bool := true.

(** The configuration at [path] extends [file] through a specifier that
    [followed] accepts and that resolves. *)
Definition extendsFile (followed : string -> bool) (h : Host) (path file : string)
  : Prop :=
  exists specifier,
    extends (raw (readTsConfig h path)) = Some specifier
    /\ followed specifier = true
    /\ requireResolve h specifier (Path.dirname path) = Some file.

Inductive ExtendsTransitively (followed : string -> bool) (h : Host)
  : string -> string -> Prop :=
| extends_directly (path file : string) :
    extendsFile followed h path file ->
    ExtendsTransitively followed h path file
| extends_through (path mid file : string) :
    extendsFile followed h path mid ->
    ExtendsTransitively followed h mid file ->
    ExtendsTransitively followed h path file.

Definition internalTo (h : Host) (workspaceRoot projectRoot path : string) : Prop :=
  exists fuel,
    isExternalProjectReference h fuel path workspaceRoot projectRoot = Done false.

Definition externalTo (h : Host) (workspaceRoot projectRoot path : string) : Prop :=
  exists fuel,
    isExternalProjectReference h fuel path workspaceRoot projectRoot = Done true.

(** [file] is the configuration file of a reference of [config] that exists
    and is internal, or of such a reference of a configuration reached that
    way. *)
Inductive ReferencesInternally (h : Host) (workspaceRoot projectRoot : string)
  : ParsedCommandLine -> string -> Prop :=
| references_internally (config : ParsedCommandLine) (ref : string) :
    In ref (projectReferences config) ->
    existsSync h ref = true ->
    internalTo h workspaceRoot projectRoot (refConfigPathOf ref) ->
    ReferencesInternally h workspaceRoot projectRoot config (refConfigPathOf ref)
| references_through (config : ParsedCommandLine) (via file : string) :
    In via (projectReferences config) ->
    existsSync h via = true ->
    internalTo h workspaceRoot projectRoot (refConfigPathOf via) ->
    ReferencesInternally h workspaceRoot projectRoot
      (readTsConfig h (refConfigPathOf via)) file ->
    ReferencesInternally h workspaceRoot projectRoot config file.

(** [file] is the configuration file of a reference of [config] that exists
    and is external. *)
Definition referencesExternally (h : Host) (workspaceRoot projectRoot : string)
  (config : ParsedCommandLine) (file : string) : Prop :=
  exists ref,
    In ref (projectReferences config)
    /\ existsSync h ref = true
    /\ externalTo h workspaceRoot projectRoot (refConfigPathOf ref)
    /\ file = refConfigPathOf ref.

(** The influencing set of [configFilePath]; [followed] tells which
    [extends] specifiers count. *)
Definition influences (followed : string -> bool) (h : Host)
  (configFilePath workspaceRoot lockFileName file : string) : Prop :=
  let fullConfigPath := joinPathFragments [workspaceRoot; configFilePath] in
  let projectRoot := Path.dirname configFilePath in
  file = fullConfigPath
  \/ ExtendsTransitively followed h fullConfigPath file
  \/ ReferencesInternally h workspaceRoot projectRoot
       (readTsConfig h fullConfigPath) file
  \/ referencesExternally h workspaceRoot projectRoot
       (readTsConfig h fullConfigPath) file
  \/ file = Path.join [workspaceRoot; lockFileName].

(** ** Two states of the tree

    [sameBytes h1 h2 p]: the file at [p] has the same bytes in both states. *)
Definition sameBytes (h1 h2 : Host) (p : string) : Prop := readFile h1 p = readFile h2 p.

(** Two lists of files collected in the two states: the same list of
    unchanged files, or the same up to a first changed file. *)
Definition inSync (h1 h2 : Host) (l1 l2 : list string) : Prop :=
  l1 = l2 /\ Forall (sameBytes h1 h2) l1.

Definition diverged (h1 h2 : Host) (l1 l2 : list string) : Prop :=
  exists pre p s1 s2,
    l1 = (pre ++ p :: s1)%list /\ l2 = (pre ++ p :: s2)%list
    /\ Forall (sameBytes h1 h2) pre /\ ~ sameBytes h1 h2 p.

Definition related (h1 h2 : Host) (l1 l2 : list string) : Prop :=
  inSync h1 h2 l1 l2 \/ diverged h1 h2 l1 l2.

(** A visitor only adds keys to what it has collected. *)
Definition VisitorExtends (visitor : Visitor (Js.Record_ ParsedCommandLine)) : Prop :=
  forall path config st st' result,
    visitor path config st = Done (st', result) ->
    exists suffix, Js.keys st' = (Js.keys st ++ suffix)%list.

(** Two visitors, one per state, that decide alike and collect alike; a
    path they let the walk descend into has been collected. *)
Definition VisitorsRelated (h1 h2 : Host)
  (visitor1 visitor2 : Visitor (Js.Record_ ParsedCommandLine)) : Prop :=
  forall path config1 config2 st1 st2 st1' st2' result1 result2,
    inSync h1 h2 (Js.keys st1) (Js.keys st2) ->
    visitor1 path config1 st1 = Done (st1', result1) ->
    visitor2 path config2 st2 = Done (st2', result2) ->
    result1 = result2
    /\ related h1 h2 (Js.keys st1') (Js.keys st2')
    /\ (result1 = ReturnsVoid -> In path (Js.keys st1')).

Definition RecursionExtends
  (recurse : ParsedCommandLine -> Js.Record_ ParsedCommandLine
             -> Outcome (Js.Record_ ParsedCommandLine)) : Prop :=
  forall config st st',
    recurse config st = Done st' ->
    exists suffix, Js.keys st' = (Js.keys st ++ suffix)%list.

(** What relates two recursive calls: either the collections have diverged
    already, or they are in step and the configurations walked have the same
    references. *)
Definition RecursionsRelated (h1 h2 : Host)
  (recurse1 recurse2 : ParsedCommandLine -> Js.Record_ ParsedCommandLine
                       -> Outcome (Js.Record_ ParsedCommandLine)) : Prop :=
  forall config1 config2 st1 st2 st1' st2',
    diverged h1 h2 (Js.keys st1) (Js.keys st2)
    \/ (inSync h1 h2 (Js.keys st1) (Js.keys st2)
        /\ projectReferences config1 = projectReferences config2) ->
    recurse1 config1 st1 = Done st1' ->
    recurse2 config2 st2 = Done st2' ->
    related h1 h2 (Js.keys st1') (Js.keys st2').

Module Scenario.

(** A configuration file in a directory that holds no project:
  [libs/bare] has a [tsconfig.json] and sources, nothing else. *)
Definition bareTree : Fixture.Tree :=
Fixture.mkTree
  [("/ws", ["libs"]); ("/ws/libs", ["bare"]);
   ("/ws/libs/bare", ["src"; "tsconfig.json"])]
  [("/ws/libs/bare/tsconfig.json", "{}")]
  [] [] [].

Definition defaults : NormalizedPluginOptions :=
mkOptions (Some (mkTypecheck "typecheck")) None false.

Definition references (refs : list string) : ParsedCommandLine :=
  withReferences Fixture.emptyParsed refs.

(** The project [libs/a] with four configuration files, whose reference
    lists are given. *)
Definition projectTree (rootRefs libRefs specRefs baseRefs : list string)
  : Fixture.Tree :=
  Fixture.mkTree
    [("/ws", ["libs"; "package-lock.json"; "package.json"]);
     ("/ws/libs", ["a"]);
     ("/ws/libs/a",
      ["package.json"; "tsconfig.base.json"; "tsconfig.json"; "tsconfig.lib.json";
       "tsconfig.spec.json"])]
    [("/ws/package-lock.json", "lock");
     ("/ws/package.json", "{}");
     ("/ws/libs/a/package.json", "{}");
     ("/ws/libs/a/tsconfig.json", "root");
     ("/ws/libs/a/tsconfig.lib.json", "lib");
     ("/ws/libs/a/tsconfig.spec.json", "spec");
     ("/ws/libs/a/tsconfig.base.json", "base")]
    [("/ws/libs/a/tsconfig.json", references rootRefs);
     ("/ws/libs/a/tsconfig.lib.json", references libRefs);
     ("/ws/libs/a/tsconfig.spec.json", references specRefs);
     ("/ws/libs/a/tsconfig.base.json", references baseRefs)]
    [("/ws/libs/a/package.json", JObject [])]
    [].

Definition rootConfig : string := "/ws/libs/a/tsconfig.json".
Definition libConfig : string := "/ws/libs/a/tsconfig.lib.json".
Definition specConfig : string := "/ws/libs/a/tsconfig.spec.json".
Definition baseConfig : string := "/ws/libs/a/tsconfig.base.json".

(** [tsconfig.json] references [tsconfig.lib.json], which references
    [tsconfig.json]. *)
Definition cyclicReferences : Fixture.Tree :=
  projectTree [libConfig] [rootConfig] [] [].

(** [tsconfig.json] references the two others, both of which reference
    [tsconfig.base.json]. *)
Definition diamondReferences : Fixture.Tree :=
  projectTree [libConfig; specConfig] [baseConfig] [baseConfig] [].

(** [tsconfig.json] references [tsconfig.lib.json], a directory that is
    gone, and [tsconfig.spec.json]. *)
Definition goneReference : string := "/ws/libs/gone".

Definition plainReferences : Fixture.Tree :=
  projectTree [libConfig; goneReference; specConfig] [] [] [].

Definition extending (specifier : option string) : ParsedCommandLine :=
  mkParsed Fixture.noOptions (mkRaw specifier None None) [] [].

(** The project [libs/a] with three configuration files, whose [extends]
    fields are given. *)
Definition extendsTree (rootExtends libExtends baseExtends : option string)
  : Fixture.Tree :=
  Fixture.mkTree
    [("/ws", ["libs"; "package-lock.json"; "package.json"]);
     ("/ws/libs", ["a"]);
     ("/ws/libs/a",
      ["package.json"; "tsconfig.base.json"; "tsconfig.json"; "tsconfig.lib.json"])]
    [("/ws/package-lock.json", "lock");
     ("/ws/package.json", "{}");
     ("/ws/libs/a/package.json", "{}");
     ("/ws/libs/a/tsconfig.json", "root");
     ("/ws/libs/a/tsconfig.lib.json", "lib");
     ("/ws/libs/a/tsconfig.base.json", "base")]
    [("/ws/libs/a/tsconfig.json", extending rootExtends);
     ("/ws/libs/a/tsconfig.lib.json", extending libExtends);
     ("/ws/libs/a/tsconfig.base.json", extending baseExtends)]
    [("/ws/libs/a/package.json", JObject [])]
    [].

(** [tsconfig.json] extends [tsconfig.base.json], which extends
    [tsconfig.json]. *)
Definition cyclicExtends : Fixture.Tree :=
  extendsTree (Some "./tsconfig.base.json") None (Some "./tsconfig.json").

(** [tsconfig.lib.json] extends [tsconfig.json], which extends
    [tsconfig.base.json], which extends nothing. *)
Definition chainedExtends : Fixture.Tree :=
  extendsTree (Some "./tsconfig.base.json") (Some "./tsconfig.json") None.

(** The project [libs/a] with an inner directory [inner/deep] that belongs to
    it, and a nested project [nested] with a directory [nested/sub]. *)
Definition nestedTree : Fixture.Tree :=
  Fixture.mkTree
    [("/ws", ["libs"; "package-lock.json"; "package.json"]);
     ("/ws/libs", ["a"]);
     ("/ws/libs/a", ["inner"; "nested"; "package.json"; "tsconfig.json"]);
     ("/ws/libs/a/inner", ["deep"]);
     ("/ws/libs/a/inner/deep", ["tsconfig.json"]);
     ("/ws/libs/a/nested", ["package.json"; "sub"]);
     ("/ws/libs/a/nested/sub", ["tsconfig.json"])]
    [("/ws/package-lock.json", "lock");
     ("/ws/package.json", "{}");
     ("/ws/libs/a/package.json", "{}");
     ("/ws/libs/a/tsconfig.json", "root");
     ("/ws/libs/a/inner/deep/tsconfig.json", "deep");
     ("/ws/libs/a/nested/package.json", "{}");
     ("/ws/libs/a/nested/sub/tsconfig.json", "sub")]
    [] [] [].

(** Configurations of [libs/mylib] that bundle into [dist/bundle.js]. *)
Definition bundling (buildInfo : option string) : ParsedCommandLine :=
  mkParsed (mkCompilerOptions (Some "dist/bundle.js") None buildInfo None false)
    (mkRaw None (Some ["src"]) None) ["/ws/libs/mylib/src/index.ts"] [].

Definition bundlingAbsolute (buildInfo : option string) : ParsedCommandLine :=
  mkParsed
    (mkCompilerOptions (Some "/ws/libs/mylib/dist/bundle.js") None buildInfo None false)
    (mkRaw None (Some ["src"]) None) ["/ws/libs/mylib/src/index.ts"] [].

Definition libraryHost : Host :=
  Fixture.host (Fixture.libraryTree Fixture.noOptions (JObject [])).

(** [libs/a] with [tsconfig.json], whose raw [include] is given, and the
    internal [tsconfig.lib.json] that includes [src/feature] and excludes
    [src/feature/ignored]. *)
Definition includesOnly (patterns : list string) : ParsedCommandLine :=
  mkParsed Fixture.noOptions (mkRaw None (Some patterns) None) [] [].

Definition featureConfig : ParsedCommandLine :=
  mkParsed Fixture.noOptions
    (mkRaw None (Some ["src/feature"]) (Some ["src/feature/ignored"])) [] [].

Definition featureHost : Host := Fixture.host (projectTree [] [] [] []).

Definition featureInputs (rootInclude : list string) : Outcome (list InputDefinition) :=
  getInputs featureHost 1 ["default"; "production"] rootConfig
    (includesOnly rootInclude) [(libConfig, featureConfig)] "/ws" "libs/a".

(** [libs/a] whose [tsconfig.json] references [tsconfig.lib.json], before
    and after [tsconfig.lib.json] is edited in a way that leaves its
    [extends] and [references] alone. *)
Definition beforeEdit : Fixture.Tree := projectTree [libConfig] [] [] [].

Definition afterEdit : Fixture.Tree :=
  Fixture.withSources beforeEdit
    [("/ws/package-lock.json", "lock");
     ("/ws/package.json", "{}");
     ("/ws/libs/a/package.json", "{}");
     ("/ws/libs/a/tsconfig.json", "root");
     ("/ws/libs/a/tsconfig.lib.json", "lib, edited");
     ("/ws/libs/a/tsconfig.spec.json", "spec");
     ("/ws/libs/a/tsconfig.base.json", "base")].

(** [libs/a], whose [tsconfig.json] extends [tsconfig.base.json] and
    references its own [tsconfig.lib.json] and the directory of the project
    [libs/b]. *)
Definition layered : Fixture.Tree :=
  Fixture.mkTree
    [("/ws", ["libs"; "package-lock.json"; "package.json"]);
     ("/ws/libs", ["a"; "b"]);
     ("/ws/libs/a",
      ["package.json"; "tsconfig.base.json"; "tsconfig.json"; "tsconfig.lib.json"]);
     ("/ws/libs/b", ["package.json"; "tsconfig.json"])]
    [("/ws/package-lock.json", "lock");
     ("/ws/package.json", "{}");
     ("/ws/libs/a/package.json", "{}");
     ("/ws/libs/a/tsconfig.json", "root");
     ("/ws/libs/a/tsconfig.base.json", "base");
     ("/ws/libs/a/tsconfig.lib.json", "lib");
     ("/ws/libs/b/package.json", "{}");
     ("/ws/libs/b/tsconfig.json", "b")]
    [("/ws/libs/a/tsconfig.json",
      mkParsed Fixture.noOptions (mkRaw (Some "./tsconfig.base.json") None None) []
        ["/ws/libs/a/tsconfig.lib.json"; "/ws/libs/b"])]
    [("/ws/libs/a/package.json", JObject []);
     ("/ws/libs/b/package.json", JObject [])]
    [].

End Scenario.


(** ** Plugin options as the user writes them *)

(** A field that is absent, a boolean, or an object. *)
Inductive Toggle (A : Type) : Type :=
| Unset
| Flag (b : bool)
| Detailed (a : A).

Arguments Unset {A}.
Arguments Flag {A} b.
Arguments Detailed {A} a.

Record TypecheckInput : Type := mkTypecheckInput {
  typecheckInputTargetName : option string
}.

Record BuildInput : Type := mkBuildInput {
  buildInputTargetName : option string;
  buildInputConfigName : option string;
  buildInputBuildDepsName : option string;
  buildInputWatchDepsName : option string
}.

Record TscPluginOptions : Type := mkPluginOptions {
  typecheckInput : Toggle TypecheckInput;
  buildInput : Toggle BuildInput;
  verboseOutputInput : option bool
}.

(** [a ?? b] on an optional string. *)
Definition orDefault (o : option string) (d : string) : string :=
  match o with
  | Some s => s
  | None => d
  end.

Definition emptyPluginOptions : TscPluginOptions := mkPluginOptions Unset Unset None.

(** [normalizePluginOptions]; [None] is the omitted argument, for which the
    default [{}] steps in. *)
Definition normalizePluginOptions (given : option TscPluginOptions)
  : NormalizedPluginOptions :=
  let pluginOptions :=
    match given with
    | Some o => o
    | None => emptyPluginOptions
    end in
  let defaultTypecheckTargetName := "typecheck" in
  let typecheck' :=
    match typecheckInput pluginOptions with
    | Flag false => None
    | Detailed t =>
        Some (mkTypecheck (orDefault (typecheckInputTargetName t)
                             defaultTypecheckTargetName))
    | _ => Some (mkTypecheck defaultTypecheckTargetName)
    end in
  let defaultBuildTargetName := "build" in
  let defaultBuildConfigName := "tsconfig.lib.json" in
  let build' :=
    match buildInput pluginOptions with
    | Unset | Flag false => None
    | Detailed b =>
        Some (mkBuild (orDefault (buildInputTargetName b) defaultBuildTargetName)
                (orDefault (buildInputConfigName b) defaultBuildConfigName)
                (Some (orDefault (buildInputBuildDepsName b) "build-deps"))
                (Some (orDefault (buildInputWatchDepsName b) "watch-deps")))
    | Flag true =>
        Some (mkBuild defaultBuildTargetName defaultBuildConfigName
                (Some "build-deps") (Some "watch-deps"))
    end in
  mkOptions typecheck' build'
    (match verboseOutputInput pluginOptions with
     | Some v => v
     | None => false
     end).

(** The normalized options written back as user options. *)
Definition asPluginOptions (n : NormalizedPluginOptions) : TscPluginOptions :=
  mkPluginOptions
    (match typecheck n with
     | None => Flag false
     | Some t => Detailed (mkTypecheckInput (Some (typecheckTargetName t)))
     end)
    (match build n with
     | None => Flag false
     | Some b =>
         Detailed (mkBuildInput (Some (buildTargetName b)) (Some (configName b))
                     (buildDepsName b) (watchDepsName b))
     end)
    (Some (verboseOutput n)).

(** The deprecated [createNodes]: one configuration file, normalized options
    and a fresh targets cache.  The lock file name, which the source gets
    from the package manager detection, is a parameter. *)
Definition createNodes (h : Host) (fuel : nat) (configFilePath : string)
  (given : option TscPluginOptions) (workspaceRoot lockFileName : string)
  : Outcome CreateNodesResult :=
  r <- createNodesInternal h fuel configFilePath (normalizePluginOptions given)
         workspaceRoot lockFileName [] ;;
  Done (fst r).

(** [createNodesInternal] gets past its four early returns. *)
Definition proceeds (h : Host) (configFilePath workspaceRoot : string) : Prop :=
  Path.dirname configFilePath <> "."
  /\ exists siblingFiles,
      readdirSync h (Path.join [workspaceRoot; Path.dirname configFilePath])
      = Some siblingFiles
      /\ (In "package.json" siblingFiles \/ In "project.json" siblingFiles)
      /\ (Path.basename configFilePath = "tsconfig.json"
          \/ In "tsconfig.json" siblingFiles)
      /\ (forall next, In next nextConfigFiles -> ~ In next siblingFiles).

(** The result for a project at [projectRoot] with the given targets. *)
Definition projectResult (projectRoot : string) (found : TscProjectResult)
  : CreateNodesResult :=
  mkNodes (Some [(projectRoot, mkProject "library" (targets found))]).

(** ** Reference graphs *)

(** [WalkEnds h visitor config n]: from [config], every path along which
    [walkProjectReferences] descends with [visitor] is at most [n] references
    long, and the visitor answers on every reference met. *)
Inductive WalkEnds {St : Type} (h : Host) (visitor : Visitor St)
  : ParsedCommandLine -> nat -> Prop :=
| walk_ends (config : ParsedCommandLine) (n : nat) :
    (forall ref st,
        In ref (projectReferences config) ->
        existsSync h ref = true ->
        visitor (refConfigPathOf ref) (readTsConfig h (refConfigPathOf ref)) st
        <> OutOfFuel) ->
    (forall ref st st',
        In ref (projectReferences config) ->
        existsSync h ref = true ->
        visitor (refConfigPathOf ref) (readTsConfig h (refConfigPathOf ref)) st
        = Done (st', ReturnsVoid) ->
        WalkEnds h visitor (readTsConfig h (refConfigPathOf ref)) n) ->
    WalkEnds h visitor config (S n).

(** The references of [config] that exist stay inside [universe] and name
    configuration files. *)
Definition fileReferencesWithin (h : Host) (universe : list string)
  (config : ParsedCommandLine) : Prop :=
  forall ref,
    In ref (projectReferences config) ->
    existsSync h ref = true ->
    In ref universe /\ Js.endsWith ref ".json" = true.

(** How many paths of [universe] are not in [seen]. *)
Definition unseen (universe seen : list string) : nat :=
  List.length (filter (fun p => negb (Js.includes seen p)) universe).

(** ** A workspace of two projects *)

Module Workspace.

(** [libs/a] and [libs/b], each with a [tsconfig.json] that references its
    own [tsconfig.lib.json]; [libs/a] also references the directory [libs/b],
    and its [tsconfig.lib.json] references the one of [libs/b]. *)
Definition aConfig : string := "/ws/libs/a/tsconfig.json".
Definition aLibConfig : string := "/ws/libs/a/tsconfig.lib.json".
Definition bDirectory : string := "/ws/libs/b".
Definition bConfig : string := "/ws/libs/b/tsconfig.json".
Definition bLibConfig : string := "/ws/libs/b/tsconfig.lib.json".

Definition twoProjects : Fixture.Tree :=
  Fixture.mkTree
    [("/ws", ["libs"; "package-lock.json"; "package.json"]);
     ("/ws/libs", ["a"; "b"]);
     ("/ws/libs/a", ["package.json"; "tsconfig.json"; "tsconfig.lib.json"]);
     ("/ws/libs/b", ["package.json"; "tsconfig.json"; "tsconfig.lib.json"])]
    [("/ws/package-lock.json", "lock");
     ("/ws/package.json", "{}");
     ("/ws/libs/a/package.json", "{}");
     (aConfig, "a");
     (aLibConfig, "a lib");
     ("/ws/libs/b/package.json", "{}");
     (bConfig, "b");
     (bLibConfig, "b lib")]
    [(aConfig, Scenario.references [aLibConfig; bDirectory]);
     (aLibConfig, Scenario.references [bLibConfig]);
     (bConfig, Scenario.references [bLibConfig]);
     (bLibConfig, Scenario.references [])]
    [("/ws/libs/a/package.json", JObject []);
     ("/ws/libs/b/package.json", JObject [])]
    [].

Definition host : Host := Fixture.host twoProjects.





(** [libs/a], whose [tsconfig.json] extends its [tsconfig.base.json], which
    extends a configuration of the package [@acme/presets]. *)
Definition presetSpecifier : string := "@acme/presets/tsconfig.json".

Definition withPreset : Fixture.Tree :=
  Fixture.mkTree
    [("/ws", ["libs"; "node_modules"; "package-lock.json"; "package.json"]);
     ("/ws/libs", ["a"]);
     ("/ws/libs/a", ["package.json"; "tsconfig.base.json"; "tsconfig.json"])]
    [("/ws/package-lock.json", "lock");
     ("/ws/package.json", "{}");
     ("/ws/libs/a/package.json", "{}");
     ("/ws/libs/a/tsconfig.json", "a");
     ("/ws/libs/a/tsconfig.base.json", "a base");
     ("/ws/node_modules/@acme/presets/tsconfig.json", "preset")]
    [("/ws/libs/a/tsconfig.json", Scenario.extending (Some "./tsconfig.base.json"));
     ("/ws/libs/a/tsconfig.base.json", Scenario.extending (Some presetSpecifier));
     ("/ws/node_modules/@acme/presets/tsconfig.json",
      Scenario.extending (Some "./tsconfig.json"))]
    [("/ws/libs/a/package.json", JObject [])]
    [(presetSpecifier, "/ws/node_modules/@acme/presets/tsconfig.json")].

Definition presetHost : Host := Fixture.host withPreset.

End Workspace.

(** ** Module specifiers *)

(** What may follow a package name in a specifier: nothing, or a path. *)
Definition subpath (tail : string) : Prop :=
  tail = "" \/ Js.startsWith tail "/" = true.

(** ** Paths a [package.json] hands out *)

(** [value], the value of one export, offers [path]: it is that string, or
    an object (or array) with [path] under a condition other than [types]. *)
Definition offers (value : JSON) (path : string) : Prop :=
  value = JString path
  \/ exists conditions key,
      JsonOps.entries value = Some conditions
      /\ In (key, JString path) conditions
      /\ key <> "types".

(** [path] is an entry point of the package: the [exports] string, a path
    offered by one of the exports, or, when [exports] is falsy, the [main]
    or [module] string. *)
Definition entryPoint (packageJson : JSON) (path : string) : Prop :=
  let exports := JsonOps.getOpt packageJson "exports" in
  (JsonOps.truthy exports = true
   /\ (exports = Some (JString path)
       \/ exists exported subpaths key value,
           exports = Some exported
           /\ JsonOps.entries exported = Some subpaths
           /\ In (key, value) subpaths
           /\ offers value path))
  \/ (JsonOps.truthy exports = false
      /\ exists field,
          In field ["main"; "module"]
          /\ JsonOps.getOpt packageJson field = Some (JString path)).

(** [Reaches h config ref]: [ref] is a reference of [config], or of a
    configuration file that an existing reference of [config] leads to. *)
Inductive Reaches (h : Host) : ParsedCommandLine -> string -> Prop :=
| reaches_directly (config : ParsedCommandLine) (ref : string) :
    In ref (projectReferences config) ->
    Reaches h config ref
| reaches_through (config : ParsedCommandLine) (via ref : string) :
    In via (projectReferences config) ->
    existsSync h via = true ->
    Reaches h (readTsConfig h (refConfigPathOf via)) ref ->
    Reaches h config ref.

(** ** Targets *)

(** The typecheck target [buildTscTargets] assigns. *)
Definition typecheckTarget (h : Host) (opts : NormalizedPluginOptions)
  (tc : TypecheckOptions) (projectRoot : string) (disabled : bool)
  (ins : list InputDefinition) (outs : list string) : TargetConfiguration :=
  mkTarget ["^" ++ typecheckTargetName tc]
    (if disabled then typecheckDisabledCommand
     else "tsc --build --emitDeclarationOnly" ++ verboseFlag opts)
    projectRoot true ins outs ["@nx/js:typescript-sync"]
    (helpMetadata h typecheckDescription).
(** * Properties *)

(** ** The path functions on examples *)

Example path_smoke :
  Path.dirname "libs/a/tsconfig.json" = "libs/a"
  /\ Path.dirname "tsconfig.json" = "."
  /\ Path.dirname "/a" = "/"
  /\ Path.dirname "a//b" = "a/"
  /\ Path.basename "libs/a/tsconfig.lib.json" = "tsconfig.lib.json"
  /\ Path.basenameExt "/ws/p/dist/bundle.js" ".js" = "bundle"
  /\ Path.basenameExt "a/js/" ".js" = "js/"
  /\ Path.extname "./src/index.js" = ".js"
  /\ Path.extname ".bashrc" = ""
  /\ Path.extname "a/..b" = ".b"
  /\ Path.join ["/ws"; "libs/a"; "package.json"] = "/ws/libs/a/package.json"
  /\ Path.join [""; "src"] = "src"
  /\ Path.join ["../x"; "../../y"] = "../../y"
  /\ Path.normalize "/ws/proj/sub/" = "/ws/proj/sub/"
  /\ Path.resolve "/cwd" ["/ws"; "libs/a"; "dist"] = "/ws/libs/a/dist"
  /\ Path.resolve "/cwd" ["dist"] = "/cwd/dist"
  /\ Path.relative "/cwd" "/ws/libs/a" "/ws/libs/a/dist/x.js" = "dist/x.js"
  /\ Path.relative "/cwd" "/ws/libs/a" "/ws/libs/b" = "../b"
  /\ Path.relative "/cwd" "/ws/libs/a" "/ws/libs/a" = ""
  /\ Path.relative "/cwd" "/a" "/" = ".."
  /\ joinPathFragments ["{projectRoot}"; "**/*.js"] = "{projectRoot}/**/*.js".
Proof. repeat split; reflexivity. Qed.

(** ** The config loader *)

Lemma recordGet_recordSet {V : Type} (k k' : string) (v : V) (r : Js.Record_ V) :
  Js.recordGet k' (Js.recordSet k v r)
  = if String.eqb k k' then Some v else Js.recordGet k' r.
Proof.
  induction r as [| [k0 v0] r IH]; cbn [Js.recordSet Js.recordGet].
  - reflexivity.
  - destruct (String.eqb k0 k) eqn:Hk0; cbn [Js.recordGet].
    + apply String.eqb_eq in Hk0. subst k0. now destruct (String.eqb k k').
    + destruct (String.eqb k0 k') eqn:Hk0'; [| exact IH].
      apply String.eqb_eq in Hk0'. subst k0. now rewrite String.eqb_sym, Hk0.
Qed.

(** From a coherent table [readCachedTsConfig] hands out what [loadTsConfig]
    does. *)
Lemma readCachedTsConfig_coherent (h : Host) (tsConfigCache : TsConfigCache)
  (tsConfigPath : string) :
  CoherentCache h tsConfigCache ->
  (r <- readCachedTsConfig h tsConfigCache tsConfigPath ;; Done (fst r))
  = loadTsConfig h tsConfigPath.
Proof.
  intros Hcoherent. unfold readCachedTsConfig, getTsConfigCacheKey, loadTsConfig.
  destruct (statIsFile h tsConfigPath) eqn:Hstat; cbn [bind]; [| reflexivity].
  destruct (Js.recordGet _ tsConfigCache) as [tsConfig |] eqn:Hget; cbn [bind fst];
    [| reflexivity].
  f_equal. apply Hcoherent; [congruence | exact Hget].
Qed.

(** When distinct existing paths have distinct keys, the table stays
    coherent. *)
Lemma readCachedTsConfig_keeps_coherent (h : Host) (tsConfigCache : TsConfigCache)
  (tsConfigPath : string) (tsConfig : ParsedCommandLine) (after : TsConfigCache) :
  (forall p q, statIsFile h p <> None -> statIsFile h q <> None ->
               p ++ "-" ++ mtimeMs h p = q ++ "-" ++ mtimeMs h q -> p = q) ->
  CoherentCache h tsConfigCache ->
  readCachedTsConfig h tsConfigCache tsConfigPath = Done (tsConfig, after) ->
  CoherentCache h after.
Proof.
  intros Hkeys Hcoherent H. unfold readCachedTsConfig, getTsConfigCacheKey in H.
  destruct (statIsFile h tsConfigPath) eqn:Hstat; cbn [bind] in H; [| discriminate].
  destruct (Js.recordGet _ tsConfigCache) eqn:Hget.
  - injection H as <- <-. exact Hcoherent.
  - injection H as <- <-. intros path found Hpath Hfound.
    rewrite recordGet_recordSet in Hfound.
    destruct (String.eqb _ _) eqn:Hkey.
    + apply String.eqb_eq in Hkey. apply Hkeys in Hkey; [| congruence | assumption].
      subst path. congruence.
    + now apply Hcoherent.
Qed.

(** ** Basic facts about the JavaScript helpers *)

Lemma includes_In (l : list string) (x : string) :
  Js.includes l x = true <-> In x l.
Proof.
  unfold Js.includes. rewrite existsb_exists. split.
  - intros (y & Hy & Heq). apply String.eqb_eq in Heq. now subst.
  - intros Hin. exists x. split; [assumption | apply String.eqb_refl].
Qed.

Lemma includes_not_In (l : list string) (x : string) :
  Js.includes l x = false <-> ~ In x l.
Proof.
  rewrite <- includes_In. destruct (Js.includes l x); split; intros; congruence.
Qed.

(** ** Degenerate configuration files *)


(** C9.  [createNodesInternal] returns the empty result [{}], without
    throwing and without touching the targets cache, whenever the
    configuration file sits at the workspace root, or its directory has
    neither [package.json] nor [project.json], or it is not named
    [tsconfig.json] and has no sibling [tsconfig.json], or its directory
    holds a Next.js configuration file. *)
Theorem createNodesInternal_declines_with_empty_result
  (h : Host) (fuel : nat) (configFilePath : string)
  (opts : NormalizedPluginOptions) (workspaceRoot lockFileName : string)
  (targetsCache : Js.Record_ TscProjectResult) :
  Path.dirname configFilePath = "."
  \/ (exists siblingFiles,
        readdirSync h (Path.join [workspaceRoot; Path.dirname configFilePath])
        = Some siblingFiles
        /\ declined configFilePath siblingFiles) ->
  createNodesInternal h fuel configFilePath opts workspaceRoot lockFileName targetsCache
  = Done (emptyResult, targetsCache).
Proof.
  intros [Hroot | (siblingFiles & Hdir & Hdecl)]; unfold createNodesInternal.
  - rewrite Hroot. reflexivity.
  - destruct (String.eqb (Path.dirname configFilePath) "."); [reflexivity |].
    rewrite Hdir.
    destruct (Js.includes siblingFiles "package.json") eqn:Hpkg;
      destruct (Js.includes siblingFiles "project.json") eqn:Hprj;
      destruct (String.eqb (Path.basename configFilePath) "tsconfig.json") eqn:Hbase;
      destruct (Js.includes siblingFiles "tsconfig.json") eqn:Hts;
      destruct (existsb (Js.includes siblingFiles) nextConfigFiles) eqn:Hnext;
      cbn [negb andb]; try reflexivity; exfalso;
      rewrite ?includes_In, ?includes_not_In in *;
      destruct Hdecl as [[Hp Hq] | [[Hb Ht] | (next & Hn & Hs)]];
      try tauto;
      try (apply String.eqb_eq in Hbase; tauto);
      try (apply Bool.not_true_iff_false in Hnext; apply Hnext;
           apply existsb_exists; exists next; split; [assumption |];
           now apply includes_In).
Qed.

(** ** The build gate *)

Ltac outcome_cases :=
  repeat match goal with
    | H : bind ?m _ = Done _ |- _ =>
        let E := fresh "E" in destruct m eqn:E; cbn [bind] in H; try discriminate H
    | H : Done _ = Done _ |- _ => injection H as H
    end.

Ltac outcome_step H x E :=
  match type of H with
  | bind ?m _ = Done _ =>
      destruct m as [x | |] eqn:E; cbn [bind] in H;
      [| discriminate H | discriminate H]
  end.

Lemma recordGet_singleton {V : Type} (k name : string) (v t : V) :
  Js.recordGet name [(k, v)] = Some t -> t = v.
Proof.
  cbn. destruct (String.eqb k name); congruence.
Qed.

Lemma typecheckBlock_only_typecheck (h : Host) (fuel : nat)
  (configFilePath projectRoot : string) (opts : NormalizedPluginOptions)
  (workspaceRoot : string) (tsConfig : ParsedCommandLine)
  (r : Targets * option (Js.Record_ ParsedCommandLine)) :
  typecheckBlock h fuel configFilePath projectRoot opts workspaceRoot tsConfig [] = Done r ->
  forall name t, Js.recordGet name (fst r) = Some t ->
                 description (metadata t) = typecheckDescription.
Proof.
  unfold typecheckBlock. intros H name t Hget.
  destruct (typecheck opts) as [tc |].
  - destruct (String.eqb (Path.basename configFilePath) "tsconfig.json").
    + outcome_cases. cbn [Js.recordGet] in H. outcome_cases. subst r.
      cbn [fst Js.recordSet] in Hget.
      apply recordGet_singleton in Hget. now subst t.
    + injection H as <-. discriminate Hget.
  - injection H as <-. discriminate Hget.
Qed.

Lemma buildGate_open (h : Host) (configFilePath projectRoot : string)
  (opts : NormalizedPluginOptions) (workspaceRoot : string)
  (tsConfig : ParsedCommandLine) (b : BuildOptions) :
  buildGate h configFilePath projectRoot opts workspaceRoot tsConfig = Done (Some b)
  <-> build opts = Some b
      /\ Path.basename configFilePath = configName b
      /\ isValidPackageJsonBuildConfig h tsConfig workspaceRoot projectRoot = Done true.
Proof.
  unfold buildGate. split.
  - destruct (build opts) as [b' |]; [| discriminate].
    destruct (String.eqb (Path.basename configFilePath) (configName b')) eqn:Hname;
      [| discriminate].
    intros H. outcome_cases. destruct a; [| discriminate].
    injection H as ->. apply String.eqb_eq in Hname. auto.
  - intros (-> & Hname & ->). rewrite Hname, String.eqb_refl. reflexivity.
Qed.

Lemma buildGate_closed (h : Host) (configFilePath projectRoot : string)
  (opts : NormalizedPluginOptions) (workspaceRoot : string)
  (tsConfig : ParsedCommandLine) :
  buildGate h configFilePath projectRoot opts workspaceRoot tsConfig = Done None
  <-> build opts = None
      \/ exists b, build opts = Some b
                   /\ (Path.basename configFilePath <> configName b
                       \/ isValidPackageJsonBuildConfig h tsConfig workspaceRoot
                            projectRoot = Done false).
Proof.
  unfold buildGate. split.
  - destruct (build opts) as [b |]; [| now left].
    intros H. right. exists b. split; [reflexivity |].
    destruct (String.eqb (Path.basename configFilePath) (configName b)) eqn:Hname.
    + right. outcome_cases. destruct a; [discriminate | reflexivity].
    + left. now apply String.eqb_neq.
  - intros [-> | (b & -> & [Hname | Hvalid])]; [reflexivity | |].
    + apply String.eqb_neq in Hname. now rewrite Hname.
    + rewrite Hvalid. now destruct (String.eqb _ _).
Qed.


Lemma buildTscTargets_gate (h : Host) (fuel : nat) (configFilePath projectRoot : string)
  (opts : NormalizedPluginOptions) (workspaceRoot : string) (res : TscProjectResult) :
  buildTscTargets h fuel configFilePath projectRoot opts workspaceRoot = Done res ->
  (exists b,
     build opts = Some b
     /\ Path.basename configFilePath = configName b
     /\ isValidPackageJsonBuildConfig h (readTsConfig h configFilePath)
          workspaceRoot projectRoot = Done true
     /\ withBuildTarget h b opts workspaceRoot projectRoot res)
  \/ ((build opts = None
       \/ exists b, build opts = Some b
                    /\ (Path.basename configFilePath <> configName b
                        \/ isValidPackageJsonBuildConfig h (readTsConfig h configFilePath)
                             workspaceRoot projectRoot = Done false))
      /\ onlyTypecheckTargets res).
Proof.
  unfold buildTscTargets, loadTsConfig. intros H.
  destruct (statIsFile h configFilePath); [| discriminate]. cbn [bind] in H.
  outcome_cases. rename a into r, a0 into gate, E into Hblock, E0 into Hgate.
  destruct gate as [bo |].
  - left. exists bo. apply buildGate_open in Hgate as (Hb & Hname & Hvalid).
    repeat split; try assumption.
    outcome_cases. subst res. unfold withBuildTarget. cbn [targets]. eauto.
  - right. apply buildGate_closed in Hgate. split; [assumption |].
    injection H as <-. unfold onlyTypecheckTargets. cbn [targets].
    eapply typecheckBlock_only_typecheck; eassumption.
Qed.

(** C5.  A build target is emitted only when the basename of the
    configuration file equals the configured build configuration name and
    [isValidPackageJsonBuildConfig] returns [true]: a run of
    [buildTscTargets] that returns either passed that gate and assigned the
    build target, or failed it and holds typecheck targets only.  With
    [outDir] set to [dist], a [package.json] with [main] at
    [src/index.ts] fails validation and no build target is emitted; one
    whose [.] export is [./dist/index.js] passes and the build target is
    emitted. *)
Theorem build_target_gated_by_name_and_package_json :
  (forall (h : Host) (fuel : nat) (configFilePath projectRoot : string)
          (opts : NormalizedPluginOptions) (workspaceRoot : string)
          (res : TscProjectResult),
      buildTscTargets h fuel configFilePath projectRoot opts workspaceRoot = Done res ->
      (exists b,
          build opts = Some b
          /\ Path.basename configFilePath = configName b
          /\ isValidPackageJsonBuildConfig h (readTsConfig h configFilePath)
               workspaceRoot projectRoot = Done true
          /\ withBuildTarget h b opts workspaceRoot projectRoot res)
      \/ ((build opts = None
           \/ exists b, build opts = Some b
                        /\ (Path.basename configFilePath <> configName b
                            \/ isValidPackageJsonBuildConfig h
                                 (readTsConfig h configFilePath)
                                 workspaceRoot projectRoot = Done false))
          /\ onlyTypecheckTargets res))
  /\ (let h := Fixture.host (Fixture.libraryTree Fixture.outDirDist Fixture.mainInSource) in
      isValidPackageJsonBuildConfig h
        (readTsConfig h "/ws/libs/mylib/tsconfig.lib.json") "/ws" "libs/mylib"
      = Done false
      /\ buildTscTargets h 1 "/ws/libs/mylib/tsconfig.lib.json" "libs/mylib"
           Fixture.buildOnly "/ws"
         = Done (mkResult []))
  /\ (let h := Fixture.host (Fixture.libraryTree Fixture.outDirDist Fixture.exportsInDist) in
      isValidPackageJsonBuildConfig h
        (readTsConfig h "/ws/libs/mylib/tsconfig.lib.json") "/ws" "libs/mylib"
      = Done true
      /\ exists t,
          option_map (fun res => Js.recordGet "build" (targets res))
            (match buildTscTargets h 1 "/ws/libs/mylib/tsconfig.lib.json" "libs/mylib"
                     Fixture.buildOnly "/ws" with
             | Done res => Some res
             | _ => None
             end)
          = Some (Some t)
          /\ command t = "tsc --build tsconfig.lib.json"
          /\ description (metadata t) = buildDescription).
Proof.
  split; [| split].
  - apply buildTscTargets_gate.
  - cbv zeta. split; vm_compute; reflexivity.
  - cbv zeta. split; [vm_compute; reflexivity |].
    eexists. split; [vm_compute; reflexivity |]. split; reflexivity.
Qed.

(** A run that the first part of C5 applies to: the library whose [.] export
    lies in [dist]. *)
Lemma build_target_gated_witness :
  let h := Fixture.host (Fixture.libraryTree Fixture.outDirDist Fixture.exportsInDist) in
  exists res,
    buildTscTargets h 1 "/ws/libs/mylib/tsconfig.lib.json" "libs/mylib"
      Fixture.buildOnly "/ws" = Done res
    /\ ((exists b,
            build Fixture.buildOnly = Some b
            /\ Path.basename "/ws/libs/mylib/tsconfig.lib.json" = configName b
            /\ isValidPackageJsonBuildConfig h
                 (readTsConfig h "/ws/libs/mylib/tsconfig.lib.json")
                 "/ws" "libs/mylib" = Done true
            /\ withBuildTarget h b Fixture.buildOnly "/ws" "libs/mylib" res)
        \/ ((build Fixture.buildOnly = None
             \/ exists b, build Fixture.buildOnly = Some b
                          /\ (Path.basename "/ws/libs/mylib/tsconfig.lib.json"
                              <> configName b
                              \/ isValidPackageJsonBuildConfig h
                                   (readTsConfig h "/ws/libs/mylib/tsconfig.lib.json")
                                   "/ws" "libs/mylib" = Done false))
            /\ onlyTypecheckTargets res)).
Proof.
  intro h. eexists. split.
  - vm_compute. reflexivity.
  - apply (proj1 build_target_gated_by_name_and_package_json h 1).
    vm_compute. reflexivity.
Defined.

(** A directory without a project description, to which C9 applies. *)
Lemma createNodesInternal_declines_witness :
  readdirSync (Fixture.host Scenario.bareTree)
    (Path.join ["/ws"; Path.dirname "libs/bare/tsconfig.json"])
  = Some ["src"; "tsconfig.json"]
  /\ createNodesInternal (Fixture.host Scenario.bareTree) 1 "libs/bare/tsconfig.json"
       Scenario.defaults "/ws" "package-lock.json" []
     = Done (emptyResult, []).
Proof.
  split; [reflexivity |].
  apply createNodesInternal_declines_with_empty_result.
  right. exists ["src"; "tsconfig.json"]. split; [reflexivity |].
  left. split; intros [H | [H | []]]; discriminate H.
Defined.

(** ** Validation when the compiler emits in place *)

Lemma resolvedOutDirOf_in_place (h : Host) (tsConfig : ParsedCommandLine)
  (workspaceRoot projectRoot : string) :
  Js.truthy (outFile (options tsConfig)) = false ->
  Js.truthy (outDir (options tsConfig)) = false ->
  resolvedOutDirOf h tsConfig workspaceRoot projectRoot = None.
Proof.
  unfold resolvedOutDirOf. intros -> ->. reflexivity.
Qed.

Lemma source_extension (extension : string) :
  Js.includes tsSourceExtensions extension = true
  <-> extension = ".ts" \/ extension = ".tsx" \/ extension = ".cts"
      \/ extension = ".mts".
Proof.
  unfold Js.includes, tsSourceExtensions. cbn [existsb].
  rewrite !orb_true_iff, !String.eqb_eq. intuition congruence.
Qed.

Lemma source_extension_not_empty (path : string) :
  Js.includes tsSourceExtensions (Path.extname path) = true -> path <> "".
Proof. intros H ->. discriminate H. Qed.

(** C10.  When the configuration sets neither [outFile] nor [outDir],
    [isValidPackageJsonBuildConfig] tells a source file by its extension
    alone: a path is taken for a source file exactly when its extension is
    [.ts], [.tsx], [.cts] or [.mts].  A [package.json] whose [main],
    [module], [exports] string or [.] export (a string, or a condition other
    than [types]) has such an extension fails validation and gets no build
    target; one whose [main] or whose [.] export is a path with another
    extension, such as [./src/index.js], passes, and the build target is
    emitted for it. *)
Theorem in_place_validation_looks_at_extension_only :
  (forall (h : Host) (tsConfig : ParsedCommandLine)
          (workspaceRoot projectRoot path : string),
      Js.truthy (outFile (options tsConfig)) = false ->
      Js.truthy (outDir (options tsConfig)) = false ->
      isPathSourceFile h (resolvedOutDirOf h tsConfig workspaceRoot projectRoot)
        workspaceRoot projectRoot path
      = Js.includes tsSourceExtensions (Path.extname path)
      /\ (isPathSourceFile h (resolvedOutDirOf h tsConfig workspaceRoot projectRoot)
            workspaceRoot projectRoot path = true
          <-> Path.extname path = ".ts" \/ Path.extname path = ".tsx"
              \/ Path.extname path = ".cts" \/ Path.extname path = ".mts"))
  /\ (forall (h : Host) (tsConfig : ParsedCommandLine)
             (workspaceRoot projectRoot path : string)
             (fields : list (string * JSON)),
         Js.truthy (outFile (options tsConfig)) = false ->
         Js.truthy (outDir (options tsConfig)) = false ->
         existsSync h (Path.join [workspaceRoot; projectRoot; "package.json"]) = true ->
         readJsonFile h (Path.join [workspaceRoot; projectRoot; "package.json"])
         = Some (JObject fields) ->
         Js.includes tsSourceExtensions (Path.extname path) = false ->
         (JsonOps.lookup "exports" fields = None
          /\ JsonOps.lookup "main" fields = Some (JString path)
          /\ JsonOps.lookup "module" fields = None)
         \/ (exists exported,
                JsonOps.lookup "exports" fields = Some (JObject exported)
                /\ JsonOps.lookup "." exported = Some (JString path)) ->
         isValidPackageJsonBuildConfig h tsConfig workspaceRoot projectRoot = Done true)
  /\ (forall (h : Host) (tsConfig : ParsedCommandLine)
             (workspaceRoot projectRoot path : string)
             (fields : list (string * JSON)),
         Js.truthy (outFile (options tsConfig)) = false ->
         Js.truthy (outDir (options tsConfig)) = false ->
         existsSync h (Path.join [workspaceRoot; projectRoot; "package.json"]) = true ->
         readJsonFile h (Path.join [workspaceRoot; projectRoot; "package.json"])
         = Some (JObject fields) ->
         Path.extname path = ".ts" \/ Path.extname path = ".tsx"
         \/ Path.extname path = ".cts" \/ Path.extname path = ".mts" ->
         (JsonOps.lookup "exports" fields = None
          /\ JsonOps.lookup "main" fields = Some (JString path))
         \/ (JsonOps.lookup "exports" fields = None
             /\ JsonOps.lookup "main" fields = None
             /\ JsonOps.lookup "module" fields = Some (JString path))
         \/ JsonOps.lookup "exports" fields = Some (JString path)
         \/ (exists exported,
                JsonOps.lookup "exports" fields = Some (JObject exported)
                /\ (JsonOps.lookup "." exported = Some (JString path)
                    \/ exists conditions condition,
                        JsonOps.lookup "." exported = Some (JObject conditions)
                        /\ In (condition, JString path) conditions
                        /\ condition <> "types")) ->
         isValidPackageJsonBuildConfig h tsConfig workspaceRoot projectRoot = Done false)
  /\ Path.extname "./src/index.js" = ".js"
  /\ Path.extname "src/index.ts" = ".ts"
  /\ (forall packageJson,
         packageJson = Fixture.mainJsInSource \/ packageJson = Fixture.exportsJsInSource ->
         let h := Fixture.host (Fixture.libraryTree Fixture.noOptions packageJson) in
         isValidPackageJsonBuildConfig h
           (readTsConfig h "/ws/libs/mylib/tsconfig.lib.json") "/ws" "libs/mylib"
         = Done true
         /\ exists t,
             option_map (fun res => Js.recordGet "build" (targets res))
               (match buildTscTargets h 1 "/ws/libs/mylib/tsconfig.lib.json"
                        "libs/mylib" Fixture.buildOnly "/ws" with
                | Done res => Some res
                | _ => None
                end)
             = Some (Some t)
             /\ description (metadata t) = buildDescription)
  /\ (forall packageJson,
         packageJson = Fixture.mainInSource
         \/ packageJson = JObject [("exports", JObject [(".", JString "./src/index.ts")])]
         \/ packageJson
            = JObject [("exports",
                        JObject [(".", JObject [("types", JString "./src/index.d.ts");
                                                ("import", JString "./src/index.mts")])])] ->
         let h := Fixture.host (Fixture.libraryTree Fixture.noOptions packageJson) in
         isValidPackageJsonBuildConfig h
           (readTsConfig h "/ws/libs/mylib/tsconfig.lib.json") "/ws" "libs/mylib"
         = Done false
         /\ buildTscTargets h 1 "/ws/libs/mylib/tsconfig.lib.json" "libs/mylib"
              Fixture.buildOnly "/ws"
            = Done (mkResult [])).
Proof.
  split; [| split; [| split; [| split; [| split; [| split]]]]].
  - intros h tsConfig workspaceRoot projectRoot path HoutFile HoutDir.
    rewrite resolvedOutDirOf_in_place by assumption.
    split; [reflexivity |]. apply source_extension.
  - intros h tsConfig workspaceRoot projectRoot path fields HoutFile HoutDir
      Hexists Hread Hext Hcases.
    unfold isValidPackageJsonBuildConfig.
    rewrite Hexists, Hread. cbn [negb].
    rewrite resolvedOutDirOf_in_place by assumption.
    unfold isPathSourceFile. cbn [Js.truthy JsonOps.getOpt].
    destruct Hcases as [(Hexports & Hmain & Hmodule) | (exported & Hexports & Hdot)].
    + rewrite Hexports. cbn [JsonOps.truthy buildPathsValid JsonOps.getOpt].
      rewrite Hmain, Hmodule. cbn [JsonOps.truthy].
      destruct (String.eqb path ""); cbn [negb]; [reflexivity |].
      rewrite Hext. reflexivity.
    + rewrite Hexports. cbn [JsonOps.truthy]. rewrite Hdot.
      cbn [containsInvalidPath bind]. rewrite Hext. reflexivity.
  - intros h tsConfig workspaceRoot projectRoot path fields HoutFile HoutDir
      Hexists Hread Hext Hcases.
    apply source_extension in Hext.
    pose proof (source_extension_not_empty path Hext) as Hpath.
    apply String.eqb_neq in Hpath.
    unfold isValidPackageJsonBuildConfig.
    rewrite Hexists, Hread. cbn [negb].
    rewrite resolvedOutDirOf_in_place by assumption.
    unfold isPathSourceFile. cbn [Js.truthy JsonOps.getOpt].
    destruct Hcases as [(Hexports & Hmain)
                       | [(Hexports & Hmain & Hmodule)
                         | [Hexports | (exported & Hexports & Hdot)]]].
    + rewrite Hexports. cbn [JsonOps.truthy buildPathsValid JsonOps.getOpt].
      rewrite Hmain. cbn [JsonOps.truthy]. rewrite Hpath. cbn [negb].
      now rewrite Hext.
    + rewrite Hexports. cbn [JsonOps.truthy buildPathsValid JsonOps.getOpt].
      rewrite Hmain, Hmodule. cbn [JsonOps.truthy]. rewrite Hpath. cbn [negb].
      now rewrite Hext.
    + rewrite Hexports. cbn [JsonOps.truthy]. rewrite Hpath. cbn [negb].
      now rewrite Hext.
    + rewrite Hexports. cbn [JsonOps.truthy].
      destruct Hdot as [Hdot | (conditions & condition & Hdot & Hin & Hcondition)];
        rewrite Hdot; cbn [containsInvalidPath JsonOps.entries bind].
      * now rewrite Hext.
      * replace (existsb _ conditions) with true; [reflexivity |].
        symmetry. apply existsb_exists. exists (condition, JString path).
        split; [exact Hin |]. cbn [fst snd].
        apply String.eqb_neq in Hcondition. now rewrite Hcondition.
  - reflexivity.
  - reflexivity.
  - intros packageJson [-> | ->]; cbv zeta;
      (split; [vm_compute; reflexivity |]);
      eexists; (split; [vm_compute; reflexivity | reflexivity]).
  - intros packageJson [-> | [-> | ->]]; cbv zeta;
      (split; vm_compute; reflexivity).
Qed.

(** The library whose [main] is [./src/index.js] passes, and the one whose
    [main] is [src/index.ts] fails: the second and third part of C10. *)
Lemma in_place_validation_witness :
  (let h := Fixture.host (Fixture.libraryTree Fixture.noOptions Fixture.mainJsInSource) in
   Js.truthy (outFile (options (readTsConfig h "/ws/libs/mylib/tsconfig.lib.json")))
   = false
   /\ Js.truthy (outDir (options (readTsConfig h "/ws/libs/mylib/tsconfig.lib.json")))
      = false
   /\ isValidPackageJsonBuildConfig h
        (readTsConfig h "/ws/libs/mylib/tsconfig.lib.json") "/ws" "libs/mylib"
      = Done true)
  /\ (let h := Fixture.host (Fixture.libraryTree Fixture.noOptions Fixture.mainInSource) in
      isValidPackageJsonBuildConfig h
        (readTsConfig h "/ws/libs/mylib/tsconfig.lib.json") "/ws" "libs/mylib"
      = Done false).
Proof.
  split.
  - intro h. split; [reflexivity |]. split; [reflexivity |].
    apply (proj1 (proj2 in_place_validation_looks_at_extension_only)
             h _ "/ws" "libs/mylib" "./src/index.js"
             [("main", JString "./src/index.js")]);
      try reflexivity.
    left. repeat split; reflexivity.
  - intro h.
    apply (proj1 (proj2 (proj2 in_place_validation_looks_at_extension_only))
             h _ "/ws" "libs/mylib" "src/index.ts"
             [("main", JString "src/index.ts")]);
      try reflexivity.
    + now left.
    + left. split; reflexivity.
Defined.

(** ** Broken references *)

Lemma walkReferencesLoop_skips_missing {St : Type} (h : Host)
  (recurse : ParsedCommandLine -> St -> Outcome St) (visitor : Visitor St)
  (known : Js.Record_ ParsedCommandLine) (missing : string) (after : list string) :
  existsSync h missing = false ->
  forall (before : list string) (st : St),
    walkReferencesLoop h recurse visitor known (before ++ missing :: after) st
    = walkReferencesLoop h recurse visitor known (before ++ after) st.
Proof.
  intros Hmissing.
  induction before as [| ref before IH]; intros st; cbn [app walkReferencesLoop].
  - rewrite Hmissing. cbn [negb]. now destruct (Js.recordGet missing known).
  - destruct (Js.recordGet ref known); [apply IH |].
    destruct (negb (existsSync h ref)); [apply IH |].
    destruct (loadTsConfig h (refConfigPathOf ref)) as [refTsConfig | |];
      cbn [bind]; try reflexivity.
    destruct (visitor (refConfigPathOf ref) refTsConfig st) as [[st' result] | |];
      cbn [bind fst snd]; try reflexivity.
    destruct result; [apply IH |].
    destruct (recurse refTsConfig st'); cbn [bind]; try reflexivity. apply IH.
Qed.

Lemma hasExternalReferencesLoop_skips_missing (h : Host)
  (recurse : string -> ParsedCommandLine -> list string -> Outcome (bool * list string))
  (fuel : nat) (workspaceRoot projectRoot : string)
  (missing : string) (after : list string) :
  existsSync h missing = false ->
  forall (before : list string) (seen : list string),
    hasExternalReferencesLoop h recurse fuel workspaceRoot projectRoot
      (before ++ missing :: after) seen
    = hasExternalReferencesLoop h recurse fuel workspaceRoot projectRoot
        (before ++ after) seen.
Proof.
  intros Hmissing.
  induction before as [| ref before IH]; intros seen;
    cbn [app hasExternalReferencesLoop].
  - rewrite Hmissing. cbn [negb]. now destruct (Js.includes seen missing).
  - destruct (Js.includes seen ref); [apply IH |].
    destruct (negb (existsSync h ref)); [apply IH |].
    destruct (isExternalProjectReference h fuel ref workspaceRoot projectRoot)
      as [[|] | |]; cbn [bind]; try reflexivity.
    destruct (loadTsConfig h (refConfigPathOf ref)) as [refTsConfig | |];
      cbn [bind]; try reflexivity.
    destruct (recurse (refConfigPathOf ref) refTsConfig seen) as [[found seen'] | |];
      cbn [bind fst snd]; try reflexivity.
    destruct found; [reflexivity | apply IH].
Qed.

(** C8.  A project reference whose target does not exist is skipped in
    silence.  Walking a configuration that lists it gives, for every
    visitor, every state and every amount of fuel, the very outcome of
    walking the configuration without it: the same visits in the same
    order (the visitor may be one that logs its invocations), the same
    final state, no throw that is not there already.  The loop of
    [hasExternalProjectReferences] skips it in the same way. *)
Theorem missing_reference_is_skipped :
  forall (h : Host) (missing : string) (before after : list string),
    existsSync h missing = false ->
    (forall (St : Type) (fuel : nat) (tsConfig : ParsedCommandLine)
            (workspaceRoot projectRoot : string) (visitor : Visitor St)
            (known : Js.Record_ ParsedCommandLine) (st : St),
        walkProjectReferences h fuel
          (withReferences tsConfig (before ++ missing :: after))
          workspaceRoot projectRoot visitor known st
        = walkProjectReferences h fuel (withReferences tsConfig (before ++ after))
            workspaceRoot projectRoot visitor known st)
    /\ (forall (St : Type) (fuel : nat) (workspaceRoot projectRoot : string)
               (visitor : Visitor St) (known : Js.Record_ ParsedCommandLine)
               (st : St) (log : list string),
           walkProjectReferences h fuel (withReferences Fixture.emptyParsed [missing])
             workspaceRoot projectRoot (logged visitor) known (st, log)
           = match fuel with
             | O => OutOfFuel
             | S _ => Done (st, log)
             end)
    /\ (forall recurse (fuel : nat) (workspaceRoot projectRoot : string)
               (seen : list string),
           hasExternalReferencesLoop h recurse fuel workspaceRoot projectRoot
             (before ++ missing :: after) seen
           = hasExternalReferencesLoop h recurse fuel workspaceRoot projectRoot
               (before ++ after) seen).
Proof.
  intros h missing before after Hmissing. split; [| split].
  - intros St fuel tsConfig workspaceRoot projectRoot visitor known st.
    destruct fuel as [| fuel]; [reflexivity |].
    cbn [walkProjectReferences withReferences projectReferences].
    now apply walkReferencesLoop_skips_missing.
  - intros St fuel workspaceRoot projectRoot visitor known st log.
    destruct fuel as [| fuel]; [reflexivity |].
    cbn [walkProjectReferences withReferences projectReferences walkReferencesLoop].
    rewrite Hmissing. cbn [negb]. now destruct (Js.recordGet missing known).
  - intros. now apply hasExternalReferencesLoop_skips_missing.
Qed.

(** The walk over [tsconfig.json]: the reference that is gone changes
    nothing. *)
Lemma missing_reference_witness :
  let h := Fixture.host Scenario.plainReferences in
  existsSync h Scenario.goneReference = false
  /\ walkProjectReferences h 2
       (withReferences (readTsConfig h Scenario.rootConfig)
          ([Scenario.libConfig] ++ Scenario.goneReference :: [Scenario.specConfig]))
       "/ws" "libs/a" (logged (internalVisitor h 2 "/ws" "libs/a")) [] ([], [])
     = walkProjectReferences h 2
         (withReferences (readTsConfig h Scenario.rootConfig)
            ([Scenario.libConfig] ++ [Scenario.specConfig]))
         "/ws" "libs/a" (logged (internalVisitor h 2 "/ws" "libs/a")) [] ([], []).
Proof.
  intro h. split; [reflexivity |].
  apply (proj1 (missing_reference_is_skipped h Scenario.goneReference
                  [Scenario.libConfig] [Scenario.specConfig] eq_refl)).
Defined.

(** ** Reference cycles and repeated visits *)

Section CyclicReferences.

Let h : Host := Fixture.host Scenario.cyclicReferences.

Lemma cyclic_root_internal (fuel : nat) :
  isExternalProjectReference h (S fuel) Scenario.rootConfig "/ws" "libs/a" = Done false.
Proof. reflexivity. Qed.

Lemma cyclic_lib_internal (fuel : nat) :
  isExternalProjectReference h (S fuel) Scenario.libConfig "/ws" "libs/a" = Done false.
Proof. reflexivity. Qed.

Lemma cyclic_classifier_without_fuel (path : string) :
  path = Scenario.rootConfig \/ path = Scenario.libConfig ->
  isExternalProjectReference h 0 path "/ws" "libs/a" = OutOfFuel.
Proof. intros [-> | ->]; reflexivity. Qed.

(** Both configurations of the cycle send the walk into the other one,
    whatever has been collected so far. *)
Lemma cyclic_walk_never_returns (visitorFuel : nat) :
  forall (fuel : nat) (collected : Js.Record_ ParsedCommandLine),
    walkProjectReferences h fuel (readTsConfig h Scenario.rootConfig) "/ws" "libs/a"
      (internalVisitor h visitorFuel "/ws" "libs/a") [] collected = OutOfFuel
    /\ walkProjectReferences h fuel (readTsConfig h Scenario.libConfig) "/ws" "libs/a"
         (internalVisitor h visitorFuel "/ws" "libs/a") [] collected = OutOfFuel.
Proof.
  induction fuel as [| fuel IH]; intros collected; [split; reflexivity |].
  split.
  - change (walkProjectReferences h (S fuel) (readTsConfig h Scenario.rootConfig)
              "/ws" "libs/a" (internalVisitor h visitorFuel "/ws" "libs/a") []
              collected)
      with (r <- internalVisitor h visitorFuel "/ws" "libs/a" Scenario.libConfig
                   (readTsConfig h Scenario.libConfig) collected ;;
            match snd r with
            | ReturnsFalse => Done (fst r)
            | ReturnsVoid =>
                st' <- walkProjectReferences h fuel (readTsConfig h Scenario.libConfig)
                         "/ws" "libs/a" (internalVisitor h visitorFuel "/ws" "libs/a")
                         [] (fst r) ;;
                Done st'
            end).
    unfold internalVisitor at 1.
    destruct visitorFuel as [| visitorFuel].
    + rewrite cyclic_classifier_without_fuel by now right. reflexivity.
    + rewrite cyclic_lib_internal. cbn [bind snd fst].
      now rewrite (proj2 (IH _)).
  - change (walkProjectReferences h (S fuel) (readTsConfig h Scenario.libConfig)
              "/ws" "libs/a" (internalVisitor h visitorFuel "/ws" "libs/a") []
              collected)
      with (r <- internalVisitor h visitorFuel "/ws" "libs/a" Scenario.rootConfig
                   (readTsConfig h Scenario.rootConfig) collected ;;
            match snd r with
            | ReturnsFalse => Done (fst r)
            | ReturnsVoid =>
                st' <- walkProjectReferences h fuel (readTsConfig h Scenario.rootConfig)
                         "/ws" "libs/a" (internalVisitor h visitorFuel "/ws" "libs/a")
                         [] (fst r) ;;
                Done st'
            end).
    unfold internalVisitor at 1.
    destruct visitorFuel as [| visitorFuel].
    + rewrite cyclic_classifier_without_fuel by now left. reflexivity.
    + rewrite cyclic_root_internal. cbn [bind snd fst].
      now rewrite (proj1 (IH _)).
Qed.

End CyclicReferences.

(** C1.  What the walk does on the two graphs the claim is about.  On
    the cycle [tsconfig.json -> tsconfig.lib.json -> tsconfig.json], both
    internal, [resolveInternalProjectReferences] does not return for any
    amount of fuel: the map [walkProjectReferences] consults for references
    already resolved is never filled, and the recursive call starts from a
    fresh one.  On the diamond, the visitor is invoked twice with
    [tsconfig.base.json] in one traversal.  On the same cycle the shallow
    variant, whose visitor always stops the descent, returns, and so does
    [hasExternalProjectReferences], which hands its set of seen paths
    down. *)
Theorem walkProjectReferences_revisits_and_cycles :
  (forall fuel,
      let h := Fixture.host Scenario.cyclicReferences in
      resolveInternalProjectReferences h fuel (readTsConfig h Scenario.rootConfig)
        "/ws" "libs/a" [] = OutOfFuel)
  /\ (let h := Fixture.host Scenario.diamondReferences in
      exists collected,
        walkProjectReferences h 3 (readTsConfig h Scenario.rootConfig) "/ws" "libs/a"
          (logged (internalVisitor h 3 "/ws" "libs/a")) [] ([], [])
        = Done (collected,
                [Scenario.libConfig; Scenario.baseConfig;
                 Scenario.specConfig; Scenario.baseConfig]))
  /\ (let h := Fixture.host Scenario.cyclicReferences in
      resolveShallowExternalProjectReferences h 1 (readTsConfig h Scenario.rootConfig)
        "/ws" "libs/a" [] = Done []
      /\ hasExternalProjectReferences h 2 Scenario.rootConfig
           (readTsConfig h Scenario.rootConfig) "/ws" "libs/a" []
         = Done (false, [Scenario.rootConfig; Scenario.libConfig])).
Proof.
  split; [| split].
  - intros fuel h. unfold resolveInternalProjectReferences.
    apply cyclic_walk_never_returns.
  - cbv zeta. eexists. vm_compute. reflexivity.
  - cbv zeta. split; vm_compute; reflexivity.
Qed.

(** ** Chains of [extends] *)

Lemma setAdd_NoDup (x : string) (s : list string) :
  NoDup s -> NoDup (Js.setAdd x s).
Proof.
  intros Hs. unfold Js.setAdd.
  destruct (Js.includes s x) eqn:Hin; [assumption |].
  apply includes_not_In in Hin.
  induction Hs as [| y s Hy Hs IH]; cbn [app].
  - constructor; [intros [] | constructor].
  - constructor.
    + rewrite in_app_iff. intros [Hys | [-> | []]]; [tauto |].
      apply Hin. now left.
    + apply IH. intros Hxs. apply Hin. now right.
Qed.

Lemma getExtendedConfigFilesLoop_NoDup (h : Host) :
  forall (fuel : nat) (path : string) (config : ParsedCommandLine)
         (found foundPackages : list string) (r : ExtendedConfigFiles),
    NoDup found -> NoDup foundPackages ->
    getExtendedConfigFilesLoop h fuel path config found foundPackages = Done r ->
    NoDup (files r) /\ NoDup (packages r).
Proof.
  induction fuel as [| fuel IH]; intros path config found foundPackages r Hf Hp H;
    [discriminate |].
  cbn [getExtendedConfigFilesLoop] in H.
  destruct (Js.truthy (extends (raw config))).
  - destruct (resolveExtendedTsConfigPath h _ _) as [ext |].
    + destruct (Js.truthy (externalPackage ext)).
      * injection H as <-. cbn [files packages]. auto using setAdd_NoDup.
      * outcome_cases. eapply IH; [| | eassumption]; auto using setAdd_NoDup.
    + injection H as <-. auto.
  - injection H as <-. auto.
Qed.

Lemma getExtendedConfigFilesLoop_finite_chain (h : Host) :
  forall (path : string) (config : ParsedCommandLine) (n : nat),
    ChainEnds h path config n ->
    forall (fuel : nat) (found foundPackages : list string),
      n < fuel ->
      getExtendedConfigFilesLoop h fuel path config found foundPackages <> OutOfFuel.
Proof.
  induction 1 as [path config Hstop | path config next n Hstep Hrest IH];
    intros fuel found foundPackages Hfuel;
    (destruct fuel as [| fuel]; [lia |]); cbn [getExtendedConfigFilesLoop].
  - destruct (Js.truthy (extends (raw config))) eqn:Htruthy; [| discriminate].
    destruct (resolveExtendedTsConfigPath h _ _) as [ext |] eqn:Hres; [| discriminate].
    destruct (Js.truthy (externalPackage ext)) eqn:Hpkg; [discriminate |].
    exfalso. apply (Hstop (filePath ext)). split; [assumption |].
    exists ext. auto.
  - destruct Hstep as (Htruthy & ext & Hres & Hpkg & Hnext).
    rewrite Htruthy, Hres, Hpkg, Hnext.
    unfold loadTsConfig.
    destruct (statIsFile h next); cbn [bind]; [| discriminate].
    apply IH. lia.
Qed.

Section CyclicExtends.

Let h : Host := Fixture.host Scenario.cyclicExtends.

Lemma cyclic_extends_never_returns :
  forall (fuel : nat) (found foundPackages : list string),
    getExtendedConfigFilesLoop h fuel Scenario.rootConfig
      (readTsConfig h Scenario.rootConfig) found foundPackages = OutOfFuel
    /\ getExtendedConfigFilesLoop h fuel Scenario.baseConfig
         (readTsConfig h Scenario.baseConfig) found foundPackages = OutOfFuel.
Proof.
  induction fuel as [| fuel IH]; intros found foundPackages; [split; reflexivity |].
  split.
  - change (getExtendedConfigFilesLoop h (S fuel) Scenario.rootConfig
              (readTsConfig h Scenario.rootConfig) found foundPackages)
      with (getExtendedConfigFilesLoop h fuel Scenario.baseConfig
              (readTsConfig h Scenario.baseConfig)
              (Js.setAdd Scenario.baseConfig found) foundPackages).
    apply IH.
  - change (getExtendedConfigFilesLoop h (S fuel) Scenario.baseConfig
              (readTsConfig h Scenario.baseConfig) found foundPackages)
      with (getExtendedConfigFilesLoop h fuel Scenario.rootConfig
              (readTsConfig h Scenario.rootConfig)
              (Js.setAdd Scenario.rootConfig found) foundPackages).
    apply IH.
Qed.

End CyclicExtends.

(** C2, as the claim states it, fails on a cycle:
    [tsconfig.json] extends [tsconfig.base.json] extends [tsconfig.json],
    and [getExtendedConfigFiles] returns for no amount of fuel. *)
Lemma getExtendedConfigFiles_cycle_does_not_terminate :
  ~ exists fuel,
      getExtendedConfigFiles (Fixture.host Scenario.cyclicExtends) fuel
        Scenario.rootConfig
        (readTsConfig (Fixture.host Scenario.cyclicExtends) Scenario.rootConfig)
      <> OutOfFuel.
Proof.
  intros (fuel & H). apply H. apply cyclic_extends_never_returns.
Qed.

(** C2, amended.  On a chain of [extends] that leaves the files after
    finitely many steps (a configuration without [extends], a specifier that
    does not resolve, or an external package), [getExtendedConfigFiles]
    terminates once it is given more fuel than the chain has steps; and
    whenever it returns, no file and no package occurs twice in what it
    returns. *)
Theorem getExtendedConfigFiles_finite_chain :
  (forall (h : Host) (tsConfigPath : string) (tsConfig : ParsedCommandLine)
          (n fuel : nat),
      ChainEnds h tsConfigPath tsConfig n ->
      n < fuel ->
      getExtendedConfigFiles h fuel tsConfigPath tsConfig <> OutOfFuel)
  /\ (forall (h : Host) (fuel : nat) (tsConfigPath : string)
             (tsConfig : ParsedCommandLine) (r : ExtendedConfigFiles),
         getExtendedConfigFiles h fuel tsConfigPath tsConfig = Done r ->
         NoDup (files r) /\ NoDup (packages r)).
Proof.
  split.
  - intros h tsConfigPath tsConfig n fuel Hchain Hfuel.
    unfold getExtendedConfigFiles.
    eapply getExtendedConfigFilesLoop_finite_chain; eassumption.
  - intros h fuel tsConfigPath tsConfig r H.
    eapply getExtendedConfigFilesLoop_NoDup; [| | exact H]; constructor.
Qed.

(** A chain of two steps, to which the first part of C2 applies. *)
Lemma getExtendedConfigFiles_finite_chain_witness :
  let h := Fixture.host Scenario.chainedExtends in
  ChainEnds h Scenario.libConfig (readTsConfig h Scenario.libConfig) 2
  /\ getExtendedConfigFiles h 3 Scenario.libConfig (readTsConfig h Scenario.libConfig)
     <> OutOfFuel.
Proof.
  intro h.
  assert (Hchain : ChainEnds h Scenario.libConfig (readTsConfig h Scenario.libConfig) 2).
  { apply (chain_goes_on h _ _ Scenario.rootConfig).
    { split; [reflexivity |]. eexists. repeat split. }
    apply (chain_goes_on h _ _ Scenario.baseConfig).
    { split; [reflexivity |]. eexists. repeat split. }
    apply chain_stops. intros next (Htruthy & _). discriminate Htruthy. }
  split; [exact Hchain |].
  apply (proj1 getExtendedConfigFiles_finite_chain h _ _ 2 3 Hchain).
  apply Nat.lt_succ_diag_r.
Defined.

(** ** Classification of a reference *)

Lemma length_append (a b : string) :
  String.length (a ++ b) = String.length a + String.length b.
Proof.
  induction a as [| c a IH]; cbn; [reflexivity | now rewrite IH].
Qed.

Lemma list_ascii_of_string_append (a b : string) :
  list_ascii_of_string (a ++ b)
  = (list_ascii_of_string a ++ list_ascii_of_string b)%list.
Proof.
  induction a as [| c a IH]; cbn; [reflexivity | now rewrite IH].
Qed.

Lemma dropWhile_notSlash_app (l rest : list ascii) :
  forallb Path.notSlash l = true ->
  Path.dropWhile Path.notSlash (l ++ "/"%char :: rest) = "/"%char :: rest.
Proof.
  induction l as [| c l IH]; cbn; [reflexivity |].
  intros H. apply andb_prop in H as [Hc Hl]. rewrite Hc. auto.
Qed.

Lemma forallb_rev {A : Type} (f : A -> bool) (l : list A) :
  forallb f (rev l) = forallb f l.
Proof.
  induction l as [| x l IH]; cbn; [reflexivity |].
  rewrite forallb_app, IH. cbn. rewrite andb_true_r. apply andb_comm.
Qed.

(** [dirname] of a child gives the parent back. *)
Lemma dirname_child (parent seg : string) :
  parent <> "" -> parent <> "/" -> plainSegment seg ->
  Path.dirname (parent ++ "/" ++ seg) = parent.
Proof.
  intros Hne Hroot [Hseg Hplain].
  destruct parent as [| c0 rest]; [congruence |].
  cbn [append]. unfold Path.dirname.
  change (String c0 rest ++ "/" ++ seg) with (String c0 (rest ++ String "/" seg)).
  cbv beta iota.
  change (rest ++ String "/" seg) with (rest ++ String "/" seg).
  rewrite list_ascii_of_string_append. cbn [list_ascii_of_string].
  rewrite rev_app_distr. cbn [rev]. rewrite <- app_assoc. cbn [app].
  assert (Hrev : forallb Path.notSlash (rev (list_ascii_of_string seg)) = true)
    by now rewrite forallb_rev.
  destruct (rev (list_ascii_of_string seg)) as [| c l] eqn:Hl.
  - exfalso. apply Hseg.
    rewrite <- (string_of_list_ascii_of_string seg).
    rewrite <- (rev_involutive (list_ascii_of_string seg)), Hl. reflexivity.
  - cbn [app Path.dropWhile].
    cbn [forallb] in Hrev. apply andb_prop in Hrev as [Hc Hrest].
    unfold Path.notSlash in Hc. apply negb_true_iff in Hc. rewrite Hc.
    cbn [Path.dropWhile]. unfold Path.notSlash at 1. rewrite Hc. cbn [negb].
    rewrite dropWhile_notSlash_app by assumption.
    rewrite length_rev, rev_involutive, string_of_list_ascii_of_string.
    destruct (Path.isSlash c0) eqn:Hc0; cbn [andb]; [| reflexivity].
    destruct rest as [| c1 rest]; cbn; [| reflexivity].
    exfalso. apply Hroot. unfold Path.isSlash in Hc0.
    apply Ascii.eqb_eq in Hc0. now subst c0.
Qed.

Lemma descend_snoc (root : string) (segs : list string) (seg : string) :
  descend root (segs ++ [seg]) = descend root segs ++ "/" ++ seg.
Proof.
  unfold descend. now rewrite fold_left_app.
Qed.

Lemma descend_length (segs : list string) :
  forall root, String.length root + List.length segs <= String.length (descend root segs).
Proof.
  induction segs as [| seg segs IH]; intros root; cbn [descend fold_left List.length].
  - lia.
  - specialize (IH (root ++ "/" ++ seg)). unfold descend in IH.
    rewrite length_append in IH. cbn [String.length append] in IH.
    eapply Nat.le_trans; [| exact IH]. lia.
Qed.

Lemma descend_not_root (root : string) (segs : list string) :
  segs <> [] -> descend root segs <> root.
Proof.
  intros Hne Heq. pose proof (descend_length segs root) as Hlen.
  rewrite Heq in Hlen. destruct segs; [congruence | cbn in Hlen; lia].
Qed.

Lemma descend_not_trivial (root : string) (segs : list string) :
  root <> "" -> root <> "/" -> descend root segs <> "" /\ descend root segs <> "/".
Proof.
  intros Hne Hroot. destruct segs as [| seg segs]; [now split |].
  pose proof (descend_length (seg :: segs) root) as Hlen.
  assert (0 < String.length root) by (destruct root; [congruence | cbn; lia]).
  cbn [List.length] in Hlen.
  split; intros Heq; rewrite Heq in Hlen; cbn in Hlen; lia.
Qed.

(** The loop walks up through [dirsBelow] and stops at the first marker. *)
Lemma isExternalProjectReferenceLoop_walks_up (h : Host) (root : string) :
  root <> "" -> root <> "/" ->
  forall (segsRev : list string) (fuel : nat),
    Forall plainSegment segsRev ->
    List.length segsRev < fuel ->
    isExternalProjectReferenceLoop h fuel (descend root (rev segsRev)) root
    = Done (existsb (hasProjectMarker h) (dirsBelow root segsRev)).
Proof.
  intros Hne Hroot.
  induction segsRev as [| seg outer IH]; intros fuel Hplain Hfuel;
    (destruct fuel as [| fuel]; [cbn in Hfuel; lia |]);
    cbn [isExternalProjectReferenceLoop].
  - cbn [rev descend fold_left]. now rewrite String.eqb_refl.
  - assert (Hcur : descend root (rev (seg :: outer)) <> root).
    { apply descend_not_root. cbn [rev]. now destruct (rev outer). }
    apply String.eqb_neq in Hcur. rewrite Hcur.
    cbn [dirsBelow existsb].
    destruct (hasProjectMarker h (descend root (rev (seg :: outer)))); [reflexivity |].
    cbn [orb rev]. rewrite descend_snoc.
    inversion Hplain as [| ? ? Hseg Houter]; subst.
    destruct (descend_not_trivial root (rev outer) Hne Hroot) as [H1 H2].
    rewrite dirname_child by assumption.
    apply IH; [assumption | cbn in Hfuel; lia].
Qed.

Lemma normalize_nonempty (p : string) : Path.normalize p <> "".
Proof.
  unfold Path.normalize.
  destruct (String.eqb p ""); [discriminate |].
  destruct (String.eqb (Path.normalizeString p (negb (Path.isAbsolute p))) "") eqn:Hq.
  - destruct (Path.isAbsolute p); [discriminate |].
    destruct (Js.endsWith p "/"); discriminate.
  - apply String.eqb_neq in Hq.
    destruct (Path.isAbsolute p); [discriminate |].
    destruct (Js.endsWith p "/"); [| assumption].
    destruct (Path.normalizeString p (negb false)); [congruence | discriminate].
Qed.

Lemma join_nonempty (args : list string) : Path.join args <> "".
Proof.
  unfold Path.join.
  destruct (filter (fun a => negb (String.eqb a "")) args);
    [discriminate | apply normalize_nonempty].
Qed.

(** C7.  [isExternalProjectReference] takes the parent directory of a
    referenced file and the normalized path of a referenced directory.  It
    answers [true] when the path from the project root to that directory
    starts with [..].  When the directory is the root followed by segments,
    it terminates within one step per segment and answers exactly
    [classifiedExternal]: [true] when the relative path starts with [..] or
    one of the directories from the referenced one up to, but not
    including, the root holds [package.json] or [project.json], and [false]
    otherwise. *)
Theorem isExternalProjectReference_classifies :
  forall (h : Host) (refTsConfigPath workspaceRoot projectRoot : string) (isFile : bool),
    statIsFile h refTsConfigPath = Some isFile ->
    let root := Path.join [workspaceRoot; projectRoot] in
    let dir :=
      if isFile then Path.dirname refTsConfigPath else Path.normalize refTsConfigPath in
    (Js.startsWith (Path.relative (cwd h) root dir) ".." = true ->
     forall fuel,
       isExternalProjectReference h fuel refTsConfigPath workspaceRoot projectRoot
       = Done true)
    /\ (forall (segsRev : list string) (fuel : nat),
           root <> "/" ->
           Forall plainSegment segsRev ->
           dir = descend root (rev segsRev) ->
           List.length segsRev < fuel ->
           isExternalProjectReference h fuel refTsConfigPath workspaceRoot projectRoot
           = Done (classifiedExternal h root dir segsRev)).
Proof.
  intros h refTsConfigPath workspaceRoot projectRoot isFile Hstat root dir.
  assert (Hdir : getTsConfigDirName h refTsConfigPath = Done dir).
  { unfold getTsConfigDirName. rewrite Hstat. now destruct isFile. }
  split.
  - intros Houtside fuel. unfold isExternalProjectReference.
    rewrite Hdir. cbn [bind]. fold root. now rewrite Houtside.
  - intros segsRev fuel Hroot Hplain Hbelow Hfuel.
    unfold isExternalProjectReference, classifiedExternal.
    rewrite Hdir. cbn [bind]. fold root.
    destruct (Js.startsWith (Path.relative (cwd h) root dir) ".."); [reflexivity |].
    cbn [orb]. rewrite Hbelow.
    apply isExternalProjectReferenceLoop_walks_up; try assumption.
    apply join_nonempty.
Qed.

(** A reference into the nested project [libs/a/nested], and one into a
    directory of [libs/a] itself, both classified through C7. *)
Lemma isExternalProjectReference_classifies_witness :
  let h := Fixture.host Scenario.nestedTree in
  (statIsFile h "/ws/libs/a/nested/sub/tsconfig.json" = Some true
   /\ isExternalProjectReference h 3 "/ws/libs/a/nested/sub/tsconfig.json" "/ws" "libs/a"
      = Done true)
  /\ (statIsFile h "/ws/libs/a/inner/deep" = Some false
      /\ isExternalProjectReference h 3 "/ws/libs/a/inner/deep" "/ws" "libs/a"
         = Done false).
Proof.
  intro h. split; (split; [reflexivity |]).
  - apply (proj2 (isExternalProjectReference_classifies h
                    "/ws/libs/a/nested/sub/tsconfig.json" "/ws" "libs/a" true eq_refl)
             ["sub"; "nested"] 3).
    + discriminate.
    + repeat constructor; discriminate.
    + reflexivity.
    + repeat constructor.
  - apply (proj2 (isExternalProjectReference_classifies h
                    "/ws/libs/a/inner/deep" "/ws" "libs/a" false eq_refl)
             ["deep"; "inner"] 3).
    + discriminate.
    + repeat constructor; discriminate.
    + reflexivity.
    + repeat constructor.
Defined.

(** ** Sets in insertion order *)

Lemma setAdd_In (x y : string) (s : list string) :
  In y (Js.setAdd x s) <-> In y s \/ y = x.
Proof.
  unfold Js.setAdd. destruct (Js.includes s x) eqn:Hin.
  - apply includes_In in Hin. split; [auto | intros [H | ->]; assumption].
  - rewrite in_app_iff. cbn. intuition auto.
Qed.

Lemma setAdd_fresh (x : string) (s : list string) :
  ~ In x s -> Js.setAdd x s = (s ++ [x])%list.
Proof.
  intros H. apply includes_not_In in H. unfold Js.setAdd. now rewrite H.
Qed.

Lemma setAdd_length (x : string) (s : list string) :
  List.length (Js.setAdd x s) <= S (List.length s).
Proof.
  unfold Js.setAdd. destruct (Js.includes s x); [lia |].
  rewrite length_app. cbn. lia.
Qed.

Lemma setAddAll_In (xs : list string) :
  forall (s : list string) (y : string),
    In y (Js.setAddAll xs s) <-> In y s \/ In y xs.
Proof.
  unfold Js.setAddAll.
  induction xs as [| x xs IH]; intros s y; cbn [fold_left].
  - cbn. tauto.
  - rewrite IH, setAdd_In. cbn. intuition auto.
Qed.

Lemma setAddAll_NoDup (xs : list string) :
  forall s : list string, NoDup s -> NoDup (Js.setAddAll xs s).
Proof.
  unfold Js.setAddAll.
  induction xs as [| x xs IH]; intros s Hs; cbn [fold_left]; auto using setAdd_NoDup.
Qed.

Lemma setAddAll_length (xs : list string) :
  forall s : list string,
    List.length (Js.setAddAll xs s) <= List.length s + List.length xs.
Proof.
  unfold Js.setAddAll.
  induction xs as [| x xs IH]; intros s; cbn [fold_left List.length]; [lia |].
  specialize (IH (Js.setAdd x s)). pose proof (setAdd_length x s). lia.
Qed.

Lemma setAddAll_fresh (xs : list string) :
  forall s : list string, NoDup (s ++ xs) -> Js.setAddAll xs s = (s ++ xs)%list.
Proof.
  unfold Js.setAddAll.
  induction xs as [| x xs IH]; intros s Hnd; cbn [fold_left].
  - now rewrite app_nil_r.
  - assert (Hx : ~ In x s).
    { apply NoDup_remove_2 in Hnd. rewrite in_app_iff in Hnd. tauto. }
    rewrite setAdd_fresh by assumption.
    rewrite IH; rewrite <- app_assoc; [reflexivity | exact Hnd].
Qed.

(** ** Outputs of a bundling configuration *)

(** C6, as the claim states it, fails when the configured
    [tsBuildInfoFile] is one of the other four paths: with [outFile]
    [dist/bundle.js] and [tsBuildInfoFile] [dist/bundle.d.ts] the set of
    outputs has four entries. *)
Lemma getOutputs_outFile_four_entries :
  getOutputs Scenario.libraryHost "/ws/libs/mylib/tsconfig.lib.json"
    (Scenario.bundling (Some "dist/bundle.d.ts")) [] "/ws" "libs/mylib"
  = ["{workspaceRoot}/dist/bundle.js"; "{workspaceRoot}/dist/bundle.js.map";
     "{workspaceRoot}/dist/bundle.d.ts"; "{workspaceRoot}/dist/bundle.d.ts.map"]
  /\ List.length
       (getOutputs Scenario.libraryHost "/ws/libs/mylib/tsconfig.lib.json"
          (Scenario.bundling (Some "dist/bundle.d.ts")) [] "/ws" "libs/mylib")
     <> 5.
Proof.
  split; [vm_compute; reflexivity | vm_compute; discriminate].
Qed.

(** C6, amended.  For a configuration with [outFile] set and no internal
    project references, [getOutputs] returns, each once and in this order,
    the bundle file, its [.js.map], its [.d.ts], its [.d.ts.map] and one
    incremental-build path (the configured [tsBuildInfoFile], else a default
    next to the bundle), and nothing else; the in-place patterns are not
    added.  These are five entries whenever the five paths differ from one
    another, as they do for [dist/bundle.js] with the default or with a
    [.tsbuildinfo] file of its own. *)
Theorem getOutputs_outFile_mode :
  (forall (h : Host) (configFilePath : string) (tsConfig : ParsedCommandLine)
          (workspaceRoot projectRoot : string),
      Js.truthy (outFile (options tsConfig)) = true ->
      let five := outFileOutputs h tsConfig tsConfig workspaceRoot projectRoot in
      let result := getOutputs h configFilePath tsConfig [] workspaceRoot projectRoot in
      List.length five = 5
      /\ (forall o, In o result <-> In o five)
      /\ NoDup result
      /\ List.length result <= 5
      /\ (NoDup five -> result = five))
  /\ getOutputs Scenario.libraryHost "/ws/libs/mylib/tsconfig.lib.json"
       (Scenario.bundling None) [] "/ws" "libs/mylib"
     = ["{workspaceRoot}/dist/bundle.js"; "{workspaceRoot}/dist/bundle.js.map";
        "{workspaceRoot}/dist/bundle.d.ts"; "{workspaceRoot}/dist/bundle.d.ts.map";
        "{workspaceRoot}/dist/bundle.tsbuildinfo"]
  /\ getOutputs Scenario.libraryHost "/ws/libs/mylib/tsconfig.lib.json"
       (Scenario.bundlingAbsolute None) [] "/ws" "libs/mylib"
     = ["{projectRoot}/dist/bundle.js"; "{projectRoot}/dist/bundle.js.map";
        "{projectRoot}/dist/bundle.d.ts"; "{projectRoot}/dist/bundle.d.ts.map";
        "{projectRoot}/dist/bundle.tsbuildinfo"]
  /\ getOutputs Scenario.libraryHost "/ws/libs/mylib/tsconfig.lib.json"
       (Scenario.bundlingAbsolute (Some "/ws/libs/mylib/dist/tsconfig.lib.tsbuildinfo"))
       [] "/ws" "libs/mylib"
     = ["{projectRoot}/dist/bundle.js"; "{projectRoot}/dist/bundle.js.map";
        "{projectRoot}/dist/bundle.d.ts"; "{projectRoot}/dist/bundle.d.ts.map";
        "{projectRoot}/dist/tsconfig.lib.tsbuildinfo"].
Proof.
  split; [| repeat split; vm_compute; reflexivity].
  intros h configFilePath tsConfig workspaceRoot projectRoot HoutFile five result.
  assert (Hresult : result = Js.setAddAll five []).
  { unfold result, getOutputs, configOutputs. cbn [Js.values map fold_left].
    now rewrite HoutFile. }
  rewrite Hresult. repeat split.
  - intros Hin. apply setAddAll_In in Hin as [[] | Hin]. exact Hin.
  - intros Hin. apply setAddAll_In. now right.
  - apply setAddAll_NoDup. constructor.
  - pose proof (setAddAll_length five []) as Hlen. cbn in Hlen. exact Hlen.
  - intros Hnd. now apply (setAddAll_fresh five []).
Qed.

(** The bundle [dist/bundle.js] without a configured [tsBuildInfoFile], run
    through the first part of C6. *)
Lemma getOutputs_outFile_mode_witness :
  Js.truthy (outFile (options (Scenario.bundling None))) = true
  /\ List.length
       (getOutputs Scenario.libraryHost "/ws/libs/mylib/tsconfig.lib.json"
          (Scenario.bundling None) [] "/ws" "libs/mylib") <= 5.
Proof.
  split; [reflexivity |].
  apply (proj1 getOutputs_outFile_mode Scenario.libraryHost
           "/ws/libs/mylib/tsconfig.lib.json" (Scenario.bundling None)
           "/ws" "libs/mylib" eq_refl).
Defined.

(** ** Exclude patterns reclaimed by another configuration *)


(** The three sets after [getInputs] has gone over a root configuration
    without [exclude] and one internal reference. *)
Lemma collectConfig_root_and_reference (h : Host) (absoluteProjectRoot : string)
  (configFilePath : string) (tsConfig : ParsedCommandLine)
  (refPath : string) (refConfig : ParsedCommandLine) (excl : list string)
  (init : InputSets) :
  configFilePath <> refPath ->
  exclude (raw tsConfig) = None ->
  exclude (raw refConfig) = Some excl ->
  fold_left
    (collectConfig h absoluteProjectRoot
       [(configFilePath, tsConfig); (refPath, refConfig)])
    [(configFilePath, tsConfig); (refPath, refConfig)] init
  = mkInputSets
      (Js.setAdd refPath (Js.setAdd configFilePath (configFiles init)))
      (Js.setAddAll
         (map (fun p =>
                 Path.join [Path.relative (cwd h) absoluteProjectRoot
                              (Path.dirname refPath); p])
              (rawInclude refConfig))
         (Js.setAddAll
            (map (fun p =>
                    Path.join [Path.relative (cwd h) absoluteProjectRoot
                                 (Path.dirname configFilePath); p])
                 (rawInclude tsConfig))
            (includePaths init)))
      (Js.setAddAll (keptExcludes h (rawInclude tsConfig) excl) (excludePaths init)).
Proof.
  intros Hdiff Hroot Href.
  cbn [fold_left]. unfold collectConfig.
  cbn [fst snd configFiles includePaths excludePaths].
  rewrite Hroot, Href. unfold otherFilesInclude. cbn [flat_map fst snd].
  apply String.eqb_neq in Hdiff. rewrite Hdiff, String.eqb_refl.
  cbn [app]. rewrite app_nil_r. reflexivity.
Qed.

Lemma keptExcludes_kept (h : Host) (others : list string) (excludePath : string) :
  (forall includePath, In includePath others ->
     minimatch h (stripDotSlash includePath) (stripDotSlash excludePath) = false
     /\ minimatch h (stripDotSlash excludePath) (stripDotSlash includePath) = false) ->
  keptExcludes h others [excludePath] = [excludePath].
Proof.
  intros Hnone. unfold keptExcludes. cbn [filter].
  replace (existsb (fun includePath => overlaps h includePath excludePath) others)
    with false; [reflexivity |].
  symmetry. apply Bool.not_true_iff_false. intros Hex.
  apply existsb_exists in Hex as (includePath & Hin & Hover).
  destruct (Hnone includePath Hin) as [H1 H2].
  unfold overlaps in Hover. rewrite H1, H2 in Hover. discriminate.
Qed.

Lemma keptExcludes_reclaimed (h : Host) (others : list string) (excludePath : string) :
  (exists includePath, In includePath others
     /\ (minimatch h (stripDotSlash includePath) (stripDotSlash excludePath) = true
         \/ minimatch h (stripDotSlash excludePath) (stripDotSlash includePath) = true)) ->
  keptExcludes h others [excludePath] = [].
Proof.
  intros (includePath & Hin & Hmatch). unfold keptExcludes. cbn [filter].
  replace (existsb (fun includePath => overlaps h includePath excludePath) others)
    with true; [reflexivity |].
  symmetry. apply existsb_exists. exists includePath. split; [assumption |].
  unfold overlaps. destruct Hmatch as [-> | ->]; [reflexivity | apply orb_true_r].
Qed.

(** C4.  [getInputs] on a root configuration that only includes and one
    internal reference that excludes [excludePath].  When no include pattern
    of the root configuration matches the excluded path, and the excluded
    path matches none of them ([minimatch] asked in both directions), the
    inputs contain the negated entry for it.  When some include pattern of
    the root configuration does match, in either direction, the exclude has
    no effect: the inputs are those of the same reference without it.  For
    the root [include] [src], the reference [include] [src/feature] and
    [exclude] [src/feature/ignored], the inputs hold
    [!{projectRoot}/src/feature/ignored]; once the root also includes
    [src/feature/ignored], they hold no negated entry. *)
Theorem getInputs_exclude_reconciliation :
  (forall (h : Host) (fuel : nat) (names : list string)
          (configFilePath : string) (tsConfig : ParsedCommandLine)
          (refPath : string) (refConfig : ParsedCommandLine)
          (workspaceRoot projectRoot excludePath : string)
          (ext : ExtendedConfigFiles) (r : bool * list string),
      configFilePath <> refPath ->
      exclude (raw tsConfig) = None ->
      exclude (raw refConfig) = Some [excludePath] ->
      getExtendedConfigFiles h fuel configFilePath tsConfig = Done ext ->
      hasExternalProjectReferences h fuel configFilePath tsConfig
        workspaceRoot projectRoot [] = Done r ->
      ((forall includePath, In includePath (rawInclude tsConfig) ->
          minimatch h (stripDotSlash includePath) (stripDotSlash excludePath) = false
          /\ minimatch h (stripDotSlash excludePath) (stripDotSlash includePath) = false) ->
       exists l,
         getInputs h fuel names configFilePath tsConfig [(refPath, refConfig)]
           workspaceRoot projectRoot = Done l
         /\ In (negatedInput h workspaceRoot projectRoot excludePath) l)
      /\ ((exists includePath, In includePath (rawInclude tsConfig)
             /\ (minimatch h (stripDotSlash includePath) (stripDotSlash excludePath) = true
                 \/ minimatch h (stripDotSlash excludePath) (stripDotSlash includePath)
                    = true)) ->
          exists l,
            getInputs h fuel names configFilePath tsConfig [(refPath, refConfig)]
              workspaceRoot projectRoot = Done l
            /\ getInputs h fuel names configFilePath tsConfig
                 [(refPath, withExclude refConfig (Some []))]
                 workspaceRoot projectRoot = Done l))
  /\ Scenario.featureInputs ["src"]
     = Done [InputString "{projectRoot}/package.json";
             InputString "{projectRoot}/tsconfig.json";
             InputString "{projectRoot}/tsconfig.lib.json";
             InputString "{projectRoot}/src";
             InputString "{projectRoot}/src/feature";
             InputString "!{projectRoot}/src/feature/ignored";
             InputString "^production";
             InputExternalDependencies ["typescript"]]
  /\ Scenario.featureInputs ["src"; "src/feature/ignored"]
     = Done [InputString "{projectRoot}/package.json";
             InputString "{projectRoot}/tsconfig.json";
             InputString "{projectRoot}/tsconfig.lib.json";
             InputString "{projectRoot}/src";
             InputString "{projectRoot}/src/feature/ignored";
             InputString "{projectRoot}/src/feature";
             InputString "^production";
             InputExternalDependencies ["typescript"]].
Proof.
  split; [| split; vm_compute; reflexivity].
  intros h fuel names configFilePath tsConfig refPath refConfig
    workspaceRoot projectRoot excludePath ext r Hdiff Hroot Href Hext Hhas.
  split.
  - intros Hnone. unfold getInputs.
    rewrite Hext, Hhas. cbn [bind].
    eexists. split; [reflexivity |].
    rewrite (collectConfig_root_and_reference h _ _ _ _ _ [excludePath])
      by assumption.
    cbn [excludePaths]. rewrite keptExcludes_kept by assumption.
    apply in_or_app. right. apply in_or_app. left.
    cbn. left. reflexivity.
  - intros Hsome. unfold getInputs.
    rewrite Hext, Hhas. cbn [bind].
    eexists. split; [reflexivity |].
    rewrite (collectConfig_root_and_reference h _ _ _ _ refConfig [excludePath])
      by assumption.
    rewrite (collectConfig_root_and_reference h _ _ _ _ (withExclude refConfig (Some []))
               []) by (assumption || reflexivity).
    rewrite keptExcludes_reclaimed by assumption. reflexivity.
Qed.

(** The scenario of C4 with the root [include] [src], on a host whose
    matcher compares literally. *)
Lemma getInputs_exclude_reconciliation_witness :
  exists l,
    Scenario.featureInputs ["src"] = Done l
    /\ In (negatedInput Scenario.featureHost "/ws" "libs/a" "src/feature/ignored") l.
Proof.
  apply (proj1 (proj1 getInputs_exclude_reconciliation
                  Scenario.featureHost 1 ["default"; "production"]
                  Scenario.rootConfig (Scenario.includesOnly ["src"])
                  Scenario.libConfig Scenario.featureConfig
                  "/ws" "libs/a" "src/feature/ignored"
                  (mkExtended [] []) (false, [])
                  ltac:(discriminate) eq_refl eq_refl eq_refl eq_refl)).
  intros includePath [<- | []]. split; reflexivity.
Defined.

(** ** The cache key

    Two states of the tree are compared: [h1] before and [h2] after some
    files changed their content.  Which paths exist, what kind they are and
    how specifiers resolve is the same in both; a configuration file whose
    bytes are the same has the same [extends] and the same [references]. *)

Section CacheKey.

Variables h1 h2 : Host.

Hypothesis same_cwd : cwd h1 = cwd h2.
Hypothesis same_existence : forall p, existsSync h1 p = existsSync h2 p.
Hypothesis same_kind : forall p, statIsFile h1 p = statIsFile h2 p.
Hypothesis same_resolution : forall s d, requireResolve h1 s d = requireResolve h2 s d.
Hypothesis same_bytes_same_structure :
  forall p, readFile h1 p = readFile h2 p ->
            extends (raw (readTsConfig h1 p)) = extends (raw (readTsConfig h2 p))
            /\ projectReferences (readTsConfig h1 p)
               = projectReferences (readTsConfig h2 p).

Local Abbreviation agree := (sameBytes h1 h2).
Local Abbreviation InSync := (inSync h1 h2).
Local Abbreviation Diverged := (diverged h1 h2).
Local Abbreviation Related := (related h1 h2).

Lemma agree_dec (p : string) : agree p \/ ~ agree p.
Proof.
  unfold sameBytes.
  destruct (readFile h1 p) as [a |], (readFile h2 p) as [b |];
    try (right; discriminate); [| now left].
  destruct (String.string_dec a b) as [-> | Hne]; [now left |].
  right. congruence.
Qed.

Lemma Diverged_extend (l1 l2 a b : list string) :
  Diverged l1 l2 -> Diverged (l1 ++ a) (l2 ++ b).
Proof.
  intros (pre & p & s1 & s2 & -> & -> & Hpre & Hp).
  exists pre, p, (s1 ++ a)%list, (s2 ++ b)%list.
  repeat split; try assumption; now rewrite <- app_assoc.
Qed.

Lemma Related_app (a1 a2 b1 b2 : list string) :
  Related a1 a2 -> (InSync a1 a2 -> Related b1 b2) ->
  Related (a1 ++ b1) (a2 ++ b2).
Proof.
  intros [Hsync | Hdiv] Hb; [| right; now apply Diverged_extend].
  destruct (Hb Hsync) as [[-> Hb1] | (pre & p & s1 & s2 & -> & -> & Hpre & Hp)];
    destruct Hsync as [-> Ha].
  - left. split; [reflexivity | now apply Forall_app].
  - right. exists (a2 ++ pre)%list, p, s1, s2.
    repeat split; try assumption; try now rewrite <- app_assoc.
    now apply Forall_app.
Qed.

Lemma Related_single (p : string) : Related [p] [p].
Proof.
  destruct (agree_dec p) as [Hp | Hp].
  - left. split; [reflexivity | now constructor].
  - right. exists [], p, [], []. repeat split; [constructor | assumption].
Qed.

Lemma InSync_In (l1 l2 : list string) (p : string) :
  InSync l1 l2 -> In p l1 -> agree p.
Proof.
  intros [_ Hall] Hin. rewrite Forall_forall in Hall. auto.
Qed.

Lemma setAdd_sync (x : string) (l1 l2 : list string) :
  InSync l1 l2 ->
  (agree x /\ InSync (Js.setAdd x l1) (Js.setAdd x l2))
  \/ (~ agree x /\ Diverged (Js.setAdd x l1) (Js.setAdd x l2)).
Proof.
  intros [-> Hall]. destruct (agree_dec x) as [Hx | Hx]; [left | right];
    (split; [assumption |]).
  - split; [reflexivity |]. apply Forall_forall. intros y Hy.
    apply setAdd_In in Hy as [Hy | ->]; [| assumption].
    rewrite Forall_forall in Hall. auto.
  - assert (Hfresh : ~ In x l2).
    { intros Hin. apply Hx. rewrite Forall_forall in Hall. auto. }
    rewrite setAdd_fresh by assumption.
    exists l2, x, [], []. auto.
Qed.

Lemma setAdd_extends (x : string) (l : list string) :
  exists suffix, Js.setAdd x l = (l ++ suffix)%list.
Proof.
  unfold Js.setAdd. destruct (Js.includes l x).
  - exists []. now rewrite app_nil_r.
  - now exists [x].
Qed.

Lemma Diverged_suffixes (l1 l2 l1' l2' : list string) :
  Diverged l1 l2 ->
  (exists suffix, l1' = (l1 ++ suffix)%list) ->
  (exists suffix, l2' = (l2 ++ suffix)%list) ->
  Related l1' l2'.
Proof.
  intros Hdiv (a & ->) (b & ->). right. now apply Diverged_extend.
Qed.

(** *** The chain of [extends] in the two states *)

Lemma resolveExtendedTsConfigPath_same (specifier directory : string) :
  resolveExtendedTsConfigPath h1 specifier directory
  = resolveExtendedTsConfigPath h2 specifier directory.
Proof.
  unfold resolveExtendedTsConfigPath. now rewrite same_resolution.
Qed.

Lemma getExtendedConfigFilesLoop_extends (h : Host) :
  forall (fuel : nat) (path : string) (config : ParsedCommandLine)
         (found foundPackages : list string) (r : ExtendedConfigFiles),
    getExtendedConfigFilesLoop h fuel path config found foundPackages = Done r ->
    exists suffix, files r = (found ++ suffix)%list.
Proof.
  induction fuel as [| fuel IH]; intros path config found foundPackages r H;
    [discriminate |].
  cbn [getExtendedConfigFilesLoop] in H.
  destruct (Js.truthy (extends (raw config))).
  - destruct (resolveExtendedTsConfigPath h _ _) as [ext |].
    + destruct (Js.truthy (externalPackage ext)).
      * injection H as <-. exists []. cbn [files]. now rewrite app_nil_r.
      * outcome_cases. apply IH in H as (suffix & ->).
        destruct (setAdd_extends (filePath ext) found) as (added & ->).
        exists (added ++ suffix)%list. now rewrite app_assoc.
    + injection H as <-. exists []. cbn [files]. now rewrite app_nil_r.
  - injection H as <-. exists []. cbn [files]. now rewrite app_nil_r.
Qed.

Lemma getExtendedConfigFilesLoop_related :
  forall (fuel1 fuel2 : nat) (path : string) (config1 config2 : ParsedCommandLine)
         (found1 found2 packages1 packages2 : list string)
         (r1 r2 : ExtendedConfigFiles),
    Diverged found1 found2
    \/ (InSync found1 found2 /\ extends (raw config1) = extends (raw config2)) ->
    getExtendedConfigFilesLoop h1 fuel1 path config1 found1 packages1 = Done r1 ->
    getExtendedConfigFilesLoop h2 fuel2 path config2 found2 packages2 = Done r2 ->
    Related (files r1) (files r2).
Proof.
  induction fuel1 as [| fuel1 IH];
    intros fuel2 path config1 config2 found1 found2 packages1 packages2 r1 r2
      Hstart H1 H2; [discriminate |].
  destruct Hstart as [Hdiv | [Hsync Hext]].
  { eapply Diverged_suffixes; eauto using getExtendedConfigFilesLoop_extends. }
  destruct fuel2 as [| fuel2]; [discriminate |].
  cbn [getExtendedConfigFilesLoop] in H1, H2.
  rewrite <- Hext, <- resolveExtendedTsConfigPath_same in H2.
  destruct (Js.truthy (extends (raw config1))).
  - destruct (resolveExtendedTsConfigPath h1 _ _) as [ext |].
    + destruct (Js.truthy (externalPackage ext)).
      * injection H1 as <-. injection H2 as <-. now left.
      * unfold loadTsConfig in H1, H2. rewrite <- same_kind in H2.
        destruct (statIsFile h1 (filePath ext)); [| discriminate].
        cbn [bind] in H1, H2.
        eapply IH; [| exact H1 | exact H2].
        destruct (setAdd_sync (filePath ext) found1 found2 Hsync)
          as [[Hagree Hsync'] | [_ Hdiv]]; [right | now left].
        split; [assumption |]. now apply same_bytes_same_structure.
    + injection H1 as <-. injection H2 as <-. now left.
  - injection H1 as <-. injection H2 as <-. now left.
Qed.

(** *** The classifier in the two states *)

Lemma hasProjectMarker_same (dir : string) :
  hasProjectMarker h1 dir = hasProjectMarker h2 dir.
Proof.
  unfold hasProjectMarker. now rewrite !same_existence.
Qed.

Lemma isExternalProjectReferenceLoop_same :
  forall (fuel1 fuel2 : nat) (currentPath root : string) (b1 b2 : bool),
    isExternalProjectReferenceLoop h1 fuel1 currentPath root = Done b1 ->
    isExternalProjectReferenceLoop h2 fuel2 currentPath root = Done b2 ->
    b1 = b2.
Proof.
  induction fuel1 as [| fuel1 IH]; intros fuel2 currentPath root b1 b2 H1 H2;
    [discriminate |].
  destruct fuel2 as [| fuel2]; [discriminate |].
  cbn [isExternalProjectReferenceLoop] in H1, H2.
  rewrite <- hasProjectMarker_same in H2.
  destruct (String.eqb currentPath root); [congruence |].
  destruct (hasProjectMarker h1 currentPath); [congruence |].
  eapply IH; eassumption.
Qed.

Lemma isExternalProjectReference_same
  (fuel1 fuel2 : nat) (path workspaceRoot projectRoot : string) (b1 b2 : bool) :
  isExternalProjectReference h1 fuel1 path workspaceRoot projectRoot = Done b1 ->
  isExternalProjectReference h2 fuel2 path workspaceRoot projectRoot = Done b2 ->
  b1 = b2.
Proof.
  unfold isExternalProjectReference, getTsConfigDirName.
  rewrite <- same_kind, <- same_cwd.
  destruct (statIsFile h1 path) as [isFile |]; [| discriminate].
  set (dir := if isFile then Path.dirname path else Path.normalize path).
  replace (match isFile with
           | true => Done (Path.dirname path)
           | false => Done (Path.normalize path)
           end) with (Done dir) by now destruct isFile.
  cbn [bind].
  destruct (Js.startsWith _ ".."); [congruence |].
  apply isExternalProjectReferenceLoop_same.
Qed.

(** *** The walk over references in the two states *)

Lemma keys_recordSet {V : Type} (k : string) (v : V) (r : Js.Record_ V) :
  Js.keys (Js.recordSet k v r) = Js.setAdd k (Js.keys r).
Proof.
  unfold Js.keys, Js.setAdd, Js.includes.
  induction r as [| [k' v'] r IH]; cbn [Js.recordSet map fst existsb app];
    [reflexivity |].
  rewrite (String.eqb_sym k k').
  destruct (String.eqb k' k); cbn [map fst orb]; [reflexivity |].
  rewrite IH. now destruct (existsb (String.eqb k) (map fst r)).
Qed.

Local Abbreviation VisitorsRelated := (VisitorsRelated h1 h2).
Local Abbreviation RecursionsRelated := (RecursionsRelated h1 h2).

Lemma internalVisitor_extends (h : Host) (fuel : nat) (workspaceRoot projectRoot : string) :
  VisitorExtends (internalVisitor h fuel workspaceRoot projectRoot).
Proof.
  intros path config st st' result H. unfold internalVisitor in H.
  outcome_cases. destruct a; injection H as <- <-.
  - exists []. now rewrite app_nil_r.
  - rewrite keys_recordSet. apply setAdd_extends.
Qed.

Lemma shallowExternalVisitor_extends (h : Host) (fuel : nat)
  (workspaceRoot projectRoot : string) :
  VisitorExtends (shallowExternalVisitor h fuel workspaceRoot projectRoot).
Proof.
  intros path config st st' result H. unfold shallowExternalVisitor in H.
  outcome_cases. destruct a; injection H as <- <-.
  - rewrite keys_recordSet. apply setAdd_extends.
  - exists []. now rewrite app_nil_r.
Qed.

Lemma setAdd_related (x : string) (l1 l2 : list string) :
  InSync l1 l2 -> Related (Js.setAdd x l1) (Js.setAdd x l2).
Proof.
  intros Hsync.
  destruct (setAdd_sync x l1 l2 Hsync) as [[_ H] | [_ H]]; [now left | now right].
Qed.

Lemma internalVisitor_related (fuel1 fuel2 : nat) (workspaceRoot projectRoot : string) :
  VisitorsRelated (internalVisitor h1 fuel1 workspaceRoot projectRoot)
                  (internalVisitor h2 fuel2 workspaceRoot projectRoot).
Proof.
  intros path config1 config2 st1 st2 st1' st2' result1 result2 Hsync H1 H2.
  unfold internalVisitor in H1, H2. outcome_cases.
  rewrite (isExternalProjectReference_same _ _ _ _ _ _ _ E0 E) in H1.
  destruct a; injection H1 as <- <-; injection H2 as <- <-.
  - split; [reflexivity |]. split; [now left | discriminate].
  - split; [reflexivity |]. rewrite !keys_recordSet.
    split; [now apply setAdd_related |].
    intros _. apply setAdd_In. now right.
Qed.

Lemma shallowExternalVisitor_related (fuel1 fuel2 : nat)
  (workspaceRoot projectRoot : string) :
  VisitorsRelated (shallowExternalVisitor h1 fuel1 workspaceRoot projectRoot)
                  (shallowExternalVisitor h2 fuel2 workspaceRoot projectRoot).
Proof.
  intros path config1 config2 st1 st2 st1' st2' result1 result2 Hsync H1 H2.
  unfold shallowExternalVisitor in H1, H2. outcome_cases.
  rewrite (isExternalProjectReference_same _ _ _ _ _ _ _ E0 E) in H1.
  destruct a; injection H1 as <- <-; injection H2 as <- <-.
  - split; [reflexivity |]. rewrite !keys_recordSet.
    split; [now apply setAdd_related | discriminate].
  - split; [reflexivity |]. split; [now left | discriminate].
Qed.


Lemma walkReferencesLoop_extends (h : Host) recurse visitor known :
  RecursionExtends recurse -> VisitorExtends visitor ->
  forall (refs : list string) (st st' : Js.Record_ ParsedCommandLine),
    walkReferencesLoop h recurse visitor known refs st = Done st' ->
    exists suffix, Js.keys st' = (Js.keys st ++ suffix)%list.
Proof.
  intros Hrec Hvis.
  induction refs as [| ref refs IH]; intros st st' H; cbn [walkReferencesLoop] in H.
  - injection H as <-. exists []. now rewrite app_nil_r.
  - destruct (Js.recordGet ref known); [now apply IH |].
    destruct (negb (existsSync h ref)); [now apply IH |].
    outcome_cases. destruct a0 as [st0 result]. cbn [fst snd] in H.
    apply Hvis in E0 as (added & Hadded).
    destruct result.
    + apply IH in H as (suffix & ->). rewrite Hadded.
      exists (added ++ suffix)%list. now rewrite app_assoc.
    + outcome_cases. apply Hrec in E0 as (deeper & Hdeeper).
      apply IH in H as (suffix & ->). rewrite Hdeeper, Hadded.
      exists (added ++ deeper ++ suffix)%list. now rewrite !app_assoc.
Qed.

Lemma walkProjectReferences_extends (h : Host) (workspaceRoot projectRoot : string)
  visitor :
  VisitorExtends visitor ->
  forall (fuel : nat) (config : ParsedCommandLine) known
         (st st' : Js.Record_ ParsedCommandLine),
    walkProjectReferences h fuel config workspaceRoot projectRoot visitor known st
    = Done st' ->
    exists suffix, Js.keys st' = (Js.keys st ++ suffix)%list.
Proof.
  intros Hvis. induction fuel as [| fuel IH]; intros config known st st' H;
    [discriminate |].
  cbn [walkProjectReferences] in H.
  eapply walkReferencesLoop_extends; [| exact Hvis | exact H].
  intros config' st0 st0' H'. eapply IH. exact H'.
Qed.


Lemma walkReferencesLoop_related recurse1 recurse2 visitor1 visitor2 known :
  RecursionExtends recurse1 -> RecursionExtends recurse2 ->
  RecursionsRelated recurse1 recurse2 ->
  VisitorExtends visitor1 -> VisitorExtends visitor2 ->
  VisitorsRelated visitor1 visitor2 ->
  forall (refs : list string) (st1 st2 st1' st2' : Js.Record_ ParsedCommandLine),
    Related (Js.keys st1) (Js.keys st2) ->
    walkReferencesLoop h1 recurse1 visitor1 known refs st1 = Done st1' ->
    walkReferencesLoop h2 recurse2 visitor2 known refs st2 = Done st2' ->
    Related (Js.keys st1') (Js.keys st2').
Proof.
  intros Hext1 Hext2 Hrec Hvext1 Hvext2 Hvis.
  induction refs as [| ref refs IH]; intros st1 st2 st1' st2' Hrel H1 H2.
  - cbn in H1, H2. congruence.
  - destruct Hrel as [Hsync | Hdiv].
    2:{ eapply Diverged_suffixes; eauto using walkReferencesLoop_extends. }
    cbn [walkReferencesLoop] in H1, H2.
    rewrite <- same_existence in H2.
    destruct (Js.recordGet ref known).
    { eapply IH; [| exact H1 | exact H2]. now left. }
    destruct (negb (existsSync h1 ref)).
    { eapply IH; [| exact H1 | exact H2]. now left. }
    unfold loadTsConfig in H1, H2. rewrite <- same_kind in H2.
    destruct (statIsFile h1 (refConfigPathOf ref)); [| discriminate].
    cbn [bind] in H1, H2.
    outcome_cases. destruct a as [st2a result2], a0 as [st1a result1].
    cbn [fst snd] in H1, H2.
    destruct (Hvis _ _ _ _ _ _ _ _ _ Hsync E0 E) as (Hresult & Hrel & Hin).
    subst result2. destruct result1.
    + eapply IH; [exact Hrel | exact H1 | exact H2].
    + outcome_cases.
      eapply IH; [| exact H1 | exact H2].
      eapply Hrec; [| exact E2 | exact E1].
      destruct Hrel as [Hsync' | Hdiv']; [right | now left].
      split; [assumption |].
      apply same_bytes_same_structure.
      eapply InSync_In; [exact Hsync' | now apply Hin].
Qed.

Lemma walkProjectReferences_related (workspaceRoot projectRoot : string)
  visitor1 visitor2 :
  VisitorExtends visitor1 -> VisitorExtends visitor2 ->
  VisitorsRelated visitor1 visitor2 ->
  forall (fuel1 fuel2 : nat) (config1 config2 : ParsedCommandLine) known
         (st1 st2 st1' st2' : Js.Record_ ParsedCommandLine),
    Diverged (Js.keys st1) (Js.keys st2)
    \/ (InSync (Js.keys st1) (Js.keys st2)
        /\ projectReferences config1 = projectReferences config2) ->
    walkProjectReferences h1 fuel1 config1 workspaceRoot projectRoot visitor1 known st1
    = Done st1' ->
    walkProjectReferences h2 fuel2 config2 workspaceRoot projectRoot visitor2 known st2
    = Done st2' ->
    Related (Js.keys st1') (Js.keys st2').
Proof.
  intros Hvext1 Hvext2 Hvis.
  induction fuel1 as [| fuel1 IH];
    intros fuel2 config1 config2 known st1 st2 st1' st2' Hstart H1 H2;
    [discriminate |].
  destruct Hstart as [Hdiv | [Hsync Hrefs]].
  { eapply Diverged_suffixes; eauto using walkProjectReferences_extends. }
  destruct fuel2 as [| fuel2]; [discriminate |].
  cbn [walkProjectReferences] in H1, H2. rewrite <- Hrefs in H2.
  refine (walkReferencesLoop_related _ _ visitor1 visitor2 known
            _ _ _ Hvext1 Hvext2 Hvis _ _ _ _ _ _ H1 H2).
  - intros c s s' H. eapply walkProjectReferences_extends; [| exact H]; assumption.
  - intros c s s' H. eapply walkProjectReferences_extends; [| exact H]; assumption.
  - intros c1 c2 s1 s2 s1' s2' Hstart' H1' H2'. eapply IH; eassumption.
  - now left.
Qed.

(** *** The hashed files in the two states *)

Lemma InSync_nil : InSync [] [].
Proof. split; [reflexivity | constructor]. Qed.

Lemma hashedFiles_related (fuel1 fuel2 : nat)
  (configFilePath workspaceRoot lockFileName : string) (files1 files2 : list string) :
  hashedFiles h1 fuel1 configFilePath workspaceRoot lockFileName = Done files1 ->
  hashedFiles h2 fuel2 configFilePath workspaceRoot lockFileName = Done files2 ->
  Related files1 files2.
Proof.
  unfold hashedFiles, loadTsConfig. intros H1 H2.
  rewrite <- same_kind in H2.
  destruct (statIsFile h1 (joinPathFragments [workspaceRoot; configFilePath]));
    [| discriminate].
  cbn [bind] in H1, H2.
  outcome_step H1 ext1 Hext1. outcome_step H1 int1 Hint1. outcome_step H1 sh1 Hsh1.
  outcome_step H2 ext2 Hext2. outcome_step H2 int2 Hint2. outcome_step H2 sh2 Hsh2.
  injection H1 as <-. injection H2 as <-.
  apply (Related_app [_] [_]); [apply Related_single |]. intros Hconfig.
  assert (Hagree : agree (joinPathFragments [workspaceRoot; configFilePath])).
  { eapply InSync_In; [exact Hconfig | now left]. }
  apply same_bytes_same_structure in Hagree as [Hextends Hrefs].
  apply Related_app.
  { unfold getExtendedConfigFiles in *.
    eapply getExtendedConfigFilesLoop_related; [| eassumption | eassumption].
    right. split; [apply InSync_nil | assumption]. }
  intros _. apply Related_app.
  { unfold resolveInternalProjectReferences in *.
    eapply (walkProjectReferences_related _ _ _ _
              (internalVisitor_extends h1 fuel1 _ _)
              (internalVisitor_extends h2 fuel2 _ _)
              (internalVisitor_related fuel1 fuel2 _ _));
      [| eassumption | eassumption].
    right. split; [apply InSync_nil | assumption]. }
  intros _. apply Related_app; [| intros _; apply Related_single].
  unfold resolveShallowExternalProjectReferences in *.
  eapply (walkProjectReferences_related _ _ _ _
            (shallowExternalVisitor_extends h1 fuel1 _ _)
            (shallowExternalVisitor_extends h2 fuel2 _ _)
            (shallowExternalVisitor_related fuel1 fuel2 _ _));
    [| eassumption | eassumption].
  right. split; [apply InSync_nil | assumption].
Qed.

(** *** From the hashes back to the files *)

Hypothesis same_hashContent : forall c, hashContent h1 c = hashContent h2 c.
Hypothesis hashContent_injective :
  forall a b, hashContent h1 a = hashContent h1 b -> a = b.

Lemma agree_hashFile (p : string) : agree p -> hashFile h1 p = hashFile h2 p.
Proof.
  unfold sameBytes, hashFile. intros ->.
  destruct (readFile h2 p); cbn [option_map]; [| reflexivity].
  now rewrite same_hashContent.
Qed.

Lemma hashFile_agree (p hash : string) :
  hashFile h1 p = Some hash -> hashFile h2 p = Some hash -> agree p.
Proof.
  unfold sameBytes, hashFile. intros H1 H2.
  destruct (readFile h1 p) as [bytes1 |]; [| discriminate].
  destruct (readFile h2 p) as [bytes2 |]; [| discriminate].
  cbn [option_map] in H1, H2. rewrite <- same_hashContent in H2.
  f_equal. apply hashContent_injective. congruence.
Qed.

Lemma hashFiles_agree (files : list string) :
  Forall agree files -> hashFiles h1 files = hashFiles h2 files.
Proof.
  induction 1 as [| p files Hp _ IH]; cbn [hashFiles]; [reflexivity |].
  now rewrite (agree_hashFile p Hp), IH.
Qed.

Lemma hashFiles_app (h : Host) (front back : list string) :
  forall hashes,
    hashFiles h (front ++ back) = Done hashes ->
    exists hashesFront hashesBack,
      hashFiles h front = Done hashesFront
      /\ hashFiles h back = Done hashesBack
      /\ hashes = (hashesFront ++ hashesBack)%list.
Proof.
  induction front as [| p front IH]; intros hashes H; cbn [app hashFiles] in *.
  - exists [], hashes. auto.
  - destruct (hashFile h p) as [hash |]; [| discriminate].
    destruct (hashFiles h (front ++ back)) as [rest | |] eqn:Hrest;
      cbn [bind] in H; try discriminate.
    injection H as <-.
    destruct (IH rest eq_refl) as (hashesFront & hashesBack & -> & Hback & ->).
    exists (hash :: hashesFront), hashesBack. cbn [bind]. auto.
Qed.

Lemma equal_hashes_in_sync (files1 files2 hashes1 hashes2 tail1 tail2 : list string) :
  Related files1 files2 ->
  hashFiles h1 files1 = Done hashes1 ->
  hashFiles h2 files2 = Done hashes2 ->
  (hashes1 ++ tail1 = hashes2 ++ tail2)%list ->
  InSync files1 files2.
Proof.
  intros [Hsync | (pre & p & s1 & s2 & -> & -> & Hpre & Hp)] H1 H2 Heq;
    [assumption |].
  exfalso. apply Hp.
  apply hashFiles_app in H1 as (front1 & back1 & Hfront1 & Hback1 & ->).
  apply hashFiles_app in H2 as (front2 & back2 & Hfront2 & Hback2 & ->).
  rewrite (hashFiles_agree pre Hpre), Hfront2 in Hfront1. injection Hfront1 as <-.
  cbn [hashFiles] in Hback1, Hback2.
  destruct (hashFile h1 p) as [hash1 |] eqn:Hhash1; [| discriminate].
  destruct (hashFile h2 p) as [hash2 |] eqn:Hhash2; [| discriminate].
  destruct (hashFiles h1 s1) as [rest1 | |]; cbn [bind] in Hback1; try discriminate.
  destruct (hashFiles h2 s2) as [rest2 | |]; cbn [bind] in Hback2; try discriminate.
  injection Hback1 as <-. injection Hback2 as <-.
  rewrite <- !app_assoc in Heq. apply app_inv_head in Heq. cbn [app] in Heq.
  injection Heq as Hsame _. subst hash2.
  eapply hashFile_agree; eassumption.
Qed.


End CacheKey.

(** Loading a configuration file gives the host's parse of it, or throws. *)
Lemma loadTsConfig_cases (h : Host) (path : string) :
  loadTsConfig h path = Done (readTsConfig h path) \/ loadTsConfig h path = Threw.
Proof. unfold loadTsConfig. destruct (statIsFile h path); auto. Qed.

Lemma append_inv_tail (a b s : string) : a ++ s = b ++ s -> a = b.
Proof.
  intros H. apply (f_equal list_ascii_of_string) in H.
  rewrite !list_ascii_of_string_append in H. apply app_inv_tail in H.
  rewrite <- (string_of_list_ascii_of_string a), <- (string_of_list_ascii_of_string b).
  now rewrite H.
Qed.

Lemma cacheKeyOf_shape (h : Host) (fuel : nat) (configFilePath : string)
  (opts : NormalizedPluginOptions) (workspaceRoot lockFileName key : string) :
  cacheKeyOf h fuel configFilePath opts workspaceRoot lockFileName = Done key ->
  exists influencing hashes rest,
    hashedFiles h fuel configFilePath workspaceRoot lockFileName = Done influencing
    /\ hashFiles h influencing = Done hashes
    /\ key = hashArray h (hashes ++ rest) ++ "_" ++ configFilePath.
Proof.
  unfold cacheKeyOf. intros H.
  destruct (hashedFiles h fuel configFilePath workspaceRoot lockFileName)
    as [influencing | |]; cbn [bind] in H; try discriminate.
  match type of H with
  | bind ?reading _ = _ => destruct reading as [packageJson | |]
  end; cbn [bind] in H; try discriminate.
  destruct (hashFiles h influencing) as [hashes | |] eqn:Hhashes; cbn [bind] in H;
    try discriminate.
  injection H as <-. exists influencing, hashes. eexists.
  split; [reflexivity |]. split; [exact Hhashes | reflexivity].
Qed.

(** With a cache that holds another key only, [createNodesInternal] either
    declines or builds the targets anew and stores them under the new key. *)
Lemma createNodesInternal_recomputes (h : Host) (fuel : nat) (configFilePath : string)
  (opts : NormalizedPluginOptions) (workspaceRoot lockFileName : string)
  (oldKey key : string) (cached : TscProjectResult)
  (result : CreateNodesResult) (targetsCache' : Js.Record_ TscProjectResult) :
  cacheKeyOf h fuel configFilePath opts workspaceRoot lockFileName = Done key ->
  oldKey <> key ->
  createNodesInternal h fuel configFilePath opts workspaceRoot lockFileName
    [(oldKey, cached)] = Done (result, targetsCache') ->
  (result = emptyResult /\ targetsCache' = [(oldKey, cached)])
  \/ exists built,
      buildTscTargets h fuel (joinPathFragments [workspaceRoot; configFilePath])
        (Path.dirname configFilePath) opts workspaceRoot = Done built
      /\ targetsCache' = [(oldKey, cached); (key, built)]
      /\ result
         = mkNodes (Some [(Path.dirname configFilePath,
                           mkProject "library" (targets built))]).
Proof.
  intros Hkey Hne Hrun. unfold createNodesInternal in Hrun.
  assert (Hdeclined : forall r c,
             Done (emptyResult, [(oldKey, cached)]) = Done (r, c) ->
             r = emptyResult /\ c = [(oldKey, cached)])
    by (intros r c H; injection H as <- <-; auto).
  destruct (String.eqb (Path.dirname configFilePath) "."); [left; auto |].
  destruct (readdirSync h _) as [siblingFiles |]; [| discriminate].
  destruct (negb (Js.includes siblingFiles "package.json")
            && negb (Js.includes siblingFiles "project.json")); [left; auto |].
  destruct (negb (String.eqb (Path.basename configFilePath) "tsconfig.json")
            && negb (Js.includes siblingFiles "tsconfig.json")); [left; auto |].
  destruct (existsb (Js.includes siblingFiles) nextConfigFiles); [left; auto |].
  right. rewrite Hkey in Hrun. cbn [bind Js.recordGet] in Hrun.
  apply String.eqb_neq in Hne. rewrite Hne in Hrun.
  destruct (buildTscTargets h fuel _ _ opts workspaceRoot) as [built | |];
    cbn [bind fst snd Js.recordSet] in Hrun; try discriminate.
  rewrite Hne in Hrun. injection Hrun as <- <-.
  exists built. auto.
Qed.

(** *** The hashed files hold the influencing set *)

Lemma fileSpecifier_resolves (h : Host) (specifier directory file : string) :
  fileSpecifier specifier = true ->
  requireResolve h specifier directory = Some file ->
  exists package,
    resolveExtendedTsConfigPath h specifier directory
    = Some (mkExtendedPath file package)
    /\ Js.truthy package = false.
Proof.
  unfold fileSpecifier, resolveExtendedTsConfigPath. intros Hfile ->.
  destruct (Js.startsWith specifier ".") eqn:Hdot; [exists None; auto |].
  cbn [orb] in Hfile. destruct specifier as [| c rest]; [discriminate |].
  unfold Js.startsWith in Hfile. cbn [prefix] in Hfile.
  destruct (ascii_dec "/" c) as [<- |]; [| discriminate].
  exists (Some ""). split; reflexivity.
Qed.

Lemma getExtendedConfigFilesLoop_collects (h : Host) :
  forall (fuel : nat) (path : string) (collected packages' : list string)
         (found : ExtendedConfigFiles) (file : string),
    getExtendedConfigFilesLoop h fuel path (readTsConfig h path) collected packages'
    = Done found ->
    ExtendsTransitively fileSpecifier h path file ->
    In file (files found).
Proof.
  induction fuel as [| fuel IH]; intros path collected packages' found file H Hchain;
    [discriminate |].
  assert (Hstep : forall mid,
             extendsFile fileSpecifier h path mid ->
             getExtendedConfigFilesLoop h fuel mid (readTsConfig h mid)
               (Js.setAdd mid collected) packages' = Done found).
  { intros mid (specifier & Hextends & Hfile & Hresolved).
    cbn [getExtendedConfigFilesLoop] in H. rewrite Hextends in H.
    cbn [valueOf] in H.
    assert (Htruthy : Js.truthy (Some specifier) = true)
      by (destruct specifier; [discriminate Hfile | reflexivity]).
    rewrite Htruthy in H.
    destruct (fileSpecifier_resolves h specifier (Path.dirname path) mid
                Hfile Hresolved) as (package & Hpath & Hpackage).
    rewrite Hpath in H. cbn [externalPackage filePath] in H. rewrite Hpackage in H.
    destruct (loadTsConfig_cases h mid) as [Hload | Hload]; rewrite Hload in H;
      cbn [bind] in H; [exact H | discriminate]. }
  inversion Hchain as [p f Hdirect | p mid f Hfirst Hrest]; subst.
  - apply Hstep in Hdirect.
    destruct (getExtendedConfigFilesLoop_extends _ _ _ _ _ _ _ Hdirect)
      as (suffix & ->).
    apply in_or_app. left. apply setAdd_In. now right.
  - apply Hstep in Hfirst. eapply IH; eassumption.
Qed.

Lemma classified_once (h : Host) (fuel1 fuel2 : nat)
  (path workspaceRoot projectRoot : string) (b1 b2 : bool) :
  isExternalProjectReference h fuel1 path workspaceRoot projectRoot = Done b1 ->
  isExternalProjectReference h fuel2 path workspaceRoot projectRoot = Done b2 ->
  b1 = b2.
Proof.
  apply (isExternalProjectReference_same h h eq_refl (fun _ => eq_refl)
           (fun _ => eq_refl)).
Qed.

Lemma keys_kept (st st' : Js.Record_ ParsedCommandLine) :
  (exists suffix, Js.keys st' = (Js.keys st ++ suffix)%list) ->
  incl (Js.keys st) (Js.keys st').
Proof. intros (suffix & ->) key Hkey. apply in_or_app. now left. Qed.

(** The loop of the internal walk comes by every reference that exists
    and is internal: it records it and descends into it. *)
Lemma internalLoop_visits (h : Host) (workspaceRoot projectRoot : string)
  (visitorFuel : nat)
  (recurse : ParsedCommandLine -> Js.Record_ ParsedCommandLine
             -> Outcome (Js.Record_ ParsedCommandLine)) :
  RecursionExtends recurse ->
  forall (refs : list string) (st st' : Js.Record_ ParsedCommandLine) (via : string),
    walkReferencesLoop h recurse
      (internalVisitor h visitorFuel workspaceRoot projectRoot) [] refs st = Done st' ->
    In via refs ->
    existsSync h via = true ->
    internalTo h workspaceRoot projectRoot (refConfigPathOf via) ->
    exists visited deeper,
      In (refConfigPathOf via) (Js.keys visited)
      /\ recurse (readTsConfig h (refConfigPathOf via)) visited = Done deeper
      /\ incl (Js.keys deeper) (Js.keys st').
Proof.
  intros Hrecurse.
  induction refs as [| ref refs IH]; intros st st' via H Hin Hexists Hinternal;
    [destruct Hin |].
  cbn [walkReferencesLoop Js.recordGet] in H.
  destruct (existsSync h ref) eqn:Href; cbn [negb] in H.
  - destruct (loadTsConfig_cases h (refConfigPathOf ref)) as [Hload | Hload];
      rewrite Hload in H; cbn [bind] in H; [| discriminate].
    unfold internalVisitor at 1 in H.
    destruct (isExternalProjectReference h visitorFuel (refConfigPathOf ref)
                workspaceRoot projectRoot) as [[|] | |] eqn:Hclass;
      cbn [bind fst snd] in H; try discriminate.
    + destruct Hin as [-> | Hin]; [| now apply (IH st st' via)].
      destruct Hinternal as (fuel & Hinternal).
      pose proof (classified_once _ _ _ _ _ _ _ _ Hclass Hinternal). discriminate.
    + destruct (recurse (readTsConfig h (refConfigPathOf ref))
                  (Js.recordSet (refConfigPathOf ref)
                     (readTsConfig h (refConfigPathOf ref)) st))
        as [deeper | |] eqn:Hdeeper; cbn [bind] in H; try discriminate.
      destruct Hin as [-> | Hin]; [| now apply (IH deeper st' via)].
      exists (Js.recordSet (refConfigPathOf via)
                (readTsConfig h (refConfigPathOf via)) st), deeper.
      split; [rewrite keys_recordSet; apply setAdd_In; now right |].
      split; [exact Hdeeper |].
      apply keys_kept.
      eapply (walkReferencesLoop_extends h recurse _ [] Hrecurse
                (internalVisitor_extends h visitorFuel workspaceRoot projectRoot));
        exact H.
  - destruct Hin as [-> | Hin]; [congruence | now apply (IH st st' via)].
Qed.

Lemma internalWalk_collects (h : Host) (workspaceRoot projectRoot : string)
  (visitorFuel : nat) (config : ParsedCommandLine) (file : string) :
  ReferencesInternally h workspaceRoot projectRoot config file ->
  forall (fuel : nat) (st st' : Js.Record_ ParsedCommandLine),
    walkProjectReferences h fuel config workspaceRoot projectRoot
      (internalVisitor h visitorFuel workspaceRoot projectRoot) [] st = Done st' ->
    In file (Js.keys st').
Proof.
  assert (Hrecurse : forall fuel,
             RecursionExtends
               (fun config' st0 =>
                  walkProjectReferences h fuel config' workspaceRoot projectRoot
                    (internalVisitor h visitorFuel workspaceRoot projectRoot) [] st0)).
  { intros fuel config' st0 st0' H.
    eapply walkProjectReferences_extends; [| exact H].
    apply internalVisitor_extends. }
  induction 1 as [config ref Hin Hexists Hinternal
                 | config via file Hin Hexists Hinternal _ IH];
    intros fuel st st' H; (destruct fuel as [| fuel]; [discriminate |]);
    cbn [walkProjectReferences] in H;
    destruct (internalLoop_visits h workspaceRoot projectRoot visitorFuel _
                (Hrecurse fuel) _ _ _ _ H Hin Hexists Hinternal)
      as (visited & deeper & Hvisited & Hdeeper & Hkept);
    apply Hkept.
  - apply (keys_kept visited deeper); [| exact Hvisited].
    eapply Hrecurse. exact Hdeeper.
  - eapply IH. exact Hdeeper.
Qed.

(** The loop of the shallow walk records every reference that exists and is
    external. *)
Lemma shallowLoop_collects (h : Host) (workspaceRoot projectRoot : string)
  (visitorFuel : nat)
  (recurse : ParsedCommandLine -> Js.Record_ ParsedCommandLine
             -> Outcome (Js.Record_ ParsedCommandLine)) :
  RecursionExtends recurse ->
  forall (refs : list string) (st st' : Js.Record_ ParsedCommandLine) (ref : string),
    walkReferencesLoop h recurse
      (shallowExternalVisitor h visitorFuel workspaceRoot projectRoot) [] refs st
    = Done st' ->
    In ref refs ->
    existsSync h ref = true ->
    externalTo h workspaceRoot projectRoot (refConfigPathOf ref) ->
    In (refConfigPathOf ref) (Js.keys st').
Proof.
  intros Hrecurse.
  induction refs as [| first refs IH]; intros st st' ref H Hin Hexists Hexternal;
    [destruct Hin |].
  cbn [walkReferencesLoop Js.recordGet] in H.
  destruct (existsSync h first) eqn:Hfirst; cbn [negb] in H.
  - destruct (loadTsConfig_cases h (refConfigPathOf first)) as [Hload | Hload];
      rewrite Hload in H; cbn [bind] in H; [| discriminate].
    unfold shallowExternalVisitor at 1 in H.
    destruct (isExternalProjectReference h visitorFuel (refConfigPathOf first)
                workspaceRoot projectRoot) as [[|] | |] eqn:Hclass;
      cbn [bind fst snd] in H; try discriminate.
    + destruct Hin as [-> | Hin]; [| now apply (IH _ st' ref H)].
      apply (keys_kept (Js.recordSet (refConfigPathOf ref)
                          (readTsConfig h (refConfigPathOf ref)) st) st').
      * eapply (walkReferencesLoop_extends h recurse _ [] Hrecurse
                  (shallowExternalVisitor_extends h visitorFuel workspaceRoot
                     projectRoot)); exact H.
      * rewrite keys_recordSet. apply setAdd_In. now right.
    + destruct Hin as [-> | Hin]; [| now apply (IH _ st' ref H)].
      destruct Hexternal as (fuel & Hexternal).
      pose proof (classified_once _ _ _ _ _ _ _ _ Hclass Hexternal). discriminate.
  - destruct Hin as [-> | Hin]; [congruence | now apply (IH st st' ref)].
Qed.

(** Every file of the influencing set, with the [extends] steps that name
    a file, is among the files [createNodesInternal] hashes. *)
Lemma hashedFiles_hold_influencing (h : Host) (fuel : nat)
  (configFilePath workspaceRoot lockFileName : string) (hashed : list string)
  (file : string) :
  hashedFiles h fuel configFilePath workspaceRoot lockFileName = Done hashed ->
  influences fileSpecifier h configFilePath workspaceRoot lockFileName file ->
  In file hashed.
Proof.
  unfold hashedFiles, influences. intros H Hfile.
  destruct (loadTsConfig_cases h (joinPathFragments [workspaceRoot; configFilePath]))
    as [Hload | Hload]; rewrite Hload in H; cbn [bind] in H; [| discriminate].
  destruct (getExtendedConfigFiles h fuel _ _) as [extended | |] eqn:Hextended;
    cbn [bind] in H; try discriminate.
  destruct (resolveInternalProjectReferences h fuel _ workspaceRoot _ [])
    as [internal | |] eqn:Hinternal; cbn [bind] in H; try discriminate.
  destruct (resolveShallowExternalProjectReferences h fuel _ workspaceRoot _ [])
    as [external | |] eqn:Hexternal; cbn [bind] in H; try discriminate.
  injection H as <-.
  destruct Hfile as [-> | [Hchain | [Hreach | [Hdirect | ->]]]].
  - now left.
  - right. apply in_or_app. left.
    eapply getExtendedConfigFilesLoop_collects; [exact Hextended | exact Hchain].
  - right. apply in_or_app. right. apply in_or_app. left.
    eapply internalWalk_collects; [exact Hreach | exact Hinternal].
  - right. apply in_or_app. right. apply in_or_app. right. apply in_or_app. left.
    destruct Hdirect as (ref & Hin & Hexists & Hclass & ->).
    unfold resolveShallowExternalProjectReferences in Hexternal.
    destruct fuel as [| fuel]; [discriminate |].
    cbn [walkProjectReferences] in Hexternal.
    eapply shallowLoop_collects; [| exact Hexternal | exact Hin | exact Hexists
                                  | exact Hclass].
    intros config' st0 st0' H'.
    eapply walkProjectReferences_extends; [| exact H'].
    apply shallowExternalVisitor_extends.
  - right. apply in_or_app. right. apply in_or_app. right. apply in_or_app. right.
    now left.
Qed.

(** C3.  [h1] is the tree before and [h2] the tree after a change of file
    contents: the same paths exist, of the same kind, specifiers resolve
    alike, and a configuration file with unchanged bytes has the same
    [extends] and [references].  File and array hashes are taken without
    collisions.  Let [changed] be in the influencing set of the
    configuration file: the file itself, a file it extends through
    specifiers that name files, a referenced configuration file that is
    internal (at any depth) or external and referenced directly, or the lock
    file.  Then [changed] is among the files [createNodesInternal] hashes,
    and if it has other bytes in [h2], the key computed in [h2] differs from
    the one computed in [h1]: a targets cache filled under the old key
    misses, and [createNodesInternal] declines or builds the targets anew. *)
Theorem cache_key_changes_with_content :
  forall (h1 h2 : Host) (fuel1 fuel2 : nat) (configFilePath : string)
         (opts : NormalizedPluginOptions) (workspaceRoot lockFileName : string)
         (changed key1 key2 : string),
    cwd h1 = cwd h2 ->
    (forall p, existsSync h1 p = existsSync h2 p) ->
    (forall p, statIsFile h1 p = statIsFile h2 p) ->
    (forall s d, requireResolve h1 s d = requireResolve h2 s d) ->
    (forall p, readFile h1 p = readFile h2 p ->
               extends (raw (readTsConfig h1 p)) = extends (raw (readTsConfig h2 p))
               /\ projectReferences (readTsConfig h1 p)
                  = projectReferences (readTsConfig h2 p)) ->
    (forall c, hashContent h1 c = hashContent h2 c) ->
    (forall a b, hashContent h1 a = hashContent h1 b -> a = b) ->
    (forall l, hashArray h1 l = hashArray h2 l) ->
    (forall l l', hashArray h1 l = hashArray h1 l' -> l = l') ->
    influences fileSpecifier h1 configFilePath workspaceRoot lockFileName changed ->
    readFile h1 changed <> readFile h2 changed ->
    cacheKeyOf h1 fuel1 configFilePath opts workspaceRoot lockFileName = Done key1 ->
    cacheKeyOf h2 fuel2 configFilePath opts workspaceRoot lockFileName = Done key2 ->
    (exists hashed,
        hashedFiles h1 fuel1 configFilePath workspaceRoot lockFileName = Done hashed
        /\ In changed hashed)
    /\ key1 <> key2
    /\ (forall cached : TscProjectResult, Js.recordGet key2 [(key1, cached)] = None)
    /\ (forall (cached : TscProjectResult) (result : CreateNodesResult)
               (targetsCache' : Js.Record_ TscProjectResult),
           createNodesInternal h2 fuel2 configFilePath opts workspaceRoot lockFileName
             [(key1, cached)] = Done (result, targetsCache') ->
           (result = emptyResult /\ targetsCache' = [(key1, cached)])
           \/ exists built,
               buildTscTargets h2 fuel2 (joinPathFragments [workspaceRoot; configFilePath])
                 (Path.dirname configFilePath) opts workspaceRoot = Done built
               /\ targetsCache' = [(key1, cached); (key2, built)]
               /\ result
                  = mkNodes (Some [(Path.dirname configFilePath,
                                    mkProject "library" (targets built))])).
Proof.
  intros h1 h2 fuel1 fuel2 configFilePath opts workspaceRoot lockFileName
    changed key1 key2 Hcwd Hexists Hkind Hresolve Hlocal
    HsameContent HinjContent HsameArray HinjArray Hinfluences Hchanged Hkey1 Hkey2.
  pose proof Hkey1 as Hshape1. pose proof Hkey2 as Hshape2.
  apply cacheKeyOf_shape in Hshape1 as (files1 & hashes1 & rest1 & Hfiles1 & Hhashes1 & ->).
  apply cacheKeyOf_shape in Hshape2 as (files2 & hashes2 & rest2 & Hfiles2 & Hhashes2 & ->).
  assert (Hin : In changed files1)
    by (eapply hashedFiles_hold_influencing; eassumption).
  assert (Hne : hashArray h1 (hashes1 ++ rest1) ++ "_" ++ configFilePath
                <> hashArray h2 (hashes2 ++ rest2) ++ "_" ++ configFilePath).
  { intros Heq.
    apply append_inv_tail in Heq. rewrite <- HsameArray in Heq.
    apply HinjArray in Heq.
    apply Hchanged.
    eapply (InSync_In h1 h2); [| exact Hin].
    eapply (equal_hashes_in_sync h1 h2 HsameContent HinjContent);
      [| exact Hhashes1 | exact Hhashes2 | exact Heq].
    eapply (hashedFiles_related h1 h2); eassumption. }
  split; [exists files1; auto |]. split; [assumption |]. split.
  - intros cached. cbn [Js.recordGet].
    apply String.eqb_neq in Hne. now rewrite Hne.
  - intros cached result targetsCache' Hrun.
    eapply createNodesInternal_recomputes; eassumption.
Qed.

(** *** The hashes of the fixture host have no collisions *)

Lemma hashBytes_injective (a b : string) :
  Fixture.hashBytes a = Fixture.hashBytes b -> a = b.
Proof.
  unfold Fixture.hashBytes. cbn [append]. intros H. now injection H.
Qed.

Lemma append_assoc (a b c : string) : (a ++ b) ++ c = a ++ (b ++ c).
Proof.
  induction a as [| x a IH]; cbn; [reflexivity | now rewrite IH].
Qed.

Lemma ones_prefix_injective :
  forall (n m : nat) (a b : string),
    Fixture.ones n ++ String "0" a = Fixture.ones m ++ String "0" b ->
    n = m /\ a = b.
Proof.
  induction n as [| n IH]; intros [| m] a b H; cbn in H.
  - injection H as ->. auto.
  - discriminate.
  - discriminate.
  - injection H as H. apply IH in H as [-> ->]. auto.
Qed.

Lemma append_same_length_injective :
  forall (a b c d : string),
    String.length a = String.length b -> a ++ c = b ++ d -> a = b /\ c = d.
Proof.
  induction a as [| x a IH]; intros [| y b] c d Hlen H; cbn in *; try discriminate.
  - auto.
  - injection H as -> H. injection Hlen as Hlen.
    destruct (IH _ _ _ Hlen H) as [-> ->]. auto.
Qed.

Lemma hashList_injective :
  forall l l' : list string, Fixture.hashList l = Fixture.hashList l' -> l = l'.
Proof.
  induction l as [| s l IH]; intros [| s' l'] H; cbn [Fixture.hashList] in H.
  - reflexivity.
  - unfold Fixture.lengthPrefixed in H. rewrite append_assoc in H.
    destruct (String.length s'); discriminate H.
  - unfold Fixture.lengthPrefixed in H. rewrite append_assoc in H.
    destruct (String.length s); discriminate H.
  - unfold Fixture.lengthPrefixed in H. rewrite !append_assoc in H.
    cbn [append] in H.
    apply ones_prefix_injective in H as [Hlen H].
    apply append_same_length_injective in H as [-> H]; [| assumption].
    f_equal. now apply IH.
Qed.

(** *** Fixture trees that differ in bytes only *)

Lemma assoc_defined_by_keys {A B : Type}
  (l1 : list (string * A)) (l2 : list (string * B)) :
  map fst l1 = map fst l2 ->
  forall k,
    match Fixture.assoc k l1 with Some _ => true | None => false end
    = match Fixture.assoc k l2 with Some _ => true | None => false end.
Proof.
  revert l2. induction l1 as [| [k1 v1] l1 IH]; intros [| [k2 v2] l2] H k;
    cbn in *; try discriminate; [reflexivity |].
  injection H as -> H. destruct (String.eqb k2 k); [reflexivity | now apply IH].
Qed.

Lemma withSources_isFile (t : Fixture.Tree) (bytes : list (string * string)) :
  map fst (Fixture.sources t) = map fst bytes ->
  forall p, Fixture.isFile t p = Fixture.isFile (Fixture.withSources t bytes) p.
Proof.
  intros Hkeys p. unfold Fixture.isFile. cbn [Fixture.withSources Fixture.sources].
  now apply assoc_defined_by_keys.
Qed.

Lemma withSources_same_existence (t : Fixture.Tree) (bytes : list (string * string)) :
  map fst (Fixture.sources t) = map fst bytes ->
  (forall p, existsSync (Fixture.host t) p
             = existsSync (Fixture.host (Fixture.withSources t bytes)) p)
  /\ (forall p, statIsFile (Fixture.host t) p
                = statIsFile (Fixture.host (Fixture.withSources t bytes)) p)
  /\ (forall s d, requireResolve (Fixture.host t) s d
                  = requireResolve (Fixture.host (Fixture.withSources t bytes)) s d).
Proof.
  intros Hkeys. pose proof (withSources_isFile t bytes Hkeys) as HisFile.
  repeat split; intros; cbn [Fixture.host existsSync statIsFile requireResolve].
  - now rewrite HisFile.
  - now rewrite HisFile.
  - unfold Fixture.resolveSpecifier. now rewrite HisFile.
Qed.

Lemma rewritten_paths (path bytes : string) (files : list (string * string)) :
  map fst files = map fst (Fixture.rewritten path bytes files).
Proof.
  induction files as [| [p b] files IH]; cbn [Fixture.rewritten map fst];
    [reflexivity | now rewrite IH].
Qed.

(** An edit changes no path, and the fixture parser reads the
    configurations from a table of its own. *)
Lemma edit_keeps_structure (t : Fixture.Tree) (path bytes : string) :
  (forall p, existsSync (Fixture.host t) p
             = existsSync (Fixture.host (Fixture.edit t path bytes)) p)
  /\ (forall p, statIsFile (Fixture.host t) p
                = statIsFile (Fixture.host (Fixture.edit t path bytes)) p)
  /\ (forall s d, requireResolve (Fixture.host t) s d
                  = requireResolve (Fixture.host (Fixture.edit t path bytes)) s d)
  /\ (forall p, readTsConfig (Fixture.host t) p
                = readTsConfig (Fixture.host (Fixture.edit t path bytes)) p).
Proof.
  destruct (withSources_same_existence t
              (Fixture.rewritten path bytes (Fixture.sources t))
              (rewritten_paths path bytes (Fixture.sources t)))
    as (Hexists & Hkind & Hresolve).
  repeat split; try assumption; reflexivity.
Qed.

(** Both keys are computed; [differ] tells them apart once the edited
    file is shown to influence the configuration file. *)
Ltac edited_file differ path :=
  eexists; eexists; split; [vm_compute; reflexivity |];
  split; [vm_compute; reflexivity |];
  apply (differ path);
  [| vm_compute; discriminate | vm_compute; reflexivity | vm_compute; reflexivity].

(** C3 on a concrete tree: editing [libs/a/tsconfig.json], the
    [tsconfig.base.json] it extends, its internal reference
    [tsconfig.lib.json], the [tsconfig.json] of the external project
    [libs/b] it references, or the lock file changes the key. *)
Lemma cache_key_changes_witness :
  Forall
    (fun changed =>
       exists key1 key2,
         cacheKeyOf (Fixture.host Scenario.layered) 2 "libs/a/tsconfig.json"
           Scenario.defaults "/ws" "package-lock.json" = Done key1
         /\ cacheKeyOf (Fixture.host (Fixture.edit Scenario.layered changed "edited"))
              2 "libs/a/tsconfig.json" Scenario.defaults "/ws" "package-lock.json"
            = Done key2
         /\ key1 <> key2)
    ["/ws/libs/a/tsconfig.json"; "/ws/libs/a/tsconfig.base.json";
     "/ws/libs/a/tsconfig.lib.json"; "/ws/libs/b/tsconfig.json";
     "/ws/package-lock.json"].
Proof.
  assert (Hedited : forall changed key1 key2,
             influences fileSpecifier (Fixture.host Scenario.layered)
               "libs/a/tsconfig.json" "/ws" "package-lock.json" changed ->
             readFile (Fixture.host Scenario.layered) changed
             <> readFile (Fixture.host (Fixture.edit Scenario.layered changed "edited"))
                  changed ->
             cacheKeyOf (Fixture.host Scenario.layered) 2 "libs/a/tsconfig.json"
               Scenario.defaults "/ws" "package-lock.json" = Done key1 ->
             cacheKeyOf (Fixture.host (Fixture.edit Scenario.layered changed "edited"))
               2 "libs/a/tsconfig.json" Scenario.defaults "/ws" "package-lock.json"
             = Done key2 ->
             key1 <> key2).
  { intros changed key1 key2 Hinfluences Hchanged Hkey1 Hkey2.
    destruct (edit_keeps_structure Scenario.layered changed "edited")
      as (Hexists & Hkind & Hresolve & Hparsed).
    refine (proj1 (proj2
              (cache_key_changes_with_content
                 (Fixture.host Scenario.layered)
                 (Fixture.host (Fixture.edit Scenario.layered changed "edited"))
                 2 2 "libs/a/tsconfig.json" Scenario.defaults "/ws"
                 "package-lock.json" changed key1 key2
                 eq_refl Hexists Hkind Hresolve _ (fun _ => eq_refl)
                 hashBytes_injective (fun _ => eq_refl) hashList_injective
                 Hinfluences Hchanged Hkey1 Hkey2))).
    intros p _. now rewrite Hparsed. }
  repeat apply Forall_cons; [| | | | | apply Forall_nil].
  - edited_file Hedited "/ws/libs/a/tsconfig.json". now left.
  - edited_file Hedited "/ws/libs/a/tsconfig.base.json".
    right. left. apply extends_directly. exists "./tsconfig.base.json".
    repeat split; reflexivity.
  - edited_file Hedited "/ws/libs/a/tsconfig.lib.json".
    right. right. left.
    refine (references_internally _ _ _ _ "/ws/libs/a/tsconfig.lib.json" _ _ _);
      [now left | reflexivity | now exists 1].
  - edited_file Hedited "/ws/libs/b/tsconfig.json".
    right. right. right. left. exists "/ws/libs/b".
    split; [right; now left |]. split; [reflexivity |].
    split; [now exists 1 | reflexivity].
  - edited_file Hedited "/ws/package-lock.json".
    right. right. right. right. reflexivity.
Defined.

(** The claim as worded counts every extended configuration file.  The
    [tsconfig.base.json] of [libs/a] extends a configuration of the package
    [@acme/presets]; editing that file leaves the key of
    [libs/a/tsconfig.json] as it was. *)
Lemma cache_key_ignores_extended_package_file :
  influences anySpecifier Workspace.presetHost "libs/a/tsconfig.json" "/ws"
    "package-lock.json" "/ws/node_modules/@acme/presets/tsconfig.json"
  /\ ~ influences fileSpecifier Workspace.presetHost "libs/a/tsconfig.json" "/ws"
        "package-lock.json" "/ws/node_modules/@acme/presets/tsconfig.json"
  /\ readFile Workspace.presetHost "/ws/node_modules/@acme/presets/tsconfig.json"
     <> readFile
          (Fixture.host
             (Fixture.edit Workspace.withPreset
                "/ws/node_modules/@acme/presets/tsconfig.json" "edited"))
          "/ws/node_modules/@acme/presets/tsconfig.json"
  /\ exists key,
      cacheKeyOf Workspace.presetHost 3 "libs/a/tsconfig.json" Scenario.defaults
        "/ws" "package-lock.json" = Done key
      /\ cacheKeyOf
           (Fixture.host
              (Fixture.edit Workspace.withPreset
                 "/ws/node_modules/@acme/presets/tsconfig.json" "edited"))
           3 "libs/a/tsconfig.json" Scenario.defaults "/ws" "package-lock.json"
         = Done key.
Proof.
  split; [| split; [| split]].
  - right. left.
    apply (extends_through _ _ _ "/ws/libs/a/tsconfig.base.json").
    + exists "./tsconfig.base.json". repeat split; reflexivity.
    + apply extends_directly. exists Workspace.presetSpecifier.
      repeat split; reflexivity.
  - intros Hin.
    pose proof (hashedFiles_hold_influencing Workspace.presetHost 3
                  "libs/a/tsconfig.json" "/ws" "package-lock.json" _ _
                  eq_refl Hin) as Hhashed.
    vm_compute in Hhashed.
    repeat (destruct Hhashed as [Hhashed | Hhashed]; [discriminate Hhashed |]).
    exact Hhashed.
  - vm_compute. discriminate.
  - eexists. split; vm_compute; reflexivity.
Qed.

(** * Further properties of the plugin *)

(** ** Normalization of the plugin options *)

(** X1.  [normalizePluginOptions] turns the typecheck target off only for
    [typecheck: false] and the build target on only for a truthy [build];
    an enabled build always carries all four names; and normalizing what
    it returned gives the same options back. *)
Theorem normalizePluginOptions_defaults_and_idempotence :
  forall given : option TscPluginOptions,
    let given' := match given with Some o => o | None => emptyPluginOptions end in
    (typecheck (normalizePluginOptions given) = None
     <-> typecheckInput given' = Flag false)
    /\ (build (normalizePluginOptions given) = None
        <-> buildInput given' = Unset \/ buildInput given' = Flag false)
    /\ (forall b, build (normalizePluginOptions given) = Some b ->
                  buildDepsName b <> None /\ watchDepsName b <> None)
    /\ normalizePluginOptions (Some (asPluginOptions (normalizePluginOptions given)))
       = normalizePluginOptions given.
Proof.
  intros given given'. unfold normalizePluginOptions. fold given'.
  destruct given' as [[| [|] | t] [| [|] | b] v]; cbn;
    (split; [split; [try discriminate; auto | try discriminate; auto] |]);
    (split; [split; [try discriminate; auto
                    | intros [H | H]; try discriminate; auto] |]);
    (split; [intros b' H; try discriminate; injection H as <-; cbn;
             split; discriminate |]);
    try reflexivity.
Qed.

(** ** The targets cache *)

Lemma recordSet_keys {V : Type} (k : string) (v : V) (r : Js.Record_ V) :
  Js.keys (Js.recordSet k v r) = Js.setAdd k (Js.keys r).
Proof.
  unfold Js.keys, Js.setAdd, Js.includes.
  induction r as [| [k' v'] r IH]; cbn [Js.recordSet map fst existsb app];
    [reflexivity |].
  rewrite (String.eqb_sym k k').
  destruct (String.eqb k' k); cbn [map fst orb]; [reflexivity |].
  rewrite IH. now destruct (existsb (String.eqb k) (map fst r)).
Qed.

Lemma proceeds_conditions (h : Host) (configFilePath workspaceRoot : string) :
  proceeds h configFilePath workspaceRoot ->
  String.eqb (Path.dirname configFilePath) "." = false
  /\ exists siblingFiles,
      readdirSync h (Path.join [workspaceRoot; Path.dirname configFilePath])
      = Some siblingFiles
      /\ negb (Js.includes siblingFiles "package.json")
         && negb (Js.includes siblingFiles "project.json") = false
      /\ negb (String.eqb (Path.basename configFilePath) "tsconfig.json")
         && negb (Js.includes siblingFiles "tsconfig.json") = false
      /\ existsb (Js.includes siblingFiles) nextConfigFiles = false.
Proof.
  intros (Hroot & siblingFiles & Hdir & Hdescr & Hts & Hnext).
  split; [now apply String.eqb_neq |].
  exists siblingFiles. split; [assumption |]. repeat split.
  - destruct Hdescr as [H | H]; apply includes_In in H; rewrite H;
      [reflexivity | apply andb_false_r].
  - destruct Hts as [H | H].
    + apply String.eqb_eq in H. now rewrite H.
    + apply includes_In in H. rewrite H. apply andb_false_r.
  - apply Bool.not_true_iff_false. intros H.
    apply existsb_exists in H as (next & Hin & Hincl).
    apply includes_In in Hincl. exact (Hnext next Hin Hincl).
Qed.

(** What a returning run of [createNodesInternal] has done: declined, served
    the targets found in the cache, or built them and stored them. *)
Lemma createNodesInternal_cases (h : Host) (fuel : nat) (configFilePath : string)
  (opts : NormalizedPluginOptions) (workspaceRoot lockFileName : string)
  (targetsCache targetsCache' : Js.Record_ TscProjectResult)
  (result : CreateNodesResult) :
  createNodesInternal h fuel configFilePath opts workspaceRoot lockFileName targetsCache
  = Done (result, targetsCache') ->
  (result = emptyResult /\ targetsCache' = targetsCache)
  \/ exists key found,
      cacheKeyOf h fuel configFilePath opts workspaceRoot lockFileName = Done key
      /\ result = projectResult (Path.dirname configFilePath) found
      /\ ((Js.recordGet key targetsCache = Some found /\ targetsCache' = targetsCache)
          \/ (Js.recordGet key targetsCache = None
              /\ buildTscTargets h fuel
                   (joinPathFragments [workspaceRoot; configFilePath])
                   (Path.dirname configFilePath) opts workspaceRoot = Done found
              /\ targetsCache' = Js.recordSet key found targetsCache)).
Proof.
  unfold createNodesInternal. intros H.
  assert (Hdeclined : Done (emptyResult, targetsCache) = Done (result, targetsCache') ->
                      result = emptyResult /\ targetsCache' = targetsCache)
    by (intros E; injection E as <- <-; auto).
  destruct (String.eqb (Path.dirname configFilePath) "."); [left; auto |].
  destruct (readdirSync h _) as [siblingFiles |]; [| discriminate].
  destruct (negb (Js.includes siblingFiles "package.json")
            && negb (Js.includes siblingFiles "project.json")); [left; auto |].
  destruct (negb (String.eqb (Path.basename configFilePath) "tsconfig.json")
            && negb (Js.includes siblingFiles "tsconfig.json")); [left; auto |].
  destruct (existsb (Js.includes siblingFiles) nextConfigFiles); [left; auto |].
  right.
  destruct (cacheKeyOf h fuel configFilePath opts workspaceRoot lockFileName)
    as [key | |]; cbn [bind] in H; try discriminate.
  destruct (Js.recordGet key targetsCache) as [hit |] eqn:Hget; cbn [bind fst snd] in H.
  - injection H as <- <-. exists key, hit. auto.
  - destruct (buildTscTargets h fuel _ _ opts workspaceRoot) as [built | |] eqn:Hbuilt;
      cbn [bind fst snd] in H; try discriminate.
    injection H as <- <-. exists key, built. split; [reflexivity |].
    split; [reflexivity |]. right. auto.
Qed.

(** X2.  A cache hit is served as it is.  When the configuration file is
    not declined, its key can be computed and the targets cache holds an
    entry under it, [createNodesInternal] returns the project with the cached
    targets and leaves the cache alone; [buildTscTargets] plays no part, so
    the answer is the same whatever it would do. *)
Theorem createNodesInternal_cache_hit :
  forall (h : Host) (fuel : nat) (configFilePath : string)
         (opts : NormalizedPluginOptions) (workspaceRoot lockFileName key : string)
         (targetsCache : Js.Record_ TscProjectResult) (hit : TscProjectResult),
    proceeds h configFilePath workspaceRoot ->
    cacheKeyOf h fuel configFilePath opts workspaceRoot lockFileName = Done key ->
    Js.recordGet key targetsCache = Some hit ->
    createNodesInternal h fuel configFilePath opts workspaceRoot lockFileName targetsCache
    = Done (projectResult (Path.dirname configFilePath) hit, targetsCache).
Proof.
  intros h fuel configFilePath opts workspaceRoot lockFileName key targetsCache hit
    Hproceeds Hkey Hhit.
  apply proceeds_conditions in Hproceeds
    as (Hroot & siblingFiles & Hdir & Hdescr & Hts & Hnext).
  unfold createNodesInternal.
  rewrite Hroot, Hdir, Hdescr, Hts, Hnext, Hkey. cbn [bind].
  rewrite Hhit. reflexivity.
Qed.

(** X3.  Running [createNodesInternal] again on the cache it left behind
    gives the same result and changes the cache no more. *)
Theorem createNodesInternal_second_run :
  forall (h : Host) (fuel : nat) (configFilePath : string)
         (opts : NormalizedPluginOptions) (workspaceRoot lockFileName : string)
         (targetsCache targetsCache' : Js.Record_ TscProjectResult)
         (result : CreateNodesResult),
    createNodesInternal h fuel configFilePath opts workspaceRoot lockFileName
      targetsCache = Done (result, targetsCache') ->
    createNodesInternal h fuel configFilePath opts workspaceRoot lockFileName
      targetsCache' = Done (result, targetsCache').
Proof.
  intros h fuel configFilePath opts workspaceRoot lockFileName
    targetsCache targetsCache' result H.
  unfold createNodesInternal in *.
  destruct (String.eqb (Path.dirname configFilePath) ".");
    [injection H as <- <-; reflexivity |].
  destruct (readdirSync h _) as [siblingFiles |]; [| discriminate].
  destruct (negb (Js.includes siblingFiles "package.json")
            && negb (Js.includes siblingFiles "project.json"));
    [injection H as <- <-; reflexivity |].
  destruct (negb (String.eqb (Path.basename configFilePath) "tsconfig.json")
            && negb (Js.includes siblingFiles "tsconfig.json"));
    [injection H as <- <-; reflexivity |].
  destruct (existsb (Js.includes siblingFiles) nextConfigFiles);
    [injection H as <- <-; reflexivity |].
  destruct (cacheKeyOf h fuel configFilePath opts workspaceRoot lockFileName)
    as [key | |]; cbn [bind] in *; try discriminate.
  destruct (Js.recordGet key targetsCache) as [hit |] eqn:Hget; cbn [bind fst snd] in H.
  - injection H as <- <-. rewrite Hget. reflexivity.
  - destruct (buildTscTargets h fuel _ _ opts workspaceRoot) as [built | |];
      cbn [bind fst snd] in H; try discriminate.
    injection H as <- <-.
    rewrite recordGet_recordSet, String.eqb_refl. reflexivity.
Qed.

(** X4.  [createNodesInternal] never replaces or drops an entry of the
    targets cache: every key keeps the value it had, and at most one key is
    added. *)
Theorem createNodesInternal_keeps_cache_entries :
  forall (h : Host) (fuel : nat) (configFilePath : string)
         (opts : NormalizedPluginOptions) (workspaceRoot lockFileName : string)
         (targetsCache targetsCache' : Js.Record_ TscProjectResult)
         (result : CreateNodesResult),
    createNodesInternal h fuel configFilePath opts workspaceRoot lockFileName
      targetsCache = Done (result, targetsCache') ->
    (forall key found, Js.recordGet key targetsCache = Some found ->
                       Js.recordGet key targetsCache' = Some found)
    /\ List.length (Js.keys targetsCache') <= S (List.length (Js.keys targetsCache)).
Proof.
  intros h fuel configFilePath opts workspaceRoot lockFileName
    targetsCache targetsCache' result H.
  apply createNodesInternal_cases in H
    as [[_ ->] | (key & found & _ & _ & [[_ ->] | (Hmiss & _ & ->)])];
    try (split; [auto | lia]).
  split.
  - intros key' found' Hget. rewrite recordGet_recordSet.
    destruct (String.eqb key key') eqn:Hkey; [| assumption].
    apply String.eqb_eq in Hkey. subst key'. congruence.
  - rewrite recordSet_keys. apply setAdd_length.
Qed.

(** The library [libs/mylib] of the fixtures gets past the early returns. *)
Lemma library_proceeds (compilerOptions : CompilerOptions) (packageJson : JSON) :
  proceeds (Fixture.host (Fixture.libraryTree compilerOptions packageJson))
    "libs/mylib/tsconfig.lib.json" "/ws".
Proof.
  split; [discriminate |].
  exists ["package.json"; "src"; "tsconfig.json"; "tsconfig.lib.json"].
  split; [reflexivity |]. split; [left; now left |].
  split; [right; right; right; now left |].
  intros next Hnext Hin. cbn in Hnext, Hin.
  repeat (destruct Hnext as [<- | Hnext];
          [repeat (destruct Hin as [Hin | Hin]; [discriminate Hin |]); exact Hin |]).
  exact Hnext.
Qed.

(** In the workspace of [libs/mylib], which holds the lock file
    [package-lock.json], a cache with an entry for
    [libs/mylib/tsconfig.lib.json]: the entry is served, whatever it holds. *)
Lemma createNodesInternal_cache_hit_witness :
  let h := Fixture.host (Fixture.libraryTree Fixture.noOptions Fixture.mainJsInSource) in
  hashFile h "/ws/package-lock.json" <> None
  /\ exists key,
    cacheKeyOf h 1 "libs/mylib/tsconfig.lib.json" Fixture.buildOnly "/ws"
      "package-lock.json" = Done key
    /\ createNodesInternal h 1 "libs/mylib/tsconfig.lib.json" Fixture.buildOnly "/ws"
         "package-lock.json" [(key, mkResult [])]
       = Done (projectResult "libs/mylib" (mkResult []), [(key, mkResult [])]).
Proof.
  intro h. split; [vm_compute; discriminate |].
  eexists. split; [vm_compute; reflexivity |].
  eapply (createNodesInternal_cache_hit h 1 "libs/mylib/tsconfig.lib.json"
            Fixture.buildOnly "/ws" "package-lock.json" _ _ (mkResult [])
            (library_proceeds _ _)).
  - vm_compute. reflexivity.
  - cbn [Js.recordGet]. now rewrite String.eqb_refl.
Defined.

(** In the same workspace, a first run on an empty cache, which hashes the
    lock file and builds, and the run after it. *)
Lemma createNodesInternal_second_run_witness :
  let h := Fixture.host (Fixture.libraryTree Fixture.noOptions Fixture.mainJsInSource) in
  hashFile h "/ws/package-lock.json" <> None
  /\ exists result targetsCache',
    createNodesInternal h 1 "libs/mylib/tsconfig.lib.json" Fixture.buildOnly "/ws"
      "package-lock.json" [] = Done (result, targetsCache')
    /\ List.length targetsCache' = 1
    /\ createNodesInternal h 1 "libs/mylib/tsconfig.lib.json" Fixture.buildOnly "/ws"
         "package-lock.json" targetsCache' = Done (result, targetsCache').
Proof.
  intro h. split; [vm_compute; discriminate |]. eexists. eexists.
  assert (Hrun : forall r c,
             createNodesInternal h 1 "libs/mylib/tsconfig.lib.json" Fixture.buildOnly
               "/ws" "package-lock.json" [] = Done (r, c) ->
             createNodesInternal h 1 "libs/mylib/tsconfig.lib.json" Fixture.buildOnly
               "/ws" "package-lock.json" [] = Done (r, c)
             /\ createNodesInternal h 1 "libs/mylib/tsconfig.lib.json" Fixture.buildOnly
                  "/ws" "package-lock.json" c = Done (r, c)).
  { intros r c H. split; [exact H |].
    exact (createNodesInternal_second_run h 1 _ _ _ _ [] c r H). }
  match goal with
  | |- ?A /\ ?B /\ ?C =>
      cut (A /\ C /\ B); [intros (Ha & Hc & Hb); auto |]
  end.
  rewrite <- and_assoc. split; [apply Hrun; vm_compute; reflexivity | reflexivity].
Defined.

(** The same first run: the cache grows by its one entry. *)
Lemma createNodesInternal_keeps_cache_entries_witness :
  let h := Fixture.host (Fixture.libraryTree Fixture.noOptions Fixture.mainJsInSource) in
  hashFile h "/ws/package-lock.json" <> None
  /\ exists result targetsCache',
    createNodesInternal h 1 "libs/mylib/tsconfig.lib.json" Fixture.buildOnly "/ws"
      "package-lock.json" [] = Done (result, targetsCache')
    /\ List.length (Js.keys targetsCache') <= 1.
Proof.
  intro h. split; [vm_compute; discriminate |]. eexists. eexists.
  assert (Hrun : forall r c,
             createNodesInternal h 1 "libs/mylib/tsconfig.lib.json" Fixture.buildOnly
               "/ws" "package-lock.json" [] = Done (r, c) ->
             createNodesInternal h 1 "libs/mylib/tsconfig.lib.json" Fixture.buildOnly
               "/ws" "package-lock.json" [] = Done (r, c)
             /\ List.length (Js.keys c) <= 1).
  { intros r c H. split; [exact H |].
    exact (proj2 (createNodesInternal_keeps_cache_entries h 1 _ _ _ _ [] c r H)). }
  apply Hrun. vm_compute. reflexivity.
Defined.

(** ** Files that cannot be hashed *)




(** ** What the reference walks collect *)


(** An invariant of the visitor's state is an invariant of the walk; the
    recursion has to keep it only where the visitor lets the walk descend. *)
Lemma walkReferencesLoop_invariant {St : Type} (h : Host)
  (recurse : ParsedCommandLine -> St -> Outcome St) (visitor : Visitor St)
  (known : Js.Record_ ParsedCommandLine) (Inv : St -> Prop) (all : list string) :
  (forall ref config st st' result,
      In ref all -> existsSync h ref = true -> Inv st ->
      visitor (refConfigPathOf ref) config st = Done (st', result) -> Inv st') ->
  (forall ref config st0 st st',
      In ref all ->
      visitor (refConfigPathOf ref) config st0 = Done (st, ReturnsVoid) ->
      Inv st -> recurse config st = Done st' -> Inv st') ->
  forall (refs : list string) (st st' : St),
    incl refs all -> Inv st ->
    walkReferencesLoop h recurse visitor known refs st = Done st' -> Inv st'.
Proof.
  intros Hvisit Hrec.
  induction refs as [| ref refs IH]; intros st st' Hincl Hinv H;
    cbn [walkReferencesLoop] in H.
  - now injection H as <-.
  - assert (Hin : In ref all) by (apply Hincl; now left).
    assert (Hrest : incl refs all) by (intros x Hx; apply Hincl; now right).
    destruct (Js.recordGet ref known); [now apply (IH st) |].
    destruct (existsSync h ref) eqn:Hexists; cbn [negb] in H; [| now apply (IH st)].
    destruct (loadTsConfig h (refConfigPathOf ref)) as [config | |]; cbn [bind] in H;
      try discriminate.
    destruct (visitor (refConfigPathOf ref) config st) as [[st1 result] | |] eqn:Hv;
      cbn [bind fst snd] in H; try discriminate.
    assert (Hinv1 : Inv st1) by (eapply Hvisit; eassumption).
    destruct result.
    + now apply (IH st1).
    + destruct (recurse config st1) as [st2 | |] eqn:Hr; cbn [bind] in H;
        try discriminate.
      apply (IH st2); try assumption.
      eapply Hrec; eassumption.
Qed.

Lemma walkProjectReferences_invariant {St : Type} (h : Host)
  (workspaceRoot projectRoot : string) (visitor : Visitor St) (Inv : St -> Prop) :
  (forall path config st st' result,
      Inv st -> visitor path config st = Done (st', result) -> Inv st') ->
  forall (fuel : nat) (config : ParsedCommandLine)
         (known : Js.Record_ ParsedCommandLine) (st st' : St),
    Inv st ->
    walkProjectReferences h fuel config workspaceRoot projectRoot visitor known st
    = Done st' ->
    Inv st'.
Proof.
  intros Hvisit. induction fuel as [| fuel IH]; intros config known st st' Hinv H;
    [discriminate |].
  cbn [walkProjectReferences] in H.
  refine (walkReferencesLoop_invariant h _ visitor known Inv
            (projectReferences config) _ _ (projectReferences config) st st'
            (incl_refl _) Hinv H).
  - intros ref c s s' r _ _ Hs Hv. eapply Hvisit; eassumption.
  - intros ref c s0 s s' _ _ Hs Hr. eapply IH; eassumption.
Qed.

(** X5.  [resolveInternalProjectReferences] adds only configuration files
    that [isExternalProjectReference] classifies as internal: every key of
    the returned map was in the map passed in or is internal, at whatever
    depth of the reference graph it was found. *)
Theorem resolveInternalProjectReferences_only_internal :
  forall (h : Host) (fuel : nat) (tsConfig : ParsedCommandLine)
         (workspaceRoot projectRoot : string)
         (given collected : Js.Record_ ParsedCommandLine),
    resolveInternalProjectReferences h fuel tsConfig workspaceRoot projectRoot given
    = Done collected ->
    forall key,
      In key (Js.keys collected) ->
      In key (Js.keys given)
      \/ isExternalProjectReference h fuel key workspaceRoot projectRoot = Done false.
Proof.
  intros h fuel tsConfig workspaceRoot projectRoot given collected H.
  unfold resolveInternalProjectReferences in H.
  refine (walkProjectReferences_invariant h workspaceRoot projectRoot _
            (fun st => forall key, In key (Js.keys st) ->
                         In key (Js.keys given)
                         \/ isExternalProjectReference h fuel key workspaceRoot
                              projectRoot = Done false)
            _ fuel tsConfig [] given collected _ H); [| auto].
  intros path config st st' result Hinv Hv key Hkey.
  unfold internalVisitor in Hv.
  destruct (isExternalProjectReference h fuel path workspaceRoot projectRoot)
    as [[|] | |] eqn:Hext; cbn [bind] in Hv; try discriminate;
    injection Hv as <- <-; [now apply Hinv |].
  rewrite recordSet_keys in Hkey. apply setAdd_In in Hkey as [Hkey | ->];
    [now apply Hinv | now right].
Qed.

(** X6.  [resolveShallowExternalProjectReferences] looks at the direct
    references only: one level of walking is all it needs, so it returns or
    throws whenever the classifier answers on the direct references, cycles
    or not; and every key it adds is the configuration file of a direct
    reference that exists and is classified as external. *)
Theorem resolveShallowExternalProjectReferences_direct_only :
  forall (h : Host) (fuel : nat) (tsConfig : ParsedCommandLine)
         (workspaceRoot projectRoot : string)
         (given : Js.Record_ ParsedCommandLine),
    ((forall ref, In ref (projectReferences tsConfig) -> existsSync h ref = true ->
                  isExternalProjectReference h (S fuel) (refConfigPathOf ref)
                    workspaceRoot projectRoot <> OutOfFuel) ->
     resolveShallowExternalProjectReferences h (S fuel) tsConfig workspaceRoot
       projectRoot given <> OutOfFuel)
    /\ (forall collected,
           resolveShallowExternalProjectReferences h fuel tsConfig workspaceRoot
             projectRoot given = Done collected ->
           forall key,
             In key (Js.keys collected) ->
             In key (Js.keys given)
             \/ (isExternalProjectReference h fuel key workspaceRoot projectRoot
                 = Done true
                 /\ exists ref, In ref (projectReferences tsConfig)
                                /\ existsSync h ref = true
                                /\ key = refConfigPathOf ref)).
Proof.
  intros h fuel tsConfig workspaceRoot projectRoot given. split.
  - intros Hanswers. unfold resolveShallowExternalProjectReferences.
    cbn [walkProjectReferences].
    generalize given.
    induction (projectReferences tsConfig) as [| ref refs IH]; intros st;
      cbn [walkReferencesLoop]; [discriminate |].
    assert (Hrest : forall ref', In ref' refs -> existsSync h ref' = true ->
                      isExternalProjectReference h (S fuel) (refConfigPathOf ref')
                        workspaceRoot projectRoot <> OutOfFuel)
      by (intros ref' Hin; apply Hanswers; now right).
    destruct (existsSync h ref) eqn:Hexists; cbn [Js.recordGet negb];
      [| now apply IH].
    unfold loadTsConfig.
    destruct (statIsFile h (refConfigPathOf ref)); cbn [bind]; try discriminate.
    unfold shallowExternalVisitor at 1.
    pose proof (Hanswers ref (or_introl eq_refl) Hexists) as Hanswer.
    destruct (isExternalProjectReference h (S fuel) (refConfigPathOf ref)
                workspaceRoot projectRoot) as [[|] | |];
      cbn [bind fst snd]; try discriminate; try (now apply IH);
      now elim Hanswer.
  - intros collected H key Hkey.
    unfold resolveShallowExternalProjectReferences in H.
    destruct fuel as [| fuel']; [discriminate |].
    cbn [walkProjectReferences] in H.
    refine (walkReferencesLoop_invariant h _ _ [] 
              (fun st => forall key, In key (Js.keys st) ->
                 In key (Js.keys given)
                 \/ (isExternalProjectReference h (S fuel') key workspaceRoot
                       projectRoot = Done true
                     /\ exists ref, In ref (projectReferences tsConfig)
                                    /\ existsSync h ref = true
                                    /\ key = refConfigPathOf ref))
              (projectReferences tsConfig) _ _ (projectReferences tsConfig)
              given collected (incl_refl _) _ H key Hkey); [| | auto].
    + intros ref config st st' result Hin Hexists Hinv Hv key' Hkey'.
      unfold shallowExternalVisitor in Hv.
      destruct (isExternalProjectReference h (S fuel') (refConfigPathOf ref)
                  workspaceRoot projectRoot) as [[|] | |] eqn:Hext;
        cbn [bind] in Hv; try discriminate; injection Hv as <- <-;
        [| now apply Hinv].
      rewrite recordSet_keys in Hkey'. apply setAdd_In in Hkey' as [Hkey' | ->];
        [now apply Hinv |].
      right. split; [assumption |]. exists ref. auto.
    + intros ref config st0 st st' _ Hv. exfalso.
      unfold shallowExternalVisitor in Hv.
      destruct (isExternalProjectReference h (S fuel') (refConfigPathOf ref)
                  workspaceRoot projectRoot) as [[|] | |];
        cbn [bind] in Hv; discriminate.
Qed.

Lemma resolveInternalProjectReferences_only_internal_witness :
  exists collected,
    resolveInternalProjectReferences Workspace.host 4
      (readTsConfig Workspace.host Workspace.aConfig) "/ws" "libs/a" []
    = Done collected
    /\ In Workspace.aLibConfig (Js.keys collected)
    /\ (In Workspace.aLibConfig (Js.keys (@nil (string * ParsedCommandLine)))
        \/ isExternalProjectReference Workspace.host 4 Workspace.aLibConfig
             "/ws" "libs/a" = Done false).
Proof.
  eexists. split; [vm_compute; reflexivity |]. split; [left; reflexivity |].
  eapply (resolveInternalProjectReferences_only_internal Workspace.host 4
            (readTsConfig Workspace.host Workspace.aConfig) "/ws" "libs/a" []);
    [vm_compute; reflexivity | left; reflexivity].
Defined.

Lemma resolveShallowExternalProjectReferences_direct_only_witness :
  resolveShallowExternalProjectReferences Workspace.host 4
    (readTsConfig Workspace.host Workspace.aConfig) "/ws" "libs/a" []
  <> OutOfFuel
  /\ exists collected,
      resolveShallowExternalProjectReferences Workspace.host 4
        (readTsConfig Workspace.host Workspace.aConfig) "/ws" "libs/a" []
      = Done collected
      /\ In Workspace.bConfig (Js.keys collected)
      /\ (In Workspace.bConfig (Js.keys (@nil (string * ParsedCommandLine)))
          \/ (isExternalProjectReference Workspace.host 4 Workspace.bConfig
                "/ws" "libs/a" = Done true
              /\ exists ref,
                  In ref (projectReferences
                            (readTsConfig Workspace.host Workspace.aConfig))
                  /\ existsSync Workspace.host ref = true
                  /\ Workspace.bConfig = refConfigPathOf ref)).
Proof.
  split.
  - apply (proj1 (resolveShallowExternalProjectReferences_direct_only
                    Workspace.host 3
                    (readTsConfig Workspace.host Workspace.aConfig)
                    "/ws" "libs/a" [])).
    intros ref [<- | [<- | []]] _; vm_compute; discriminate.
  - eexists. split; [vm_compute; reflexivity |]. split; [left; reflexivity |].
    eapply (proj2 (resolveShallowExternalProjectReferences_direct_only
                     Workspace.host 4
                     (readTsConfig Workspace.host Workspace.aConfig)
                     "/ws" "libs/a" []));
      [vm_compute; reflexivity | left; reflexivity].
Defined.

(** ** Termination of the reference walks *)

Lemma walkReferencesLoop_ends {St : Type} (h : Host)
  (recurse : ParsedCommandLine -> St -> Outcome St) (visitor : Visitor St)
  (known : Js.Record_ ParsedCommandLine) (all : list string) :
  (forall ref st, In ref all -> existsSync h ref = true ->
                  visitor (refConfigPathOf ref) (readTsConfig h (refConfigPathOf ref)) st
                  <> OutOfFuel) ->
  (forall ref st0 st, In ref all -> existsSync h ref = true ->
                      visitor (refConfigPathOf ref)
                        (readTsConfig h (refConfigPathOf ref)) st0
                      = Done (st, ReturnsVoid) ->
                      recurse (readTsConfig h (refConfigPathOf ref)) st <> OutOfFuel) ->
  forall (refs : list string) (st : St),
    incl refs all ->
    walkReferencesLoop h recurse visitor known refs st <> OutOfFuel.
Proof.
  intros Hvisit Hrec.
  induction refs as [| ref refs IH]; intros st Hincl; cbn [walkReferencesLoop];
    [discriminate |].
  assert (Hin : In ref all) by (apply Hincl; now left).
  assert (Hrest : incl refs all) by (intros x Hx; apply Hincl; now right).
  destruct (Js.recordGet ref known); [now apply IH |].
  destruct (existsSync h ref) eqn:Hexists; cbn [negb]; [| now apply IH].
  destruct (loadTsConfig_cases h (refConfigPathOf ref)) as [-> | ->]; cbn [bind];
    [| discriminate].
  pose proof (Hvisit ref st Hin Hexists) as Hanswer.
  destruct (visitor (refConfigPathOf ref) (readTsConfig h (refConfigPathOf ref)) st)
    as [[st1 [|]] | |] eqn:Hv; cbn [bind fst snd]; try discriminate;
    try (now apply IH); try (now elim Hanswer).
  pose proof (Hrec ref st st1 Hin Hexists Hv) as Hdeeper.
  destruct (recurse (readTsConfig h (refConfigPathOf ref)) st1); cbn [bind];
    try discriminate; try (now apply IH); now elim Hdeeper.
Qed.

(** X7.  On a reference graph without cycles [walkProjectReferences]
    comes to an end: when every path the visitor lets it descend along is at
    most [n] references long and the visitor answers on each reference, the
    walk returns or throws once it is allowed [n] nested calls, whatever map
    and state it is started on. *)
Theorem walkProjectReferences_ends_without_cycles {St : Type} :
  forall (h : Host) (workspaceRoot projectRoot : string) (visitor : Visitor St)
         (tsConfig : ParsedCommandLine) (n : nat),
    WalkEnds h visitor tsConfig n ->
    forall (fuel : nat) (known : Js.Record_ ParsedCommandLine) (st : St),
      n <= fuel ->
      walkProjectReferences h fuel tsConfig workspaceRoot projectRoot visitor known st
      <> OutOfFuel.
Proof.
  intros h workspaceRoot projectRoot visitor tsConfig n Hends.
  induction Hends as [config n Hvisit Hdeeper IH].
  intros fuel known st Hle. destruct fuel as [| fuel]; [lia |].
  cbn [walkProjectReferences].
  apply (walkReferencesLoop_ends h _ visitor known (projectReferences config));
    [exact Hvisit | | apply incl_refl].
  intros ref st0 st1 Hin Hexists Hv.
  apply (IH ref st0 st1 Hin Hexists Hv). lia.
Qed.

Ltac walk_ends_step :=
  apply walk_ends;
  [ let Hin := fresh "Hin" in
    intros ? ? Hin _; vm_compute in Hin;
    repeat (destruct Hin as [<- | Hin]); try contradiction;
    vm_compute; discriminate
  | let Hin := fresh "Hin" in
    intros ? ? ? Hin _ _; vm_compute in Hin;
    repeat (destruct Hin as [<- | Hin]); try contradiction ].

Lemma walkProjectReferences_ends_without_cycles_witness :
  resolveInternalProjectReferences (Fixture.host Scenario.diamondReferences) 3
    (readTsConfig (Fixture.host Scenario.diamondReferences) Scenario.rootConfig)
    "/ws" "libs/a" []
  <> OutOfFuel.
Proof.
  unfold resolveInternalProjectReferences.
  apply (walkProjectReferences_ends_without_cycles
           (Fixture.host Scenario.diamondReferences) "/ws" "libs/a"
           (internalVisitor (Fixture.host Scenario.diamondReferences) 3 "/ws" "libs/a")
           (readTsConfig (Fixture.host Scenario.diamondReferences) Scenario.rootConfig)
           3); [| lia].
  walk_ends_step; walk_ends_step; walk_ends_step.
Defined.

(** ** The search for external references *)

Lemma unseen_le (universe seen seen' : list string) :
  incl seen seen' -> unseen universe seen' <= unseen universe seen.
Proof.
  intros Hincl. unfold unseen.
  induction universe as [| p universe IH]; cbn [filter]; [lia |].
  destruct (Js.includes seen p) eqn:Hp; cbn [negb].
  - apply includes_In in Hp. apply Hincl, includes_In in Hp. rewrite Hp. exact IH.
  - destruct (Js.includes seen' p); cbn [negb List.length]; lia.
Qed.

Lemma unseen_setAdd (universe seen : list string) (x : string) :
  In x universe -> ~ In x seen ->
  unseen universe (Js.setAdd x seen) < unseen universe seen.
Proof.
  intros Hin Hfresh. unfold unseen.
  induction universe as [| p universe IH]; [destruct Hin |].
  assert (Hle : unseen universe (Js.setAdd x seen) <= unseen universe seen)
    by (apply unseen_le; intros y Hy; apply setAdd_In; now left).
  unfold unseen in Hle. cbn [filter].
  destruct (String.eqb p x) eqn:Hpx.
  - apply String.eqb_eq in Hpx. subst p.
    assert (Hnow : Js.includes (Js.setAdd x seen) x = true)
      by (apply includes_In, setAdd_In; now right).
    apply includes_not_In in Hfresh. rewrite Hnow, Hfresh. cbn [negb List.length]. lia.
  - apply String.eqb_neq in Hpx. destruct Hin as [-> | Hin]; [congruence |].
    specialize (IH Hin).
    destruct (Js.includes seen p) eqn:Hp; cbn [negb].
    + assert (Hstill : Js.includes (Js.setAdd x seen) p = true).
      { apply includes_In, setAdd_In. left. now apply includes_In. }
      rewrite Hstill. exact IH.
    + destruct (Js.includes (Js.setAdd x seen) p); cbn [negb List.length]; lia.
Qed.

Section ExternalSearch.

Variable h : Host.
Variables workspaceRoot projectRoot : string.
Variable universe : list string.
Variable depth : nat.

Hypothesis references_within :
  forall path, In path universe -> fileReferencesWithin h universe (readTsConfig h path).

Hypothesis classifier_answers :
  forall ref fuel,
    In ref universe -> depth <= fuel ->
    isExternalProjectReference h fuel ref workspaceRoot projectRoot <> OutOfFuel.

Local Abbreviation answers fuel path config seen :=
  (hasExternalProjectReferences h fuel path config workspaceRoot projectRoot seen
   <> OutOfFuel
   /\ forall found seen',
       hasExternalProjectReferences h fuel path config workspaceRoot projectRoot seen
       = Done (found, seen') ->
       incl seen seen').

Lemma hasExternalReferencesLoop_answers (fuel : nat) :
  depth <= S fuel ->
  (forall path config seen,
      fileReferencesWithin h universe config ->
      depth + unseen universe (Js.setAdd path seen) < fuel ->
      answers fuel path config seen) ->
  forall (refs : list string) (seen : list string),
    (forall ref, In ref refs -> existsSync h ref = true ->
                 In ref universe /\ Js.endsWith ref ".json" = true) ->
    depth + unseen universe seen <= fuel ->
    hasExternalReferencesLoop h
      (fun path config seen' =>
         hasExternalProjectReferences h fuel path config workspaceRoot projectRoot seen')
      (S fuel) workspaceRoot projectRoot refs seen <> OutOfFuel
    /\ forall found seen',
        hasExternalReferencesLoop h
          (fun path config seen' =>
             hasExternalProjectReferences h fuel path config workspaceRoot projectRoot
               seen')
          (S fuel) workspaceRoot projectRoot refs seen = Done (found, seen') ->
        incl seen seen'.
Proof.
  intros Hdepth Hdeeper.
  induction refs as [| ref refs IH]; intros seen Hrefs Hfuel;
    cbn [hasExternalReferencesLoop].
  - split; [discriminate |]. intros found seen' H. injection H as _ <-.
    apply incl_refl.
  - assert (Hrest : forall ref', In ref' refs -> existsSync h ref' = true ->
                      In ref' universe /\ Js.endsWith ref' ".json" = true)
      by (intros ref' Hin; apply Hrefs; now right).
    destruct (Js.includes seen ref) eqn:Hseen; [now apply IH |].
    destruct (existsSync h ref) eqn:Hexists; cbn [negb]; [| now apply IH].
    destruct (Hrefs ref (or_introl eq_refl) Hexists) as [Hin Hjson].
    apply includes_not_In in Hseen.
    pose proof (classifier_answers ref (S fuel) Hin Hdepth) as Hanswer.
    destruct (isExternalProjectReference h (S fuel) ref workspaceRoot projectRoot)
      as [[|] | |]; cbn [bind].
    + split; [discriminate |]. intros found seen' H. injection H as _ <-.
      apply incl_refl.
    + unfold refConfigPathOf. rewrite Hjson.
      destruct (loadTsConfig_cases h ref) as [-> | ->]; cbn [bind];
        [| split; [discriminate | intros ? ? H; discriminate H]].
      assert (Hless : depth + unseen universe (Js.setAdd ref seen) < fuel).
      { pose proof (unseen_setAdd universe seen ref Hin Hseen). lia. }
      destruct (Hdeeper ref (readTsConfig h ref) seen (references_within ref Hin) Hless)
        as [Hends Hgrows].
      destruct (hasExternalProjectReferences h fuel ref (readTsConfig h ref)
                  workspaceRoot projectRoot seen) as [[found1 seen1] | |];
        cbn [bind fst snd]; [| split; [discriminate | intros ? ? H; discriminate H]
                             | now elim Hends].
      specialize (Hgrows found1 seen1 eq_refl).
      destruct found1.
      * split; [discriminate |]. intros found seen' H. now injection H as _ <-.
      * assert (Hfuel1 : depth + unseen universe seen1 <= fuel).
        { pose proof (unseen_le universe seen seen1 Hgrows). lia. }
        destruct (IH seen1 Hrest Hfuel1) as [Hends' Hgrows'].
        split; [exact Hends' |]. intros found seen' H.
        eapply incl_tran; [exact Hgrows | eapply Hgrows'; exact H].
    + split; [discriminate | intros ? ? H; discriminate H].
    + now elim Hanswer.
Qed.

Lemma hasExternalProjectReferences_answers :
  forall (fuel : nat) (path : string) (config : ParsedCommandLine) (seen : list string),
    fileReferencesWithin h universe config ->
    depth + unseen universe (Js.setAdd path seen) < fuel ->
    answers fuel path config seen.
Proof.
  induction fuel as [| fuel IH]; intros path config seen Hrefs Hfuel; [lia |].
  cbn [hasExternalProjectReferences].
  destruct (projectReferences config) as [| ref refs] eqn:Hlist.
  - split; [discriminate |]. intros found seen' H. injection H as _ <-.
    apply incl_refl.
  - destruct (hasExternalReferencesLoop_answers fuel ltac:(lia) IH (ref :: refs)
                (Js.setAdd path seen)) as [Hends Hgrows].
    + intros ref' Hin. apply Hrefs. now rewrite Hlist.
    + lia.
    + split; [exact Hends |]. intros found seen' H.
      eapply incl_tran; [| eapply Hgrows; exact H].
      intros y Hy. apply setAdd_In. now left.
Qed.

End ExternalSearch.

Lemma unseen_bound (universe seen : list string) :
  unseen universe seen <= List.length universe.
Proof.
  unfold unseen. induction universe as [| p universe IH]; cbn [filter List.length];
    [lia |].
  destruct (negb (Js.includes seen p)); cbn [List.length]; lia.
Qed.

(** X8.  [hasExternalProjectReferences] comes to an end on reference
    cycles whose references name configuration files: when the existing
    references of the configuration and of every file of a finite set stay
    in that set and end in [.json], and the classifier answers on them, the
    search returns or throws within as many nested calls as the set has
    files, and the set of seen paths it hands back extends the one it was
    given. *)
Theorem hasExternalProjectReferences_ends_on_file_cycles :
  forall (h : Host) (workspaceRoot projectRoot : string) (universe : list string)
         (depth fuel : nat) (tsConfigPath : string) (tsConfig : ParsedCommandLine)
         (seen : list string),
    (forall path, In path universe ->
                  fileReferencesWithin h universe (readTsConfig h path)) ->
    (forall ref fuel', In ref universe -> depth <= fuel' ->
                       isExternalProjectReference h fuel' ref workspaceRoot projectRoot
                       <> OutOfFuel) ->
    fileReferencesWithin h universe tsConfig ->
    depth + List.length universe < fuel ->
    hasExternalProjectReferences h fuel tsConfigPath tsConfig workspaceRoot
      projectRoot seen <> OutOfFuel
    /\ forall found seen',
        hasExternalProjectReferences h fuel tsConfigPath tsConfig workspaceRoot
          projectRoot seen = Done (found, seen') ->
        incl seen seen'.
Proof.
  intros h workspaceRoot projectRoot universe depth fuel tsConfigPath tsConfig seen
    Hwithin Hclassifier Hrefs Hfuel.
  apply (hasExternalProjectReferences_answers h workspaceRoot projectRoot universe
           depth Hwithin Hclassifier fuel tsConfigPath tsConfig seen Hrefs).
  pose proof (unseen_bound universe (Js.setAdd tsConfigPath seen)). lia.
Qed.

Lemma hasExternalProjectReferences_ends_on_file_cycles_witness :
  hasExternalProjectReferences (Fixture.host Scenario.cyclicReferences) 4
    Scenario.rootConfig
    (readTsConfig (Fixture.host Scenario.cyclicReferences) Scenario.rootConfig)
    "/ws" "libs/a" [] <> OutOfFuel.
Proof.
  apply (hasExternalProjectReferences_ends_on_file_cycles
           (Fixture.host Scenario.cyclicReferences) "/ws" "libs/a"
           [Scenario.rootConfig; Scenario.libConfig] 1 4 Scenario.rootConfig
           (readTsConfig (Fixture.host Scenario.cyclicReferences) Scenario.rootConfig)
           []).
  - intros path [<- | [<- | []]] ref Hin _; vm_compute in Hin;
      destruct Hin as [<- | []]; (split; [cbn; auto | reflexivity]).
  - intros ref [| fuel'] Hin Hle; [lia |].
    destruct Hin as [<- | [<- | []]];
      change (@Done bool false <> OutOfFuel); discriminate.
  - intros ref Hin _; vm_compute in Hin;
      destruct Hin as [<- | []]; (split; [cbn; auto | reflexivity]).
  - cbn. lia.
Defined.





(** ** Extended configuration files *)

Lemma segments_slash (name rest : string) :
  forallb Path.notSlash (list_ascii_of_string name) = true ->
  Path.segments (name ++ String "/" rest) = name :: Path.segments rest.
Proof.
  induction name as [| c name IH]; intros Hplain.
  - reflexivity.
  - cbn [list_ascii_of_string forallb] in Hplain.
    apply andb_true_iff in Hplain as [Hc Hname].
    cbn [append Path.segments]. unfold Path.notSlash in Hc.
    apply negb_true_iff in Hc. rewrite Hc. now rewrite (IH Hname).
Qed.

Lemma segments_plain (name : string) :
  forallb Path.notSlash (list_ascii_of_string name) = true ->
  Path.segments name = [name].
Proof.
  induction name as [| c name IH]; intros Hplain.
  - reflexivity.
  - cbn [list_ascii_of_string forallb] in Hplain.
    apply andb_true_iff in Hplain as [Hc Hname].
    cbn [Path.segments]. unfold Path.notSlash in Hc.
    apply negb_true_iff in Hc. rewrite Hc. now rewrite (IH Hname).
Qed.

Lemma subpath_cases (tail : string) :
  subpath tail -> tail = "" \/ exists rest, tail = String "/" rest.
Proof.
  intros [-> | H]; [now left | right].
  destruct tail as [| c tail]; [discriminate |].
  unfold Js.startsWith in H. cbn [prefix] in H.
  destruct (ascii_dec "/" c) as [<- |]; [now exists tail | discriminate].
Qed.

Lemma segments_name (name tail : string) :
  forallb Path.notSlash (list_ascii_of_string name) = true ->
  subpath tail ->
  exists more, Path.segments (name ++ tail) = name :: more.
Proof.
  intros Hplain Htail.
  destruct (subpath_cases tail Htail) as [-> | [rest ->]].
  - exists []. replace (name ++ "") with name; [now apply segments_plain |].
    clear Hplain. induction name as [| c name IH]; cbn [append]; congruence.
  - exists (Path.segments rest). now apply segments_slash.
Qed.

Lemma startsWith_name (name tail : string) (c : ascii) :
  name <> "" ->
  Js.startsWith (name ++ tail) (String c "") = Js.startsWith name (String c "").
Proof.
  intros Hname. destruct name as [| c0 name]; [congruence |].
  unfold Js.startsWith. cbn [append prefix].
  destruct (ascii_dec c c0); [| reflexivity]. now destruct (name ++ tail), name.
Qed.

(** X10.  The package name [resolveExtendedTsConfigPath] reports for a
    specifier that resolves: a specifier that starts with a dot is a file and
    has none; for [name], [name/...] it is [name]; for [@scope/name],
    [@scope/name/...] it is [@scope/name]; for an absolute path it is the
    empty string, which [getExtendedConfigFiles] takes for no package. *)
Theorem resolveExtendedTsConfigPath_package_name :
  forall (h : Host) (directory specifier resolved : string),
    requireResolve h specifier directory = Some resolved ->
    (Js.startsWith specifier "." = true ->
     resolveExtendedTsConfigPath h specifier directory
     = Some (mkExtendedPath resolved None))
    /\ (forall name tail,
           specifier = name ++ tail -> plainSegment name -> subpath tail ->
           Js.startsWith name "." = false -> Js.startsWith name "@" = false ->
           resolveExtendedTsConfigPath h specifier directory
           = Some (mkExtendedPath resolved (Some name)))
    /\ (forall scope name tail,
           specifier = String "@" scope ++ String "/" (name ++ tail) ->
           forallb Path.notSlash (list_ascii_of_string scope) = true ->
           forallb Path.notSlash (list_ascii_of_string name) = true ->
           subpath tail ->
           resolveExtendedTsConfigPath h specifier directory
           = Some (mkExtendedPath resolved (Some (String "@" scope ++ String "/" name))))
    /\ (Js.startsWith specifier "/" = true ->
        resolveExtendedTsConfigPath h specifier directory
        = Some (mkExtendedPath resolved (Some ""))
        /\ Js.truthy (Some "") = false).
Proof.
  intros h directory specifier resolved Hresolved.
  unfold resolveExtendedTsConfigPath. rewrite Hresolved.
  split; [| split; [| split]].
  - now intros ->.
  - intros name tail -> [Hname Hplain] Htail Hdot Hat.
    rewrite !startsWith_name, Hdot, Hat by assumption.
    destruct (segments_name name tail Hplain Htail) as [more ->]. reflexivity.
  - intros scope name tail -> Hscope Hname Htail.
    change (String "@" scope ++ String "/" (name ++ tail))
      with (String "@" (scope ++ String "/" (name ++ tail))).
    change (Js.startsWith (String "@" (scope ++ String "/" (name ++ tail))) ".")
      with false.
    replace (Js.startsWith (String "@" (scope ++ String "/" (name ++ tail))) "@")
      with true
      by (unfold Js.startsWith; cbn [prefix];
          now destruct (scope ++ String "/" (name ++ tail))).
    change (String "@" (scope ++ String "/" (name ++ tail)))
      with (String "@" scope ++ String "/" (name ++ tail)).
    rewrite (segments_slash (String "@" scope) (name ++ tail)) by exact Hscope.
    destruct (segments_name name tail Hname Htail) as [more ->]. reflexivity.
  - intros Habsolute.
    destruct specifier as [| c specifier]; [discriminate |].
    unfold Js.startsWith in Habsolute. cbn [prefix] in Habsolute.
    destruct (ascii_dec "/" c) as [<- |]; [| discriminate].
    split; reflexivity.
Qed.

Lemma resolveExtendedTsConfigPath_package_name_witness :
  resolveExtendedTsConfigPath Workspace.presetHost Workspace.presetSpecifier
    "/ws/libs/a"
  = Some (mkExtendedPath "/ws/node_modules/@acme/presets/tsconfig.json"
            (Some "@acme/presets")).
Proof.
  apply (proj1 (proj2 (proj2 (resolveExtendedTsConfigPath_package_name
                                Workspace.presetHost "/ws/libs/a"
                                Workspace.presetSpecifier
                                "/ws/node_modules/@acme/presets/tsconfig.json"
                                eq_refl)))
           "acme" "presets" "/tsconfig.json");
    try reflexivity.
  now right.
Defined.

Lemma getExtendedConfigFilesLoop_packages (h : Host) :
  forall (fuel : nat) (path : string) (config : ParsedCommandLine)
         (collected packages' : list string) (found : ExtendedConfigFiles),
    getExtendedConfigFilesLoop h fuel path config collected packages' = Done found ->
    packages found = packages'
    \/ exists name, name <> "" /\ packages found = Js.setAdd name packages'.
Proof.
  induction fuel as [| fuel IH]; intros path config collected packages' found H;
    [discriminate |].
  cbn [getExtendedConfigFilesLoop] in H.
  destruct (Js.truthy (extends (raw config))); [| injection H as <-; now left].
  destruct (resolveExtendedTsConfigPath h (valueOf (extends (raw config)))
              (Path.dirname path)) as [[file package] |];
    [| injection H as <-; now left].
  cbn [externalPackage filePath] in H.
  destruct (Js.truthy package) eqn:Hpackage.
  - injection H as <-. right. destruct package as [name |]; [| discriminate].
    exists name. split; [| reflexivity].
    cbn [Js.truthy] in Hpackage. apply negb_true_iff, String.eqb_neq in Hpackage.
    exact Hpackage.
  - destruct (loadTsConfig h file) as [next | |]; cbn [bind] in H; try discriminate.
    eapply IH; exact H.
Qed.

(** X11.  [getExtendedConfigFiles] stops at the first configuration that
    comes from a package: it reports at most one package, whose name is not
    empty, however long the chain of [extends] is. *)
Theorem getExtendedConfigFiles_at_most_one_package :
  forall (h : Host) (fuel : nat) (tsConfigPath : string) (tsConfig : ParsedCommandLine)
         (found : ExtendedConfigFiles),
    getExtendedConfigFiles h fuel tsConfigPath tsConfig = Done found ->
    packages found = [] \/ exists name, name <> "" /\ packages found = [name].
Proof.
  intros h fuel tsConfigPath tsConfig found H.
  apply getExtendedConfigFilesLoop_packages in H as [H | (name & Hname & H)];
    [now left | right; now exists name].
Qed.

Lemma getExtendedConfigFiles_at_most_one_package_witness :
  getExtendedConfigFiles Workspace.presetHost 5 "/ws/libs/a/tsconfig.json"
    (readTsConfig Workspace.presetHost "/ws/libs/a/tsconfig.json")
  = Done (mkExtended ["/ws/libs/a/tsconfig.base.json"] ["@acme/presets"])
  /\ (["@acme/presets"] = []
      \/ exists name, name <> "" /\ ["@acme/presets"] = [name]).
Proof.
  split; [vm_compute; reflexivity |].
  apply (getExtendedConfigFiles_at_most_one_package Workspace.presetHost 5
           "/ws/libs/a/tsconfig.json"
           (readTsConfig Workspace.presetHost "/ws/libs/a/tsconfig.json")
           (mkExtended ["/ws/libs/a/tsconfig.base.json"] ["@acme/presets"])).
  vm_compute; reflexivity.
Defined.

(** ** Outputs *)

Lemma collectOutputs_union (h : Host) (configFilePath : string)
  (tsConfig : ParsedCommandLine) (workspaceRoot projectRoot : string) :
  forall (configs : list ParsedCommandLine) (outputs : list string),
    NoDup outputs ->
    NoDup (fold_left
             (fun outputs' config =>
                Js.setAddAll
                  (configOutputs h configFilePath tsConfig config workspaceRoot
                     projectRoot)
                  outputs')
             configs outputs)
    /\ forall output,
        In output
          (fold_left
             (fun outputs' config =>
                Js.setAddAll
                  (configOutputs h configFilePath tsConfig config workspaceRoot
                     projectRoot)
                  outputs')
             configs outputs)
        <-> In output outputs
            \/ exists config,
                In config configs
                /\ In output (configOutputs h configFilePath tsConfig config
                                workspaceRoot projectRoot).
Proof.
  induction configs as [| config configs IH]; intros outputs Hnodup;
    cbn [fold_left].
  - split; [assumption |]. intros output. split; [auto |].
    intros [H | (config & [] & _)]; assumption.
  - destruct (IH _ (setAddAll_NoDup
                      (configOutputs h configFilePath tsConfig config workspaceRoot
                         projectRoot) outputs Hnodup)) as [Hnodup' Hin].
    split; [assumption |]. intros output. rewrite Hin, setAddAll_In. split.
    + intros [[H | H] | (config' & Hconfig & H)]; [now left | right | right].
      * exists config. split; [now left | assumption].
      * exists config'. split; [now right | assumption].
    + intros [H | (config' & [<- | Hconfig] & H)]; [now left; left | now left; right |].
      right. now exists config'.
Qed.

(** X12.  The outputs of a target are the outputs of the configuration
    file and of each of its internal references, taken together: an entry is
    listed exactly when one of these configurations yields it, and no entry
    is listed twice. *)
Theorem getOutputs_union_without_duplicates :
  forall (h : Host) (configFilePath : string) (tsConfig : ParsedCommandLine)
         (internalProjectReferences : Js.Record_ ParsedCommandLine)
         (workspaceRoot projectRoot : string),
    NoDup (getOutputs h configFilePath tsConfig internalProjectReferences
             workspaceRoot projectRoot)
    /\ forall output,
        In output (getOutputs h configFilePath tsConfig internalProjectReferences
                     workspaceRoot projectRoot)
        <-> exists config,
            In config (tsConfig :: Js.values internalProjectReferences)
            /\ In output (configOutputs h configFilePath tsConfig config
                            workspaceRoot projectRoot).
Proof.
  intros h configFilePath tsConfig internalProjectReferences workspaceRoot projectRoot.
  unfold getOutputs.
  destruct (collectOutputs_union h configFilePath tsConfig workspaceRoot projectRoot
              (tsConfig :: Js.values internalProjectReferences) [] (NoDup_nil _))
    as [Hnodup Hin].
  split; [exact Hnodup |]. intros output. rewrite Hin. split; [| auto].
  intros [[] | H]; exact H.
Qed.

(** ** Inputs *)

Lemma collectConfig_excludes_grow (h : Host) (absoluteProjectRoot : string)
  (all : list (string * ParsedCommandLine)) (excludePath : string) :
  forall (entries : list (string * ParsedCommandLine)) (acc : InputSets),
    In excludePath (excludePaths acc) ->
    In excludePath
      (excludePaths (fold_left (collectConfig h absoluteProjectRoot all) entries acc)).
Proof.
  induction entries as [| entry entries IH]; intros acc Hin; cbn [fold_left];
    [assumption |].
  apply IH. unfold collectConfig. cbn [excludePaths].
  destruct (exclude (raw (snd entry))); [| assumption].
  apply setAddAll_In. now left.
Qed.

Lemma collectConfig_keeps_exclude (h : Host) (absoluteProjectRoot : string)
  (all : list (string * ParsedCommandLine))
  (configPath : string) (config : ParsedCommandLine)
  (patterns : list string) (excludePath : string) :
  exclude (raw config) = Some patterns ->
  In excludePath patterns ->
  (forall otherPath other includePath,
      In (otherPath, other) all -> otherPath <> configPath ->
      In includePath (rawInclude other) ->
      overlaps h includePath excludePath = false) ->
  forall (entries : list (string * ParsedCommandLine)) (acc : InputSets),
    In (configPath, config) entries ->
    In excludePath
      (excludePaths (fold_left (collectConfig h absoluteProjectRoot all) entries acc)).
Proof.
  intros Hexclude Hpattern Hothers.
  induction entries as [| entry entries IH]; intros acc Hin; [destruct Hin |].
  cbn [fold_left]. destruct Hin as [-> | Hin]; [| now apply IH].
  apply collectConfig_excludes_grow.
  unfold collectConfig. cbn [excludePaths fst snd]. rewrite Hexclude.
  apply setAddAll_In. right. apply filter_In. split; [assumption |].
  apply negb_true_iff, Bool.not_true_iff_false. intros Hex.
  apply existsb_exists in Hex as (includePath & Hinclude & Hover).
  unfold otherFilesInclude in Hinclude.
  apply in_flat_map in Hinclude as ([otherPath other] & Hother & Hinclude).
  cbn [fst snd] in Hinclude.
  destruct (String.eqb otherPath configPath) eqn:Hsame; [destruct Hinclude |].
  apply String.eqb_neq in Hsame.
  rewrite (Hothers otherPath other includePath Hother Hsame Hinclude) in Hover.
  discriminate.
Qed.

Lemma collectConfig_no_include (h : Host) (absoluteProjectRoot : string)
  (all : list (string * ParsedCommandLine)) :
  forall (entries : list (string * ParsedCommandLine)) (acc : InputSets),
    (forall entry, In entry entries -> rawInclude (snd entry) = []) ->
    includePaths (fold_left (collectConfig h absoluteProjectRoot all) entries acc)
    = includePaths acc.
Proof.
  induction entries as [| entry entries IH]; intros acc Hnone; cbn [fold_left];
    [reflexivity |].
  rewrite IH by (intros e He; apply Hnone; now right).
  unfold collectConfig. cbn [includePaths].
  now rewrite (Hnone entry (or_introl eq_refl)).
Qed.

(** X13.  An exclude pattern of any configuration file of the project,
    the root one or an internal reference, becomes a negated input whenever
    no include pattern of the configuration files at other paths overlaps it;
    the include patterns of the file that declares the exclude are not
    consulted. *)
Theorem getInputs_keeps_unclaimed_excludes :
  forall (h : Host) (fuel : nat) (names : list string) (configFilePath : string)
         (tsConfig : ParsedCommandLine)
         (internalProjectReferences : Js.Record_ ParsedCommandLine)
         (workspaceRoot projectRoot : string) (inputs : list InputDefinition)
         (configPath : string) (config : ParsedCommandLine)
         (patterns : list string) (excludePath : string),
    getInputs h fuel names configFilePath tsConfig internalProjectReferences
      workspaceRoot projectRoot = Done inputs ->
    In (configPath, config) ((configFilePath, tsConfig) :: internalProjectReferences) ->
    exclude (raw config) = Some patterns ->
    In excludePath patterns ->
    (forall otherPath other includePath,
        In (otherPath, other) ((configFilePath, tsConfig) :: internalProjectReferences) ->
        otherPath <> configPath ->
        In includePath (rawInclude other) ->
        minimatch h (stripDotSlash includePath) (stripDotSlash excludePath) = false
        /\ minimatch h (stripDotSlash excludePath) (stripDotSlash includePath) = false) ->
    In (negatedInput h workspaceRoot projectRoot excludePath) inputs.
Proof.
  intros h fuel names configFilePath tsConfig internalProjectReferences workspaceRoot
    projectRoot inputs configPath config patterns excludePath H Hentry Hexclude
    Hpattern Hothers.
  unfold getInputs in H.
  destruct (getExtendedConfigFiles h fuel configFilePath tsConfig) as [extended | |];
    cbn [bind] in H; try discriminate.
  destruct (hasExternalProjectReferences h fuel configFilePath tsConfig workspaceRoot
              projectRoot []) as [r | |]; cbn [bind] in H; try discriminate.
  injection H as <-.
  apply in_or_app. right. apply in_or_app. left.
  unfold negatedInput.
  apply (in_map (fun p => InputString
                            ("!" ++ pathToInputOrOutput h
                                      (joinPathFragments [projectRoot; p])
                                      workspaceRoot projectRoot))).
  refine (collectConfig_keeps_exclude h _
            ((configFilePath, tsConfig) :: internalProjectReferences)
            configPath config patterns excludePath Hexclude Hpattern _
            ((configFilePath, tsConfig) :: internalProjectReferences) _ Hentry).
  intros otherPath other includePath Hother Hneq Hinclude.
  destruct (Hothers otherPath other includePath Hother Hneq Hinclude) as [H1 H2].
  unfold overlaps. now rewrite H1, H2.
Qed.

Lemma getInputs_keeps_unclaimed_excludes_witness :
  exists inputs,
    Scenario.featureInputs ["src"] = Done inputs
    /\ In (negatedInput Scenario.featureHost "/ws" "libs/a" "src/feature/ignored")
          inputs.
Proof.
  eexists. split; [vm_compute; reflexivity |].
  apply (getInputs_keeps_unclaimed_excludes Scenario.featureHost 1
           ["default"; "production"] Scenario.rootConfig
           (Scenario.includesOnly ["src"])
           [(Scenario.libConfig, Scenario.featureConfig)] "/ws" "libs/a" _
           Scenario.libConfig Scenario.featureConfig ["src/feature/ignored"]
           "src/feature/ignored").
  - vm_compute; reflexivity.
  - right; left; reflexivity.
  - reflexivity.
  - left; reflexivity.
  - intros otherPath other includePath [H | [H | []]] Hneq Hinclude;
      injection H as <- <-; [| now elim Hneq].
    destruct Hinclude as [<- | []]. split; reflexivity.
Defined.

(** X14.  When no configuration file of the project declares [include],
    [getInputs] falls back to the named input set: the list starts with
    [production] (or [default]), and no configuration file, extended file or
    [package.json] is listed; what follows are negated excludes, the upstream
    entry and the external dependencies. *)
Theorem getInputs_falls_back_to_named_inputs :
  forall (h : Host) (fuel : nat) (names : list string) (configFilePath : string)
         (tsConfig : ParsedCommandLine)
         (internalProjectReferences : Js.Record_ ParsedCommandLine)
         (workspaceRoot projectRoot : string) (inputs : list InputDefinition),
    getInputs h fuel names configFilePath tsConfig internalProjectReferences
      workspaceRoot projectRoot = Done inputs ->
    (forall entry,
        In entry ((configFilePath, tsConfig) :: internalProjectReferences) ->
        rawInclude (snd entry) = []) ->
    exists rest,
      inputs = namedInput names "" :: rest
      /\ forall s, In (InputString s) rest ->
                   Js.startsWith s "!" = true \/ InputString s = namedInput names "^".
Proof.
  intros h fuel names configFilePath tsConfig internalProjectReferences workspaceRoot
    projectRoot inputs H Hnone.
  unfold getInputs in H.
  destruct (getExtendedConfigFiles h fuel configFilePath tsConfig) as [extended | |];
    cbn [bind] in H; try discriminate.
  destruct (hasExternalProjectReferences h fuel configFilePath tsConfig workspaceRoot
              projectRoot []) as [r | |]; cbn [bind] in H; try discriminate.
  injection H as <-.
  pose proof (collectConfig_no_include h (Path.join [workspaceRoot; projectRoot])
                ((configFilePath, tsConfig) :: internalProjectReferences)
                ((configFilePath, tsConfig) :: internalProjectReferences)
                (mkInputSets (Js.setAddAll (files extended) []) [] []) Hnone)
    as Hfallback.
  cbn [fold_left] in Hfallback. rewrite Hfallback. cbn [includePaths app].
  eexists. split; [reflexivity |].
  intros s Hs. apply in_app_or in Hs as [Hs | Hs].
  - left. apply in_map_iff in Hs as (p & Heq & _). injection Heq as <-.
    unfold Js.startsWith. cbn [append prefix].
    destruct (ascii_dec "!" "!"); [| congruence].
    now destruct (pathToInputOrOutput h (joinPathFragments [projectRoot; p])
                    workspaceRoot projectRoot).
  - right. destruct Hs as [Hs | [Hs | []]]; [| discriminate].
    destruct (fst r); [discriminate | exact (eq_sym Hs)].
Qed.

Lemma getInputs_falls_back_to_named_inputs_witness :
  exists rest,
    getInputs Scenario.featureHost 1 ["default"; "production"] Scenario.rootConfig
      (withExclude Fixture.emptyParsed (Some ["tmp"])) [] "/ws" "libs/a"
    = Done (namedInput ["default"; "production"] "" :: rest)
    /\ forall s, In (InputString s) rest ->
                 Js.startsWith s "!" = true
                 \/ InputString s = namedInput ["default"; "production"] "^".
Proof.
  destruct (getInputs_falls_back_to_named_inputs Scenario.featureHost 1
              ["default"; "production"] Scenario.rootConfig
              (withExclude Fixture.emptyParsed (Some ["tmp"])) [] "/ws" "libs/a"
              _ eq_refl) as (rest & Hshape & Hrest).
  - intros entry [<- | []]. reflexivity.
  - exists rest. split; [| exact Hrest].
    rewrite <- Hshape. vm_compute; reflexivity.
Defined.

(** ** Validation of [package.json] *)

Lemma containsInvalidPath_offers (isSource : string -> bool) (value : JSON) :
  containsInvalidPath isSource value = Done true ->
  exists path, offers value path /\ isSource path = true.
Proof.
  unfold containsInvalidPath, offers. intros H.
  destruct value as [| b | n | s | items | fields]; try discriminate.
  - injection H as H. exists s. auto.
  - cbn [JsonOps.entries] in *. injection H as H.
    apply existsb_exists in H as ([key value] & Hin & Hbad). cbn [fst snd] in Hbad.
    destruct (String.eqb key "types") eqn:Hkey; [discriminate |].
    destruct value as [| | | s | |]; try discriminate.
    exists s. split; [| assumption]. right. exists (JsonOps.indexed 0 items), key.
    repeat split; try assumption. now apply String.eqb_neq.
  - cbn [JsonOps.entries] in *. injection H as H.
    apply existsb_exists in H as ([key value] & Hin & Hbad). cbn [fst snd] in Hbad.
    destruct (String.eqb key "types") eqn:Hkey; [discriminate |].
    destruct value as [| | | s | |]; try discriminate.
    exists s. split; [| assumption]. right. exists fields, key.
    repeat split; try assumption. now apply String.eqb_neq.
Qed.

Lemma otherExportsValid_offers (isSource : string -> bool) :
  forall subpaths : list (string * JSON),
    otherExportsValid isSource subpaths = Done false ->
    exists key value path,
      In (key, value) subpaths /\ offers value path /\ isSource path = true.
Proof.
  induction subpaths as [| [key value] subpaths IH]; intros H;
    cbn [otherExportsValid] in H; [discriminate |].
  destruct (String.eqb key ".").
  - destruct (IH H) as (k & v & p & Hin & Hrest). exists k, v, p.
    split; [now right | exact Hrest].
  - destruct (containsInvalidPath isSource value) as [[|] | |] eqn:Hbad;
      cbn [bind] in H; try discriminate.
    + destruct (containsInvalidPath_offers isSource value Hbad) as (p & Hoffers & Hp).
      exists key, value, p. split; [now left | auto].
    + destruct (IH H) as (k & v & p & Hin & Hrest). exists k, v, p.
      split; [now right | exact Hrest].
Qed.

Lemma buildPathsValid_offers (isSource : string -> bool) (packageJson : JSON) :
  forall fields : list string,
    buildPathsValid isSource packageJson fields = Done false ->
    exists field path,
      In field fields
      /\ JsonOps.getOpt packageJson field = Some (JString path)
      /\ isSource path = true.
Proof.
  induction fields as [| field fields IH]; intros H; cbn [buildPathsValid] in H;
    [discriminate |].
  assert (Hrest : buildPathsValid isSource packageJson fields = Done false ->
                  exists field' path,
                    In field' (field :: fields)
                    /\ JsonOps.getOpt packageJson field' = Some (JString path)
                    /\ isSource path = true).
  { intros H'. destruct (IH H') as (f & p & Hin & Hp). exists f, p.
    split; [now right | exact Hp]. }
  destruct packageJson as [| b | n | s | items | members]; try discriminate;
    cbn [JsonOps.getOpt JsonOps.truthy] in H; try (now apply Hrest).
  cbn [JsonOps.getOpt].
  destruct (JsonOps.truthy (JsonOps.lookup field members)); [| now apply Hrest].
  destruct (JsonOps.lookup field members) as [[| | | s | |] |] eqn:Hfield;
    try discriminate.
  destruct (isSource s) eqn:Hs; [| now apply Hrest].
  exists field, s. split; [now left | auto].
Qed.

Lemma lookup_In (key : string) (fields : list (string * JSON)) (value : JSON) :
  JsonOps.lookup key fields = Some value -> In (key, value) fields.
Proof.
  induction fields as [| [k v] fields IH]; cbn [JsonOps.lookup]; [discriminate |].
  destruct (String.eqb k key) eqn:Hk.
  - apply String.eqb_eq in Hk. subst k. intros H. injection H as ->. now left.
  - intros H. right. now apply IH.
Qed.

(** X15.  [isValidPackageJsonBuildConfig] answers [false] only on
    account of a path: the project's [package.json] then has an entry point
    (the [exports] string, a path offered by an export under a condition
    other than [types], or with no [exports] the [main] or [module] string)
    that the source-file test rejects. *)
Theorem isValidPackageJsonBuildConfig_refuses_for_a_path :
  forall (h : Host) (tsConfig : ParsedCommandLine) (workspaceRoot projectRoot : string),
    isValidPackageJsonBuildConfig h tsConfig workspaceRoot projectRoot = Done false ->
    exists packageJson path,
      readJsonFile h (Path.join [workspaceRoot; projectRoot; "package.json"])
      = Some packageJson
      /\ entryPoint packageJson path
      /\ isPathSourceFile h (resolvedOutDirOf h tsConfig workspaceRoot projectRoot)
           workspaceRoot projectRoot path = true.
Proof.
  intros h tsConfig workspaceRoot projectRoot H.
  unfold isValidPackageJsonBuildConfig in H.
  destruct (existsSync h (Path.join [workspaceRoot; projectRoot; "package.json"]));
    cbn [negb] in H; [| discriminate].
  destruct (readJsonFile h (Path.join [workspaceRoot; projectRoot; "package.json"]))
    as [packageJson |]; [| discriminate].
  exists packageJson. unfold entryPoint.
  set (isSource := isPathSourceFile h
                     (resolvedOutDirOf h tsConfig workspaceRoot projectRoot)
                     workspaceRoot projectRoot) in *.
  destruct (JsonOps.truthy (JsonOps.getOpt packageJson "exports")) eqn:Htruthy.
  - destruct (JsonOps.getOpt packageJson "exports")
      as [[| b | n | s | items | fields] |] eqn:Hexports; try discriminate.
    + injection H as H. apply negb_false_iff in H.
      exists s. split; [reflexivity |]. split; [| exact H]. left. auto.
    + destruct (otherExportsValid_offers isSource _ H)
        as (key & value & path & Hin & Hoffers & Hpath).
      exists path. split; [reflexivity |]. split; [| exact Hpath]. left.
      split; [reflexivity |]. right.
      exists (JArray items), (JsonOps.indexed 0 items), key, value. auto.
    + destruct (JsonOps.lookup "." fields) as [dotExport |] eqn:Hdot.
      * destruct (containsInvalidPath isSource dotExport) as [[|] | |] eqn:Hbad;
          cbn [bind] in H; try discriminate.
        destruct (containsInvalidPath_offers isSource dotExport Hbad)
          as (path & Hoffers & Hpath).
        exists path. split; [reflexivity |]. split; [| exact Hpath]. left.
        split; [reflexivity |]. right.
        exists (JObject fields), fields, ".", dotExport.
        repeat split; try assumption. now apply lookup_In.
      * destruct (otherExportsValid_offers isSource _ H)
          as (key & value & path & Hin & Hoffers & Hpath).
        exists path. split; [reflexivity |]. split; [| exact Hpath]. left.
        split; [reflexivity |]. right.
        exists (JObject fields), fields, key, value. auto.
  - destruct (buildPathsValid_offers isSource packageJson _ H)
      as (field & path & Hin & Hfield & Hpath).
    exists path. split; [reflexivity |]. split; [| exact Hpath]. right.
    split; [reflexivity |]. now exists field.
Qed.

Lemma isValidPackageJsonBuildConfig_refuses_witness :
  exists packageJson path,
    readJsonFile
      (Fixture.host (Fixture.libraryTree Fixture.outDirDist Fixture.mainInSource))
      (Path.join ["/ws"; "libs/mylib"; "package.json"])
    = Some packageJson
    /\ entryPoint packageJson path
    /\ isPathSourceFile
         (Fixture.host (Fixture.libraryTree Fixture.outDirDist Fixture.mainInSource))
         (resolvedOutDirOf
            (Fixture.host (Fixture.libraryTree Fixture.outDirDist Fixture.mainInSource))
            (readTsConfig
               (Fixture.host
                  (Fixture.libraryTree Fixture.outDirDist Fixture.mainInSource))
               "/ws/libs/mylib/tsconfig.lib.json")
            "/ws" "libs/mylib")
         "/ws" "libs/mylib" path = true.
Proof.
  apply (isValidPackageJsonBuildConfig_refuses_for_a_path
           (Fixture.host (Fixture.libraryTree Fixture.outDirDist Fixture.mainInSource))
           (readTsConfig
              (Fixture.host
                 (Fixture.libraryTree Fixture.outDirDist Fixture.mainInSource))
              "/ws/libs/mylib/tsconfig.lib.json")
           "/ws" "libs/mylib").
  vm_compute; reflexivity.
Defined.

(** ** Configuration files that yield no build target *)

Lemma normalizePluginOptions_build_off (given : option TscPluginOptions) :
  given = None
  \/ (exists o, given = Some o /\ (buildInput o = Unset \/ buildInput o = Flag false)) ->
  build (normalizePluginOptions given) = None.
Proof.
  intros [-> | (o & -> & [Hoff | Hoff])]; [reflexivity | |];
    unfold normalizePluginOptions; cbn [build]; now rewrite Hoff.
Qed.

(** X16.  The deprecated [createNodes] with the plugin options left out,
    or with [build] left out or set to [false], never yields a build target:
    a run that returns gives no project, or the one project of the
    configuration file's directory whose targets are all typecheck targets. *)
Theorem createNodes_without_build_option :
  forall (h : Host) (fuel : nat) (configFilePath : string)
         (given : option TscPluginOptions) (workspaceRoot lockFileName : string)
         (result : CreateNodesResult),
    given = None
    \/ (exists o, given = Some o /\ (buildInput o = Unset \/ buildInput o = Flag false)) ->
    createNodes h fuel configFilePath given workspaceRoot lockFileName = Done result ->
    result = emptyResult
    \/ exists found,
        result = projectResult (Path.dirname configFilePath) found
        /\ onlyTypecheckTargets found.
Proof.
  intros h fuel configFilePath given workspaceRoot lockFileName result Hgiven H.
  apply normalizePluginOptions_build_off in Hgiven.
  unfold createNodes in H.
  destruct (createNodesInternal h fuel configFilePath (normalizePluginOptions given)
              workspaceRoot lockFileName []) as [[result' targetsCache'] | |] eqn:Hrun;
    cbn [bind fst] in H; try discriminate.
  injection H as <-.
  apply createNodesInternal_cases in Hrun
    as [[-> _] | (key & found & _ & -> & [[Hhit _] | (_ & Hbuilt & _)])];
    [now left | discriminate Hhit |].
  right. exists found. split; [reflexivity |].
  apply buildTscTargets_gate in Hbuilt as [(b & Hb & _) | [_ Honly]];
    [congruence | exact Honly].
Qed.

(** [createNodes] on the [tsconfig.json] of [libs/mylib], in a workspace
    that holds the lock file. *)
Lemma createNodes_without_build_option_witness :
  hashFile Scenario.libraryHost "/ws/package-lock.json" <> None
  /\ exists result,
    createNodes Scenario.libraryHost 2 "libs/mylib/tsconfig.json" None "/ws"
      "package-lock.json" = Done result
    /\ (result = emptyResult
        \/ exists found,
            result = projectResult (Path.dirname "libs/mylib/tsconfig.json") found
            /\ onlyTypecheckTargets found).
Proof.
  split; [vm_compute; discriminate |].
  eexists. split; [vm_compute; reflexivity |].
  apply (createNodes_without_build_option Scenario.libraryHost 2
           "libs/mylib/tsconfig.json" None "/ws" "package-lock.json");
    [now left | vm_compute; reflexivity].
Defined.

Lemma cacheKeyOf_loads (h : Host) (fuel : nat) (configFilePath : string)
  (opts : NormalizedPluginOptions) (workspaceRoot lockFileName key : string) :
  cacheKeyOf h fuel configFilePath opts workspaceRoot lockFileName = Done key ->
  loadTsConfig h (joinPathFragments [workspaceRoot; configFilePath])
  = Done (readTsConfig h (joinPathFragments [workspaceRoot; configFilePath])).
Proof.
  unfold cacheKeyOf, hashedFiles. intros H.
  destruct (loadTsConfig_cases h (joinPathFragments [workspaceRoot; configFilePath]))
    as [Hload | Hload]; [exact Hload |].
  rewrite Hload in H. discriminate.
Qed.

(** X17.  A configuration file that is neither [tsconfig.json] nor the
    build configuration still gives its directory a project, with no targets:
    when [createNodesInternal] does not decline it and the cache has no entry
    for it, the result is the project with an empty target map, and that
    empty result is what the cache gets, for every amount of fuel the key
    could be computed with. *)
Theorem createNodesInternal_other_configuration_file :
  forall (h : Host) (fuel : nat) (configFilePath : string)
         (opts : NormalizedPluginOptions) (workspaceRoot lockFileName : string)
         (targetsCache : Js.Record_ TscProjectResult) (key : string),
    proceeds h configFilePath workspaceRoot ->
    cacheKeyOf h fuel configFilePath opts workspaceRoot lockFileName = Done key ->
    Js.recordGet key targetsCache = None ->
    Path.basename (joinPathFragments [workspaceRoot; configFilePath])
    <> "tsconfig.json" ->
    (forall b, build opts = Some b ->
               Path.basename (joinPathFragments [workspaceRoot; configFilePath])
               <> configName b) ->
    createNodesInternal h fuel configFilePath opts workspaceRoot lockFileName
      targetsCache
    = Done (projectResult (Path.dirname configFilePath) (mkResult []),
            Js.recordSet key (mkResult []) targetsCache).
Proof.
  intros h fuel configFilePath opts workspaceRoot lockFileName targetsCache key
    Hproceeds Hkey Hmiss Hroot Hbuild.
  apply proceeds_conditions in Hproceeds
    as (Hdir & siblingFiles & Hread & Hdescr & Hts & Hnext).
  unfold createNodesInternal.
  rewrite Hdir, Hread, Hdescr, Hts, Hnext, Hkey. cbn [bind]. rewrite Hmiss.
  unfold buildTscTargets. rewrite (cacheKeyOf_loads _ _ _ _ _ _ _ Hkey). cbn [bind].
  unfold typecheckBlock, buildGate.
  apply String.eqb_neq in Hroot. rewrite Hroot.
  assert (Hgate : match build opts with
                  | Some b =>
                      if String.eqb
                           (Path.basename
                              (joinPathFragments [workspaceRoot; configFilePath]))
                           (configName b)
                      then
                        valid <- isValidPackageJsonBuildConfig h
                                   (readTsConfig h
                                      (joinPathFragments [workspaceRoot; configFilePath]))
                                   workspaceRoot (Path.dirname configFilePath) ;;
                        Done (if valid then Some b else None)
                      else Done None
                  | None => Done None
                  end = Done None).
  { destruct (build opts) as [b |] eqn:Hb; [| reflexivity].
    specialize (Hbuild b eq_refl). apply String.eqb_neq in Hbuild.
    now rewrite Hbuild. }
  rewrite Hgate. now destruct (typecheck opts).
Qed.

(** [tsconfig.spec.json] of [libs/a], in a workspace that holds the lock
    file. *)
Lemma createNodesInternal_other_configuration_file_witness :
  hashFile Scenario.featureHost "/ws/package-lock.json" <> None
  /\ exists key,
    cacheKeyOf Scenario.featureHost 1 "libs/a/tsconfig.spec.json"
      (normalizePluginOptions (Some (mkPluginOptions Unset (Flag true) None)))
      "/ws" "package-lock.json" = Done key
    /\ createNodesInternal Scenario.featureHost 1 "libs/a/tsconfig.spec.json"
         (normalizePluginOptions (Some (mkPluginOptions Unset (Flag true) None)))
         "/ws" "package-lock.json" []
       = Done (projectResult "libs/a" (mkResult []), [(key, mkResult [])]).
Proof.
  split; [vm_compute; discriminate |].
  eexists. split; [vm_compute; reflexivity |].
  eapply (createNodesInternal_other_configuration_file Scenario.featureHost 1
            "libs/a/tsconfig.spec.json"
            (normalizePluginOptions (Some (mkPluginOptions Unset (Flag true) None)))
            "/ws" "package-lock.json" []).
  - split; [discriminate |].
    exists ["package.json"; "tsconfig.base.json"; "tsconfig.json"; "tsconfig.lib.json";
            "tsconfig.spec.json"].
    split; [reflexivity |]. split; [left; now left |].
    split; [right; right; right; now left |].
    intros next Hnext Hin. cbn in Hnext, Hin.
    repeat (destruct Hnext as [<- | Hnext];
            [repeat (destruct Hin as [Hin | Hin]; [discriminate Hin |]); exact Hin |]).
    exact Hnext.
  - vm_compute; reflexivity.
  - reflexivity.
  - discriminate.
  - intros b Hb. injection Hb as <-. discriminate.
Defined.

(** ** The table of parsed configuration files *)

(** X18.  [readCachedTsConfig] finds a configuration by path and
    modification time only.  After a read of [path], a later read returns the
    configuration of the first one and leaves the table alone, in any state
    of the file system in which [path] still exists with the same
    modification time, whatever the parser would return for it then; and a
    read never drops or changes an entry the table held. *)
Theorem readCachedTsConfig_serves_by_path_and_time :
  forall (before after : Host) (tsConfigCache tsConfigCache' : TsConfigCache)
         (tsConfigPath : string) (tsConfig : ParsedCommandLine),
    readCachedTsConfig before tsConfigCache tsConfigPath
    = Done (tsConfig, tsConfigCache') ->
    (statIsFile after tsConfigPath <> None ->
     mtimeMs after tsConfigPath = mtimeMs before tsConfigPath ->
     readCachedTsConfig after tsConfigCache' tsConfigPath
     = Done (tsConfig, tsConfigCache'))
    /\ (forall key held,
           Js.recordGet key tsConfigCache = Some held ->
           Js.recordGet key tsConfigCache' = Some held).
Proof.
  intros before after tsConfigCache tsConfigCache' tsConfigPath tsConfig H.
  unfold readCachedTsConfig, getTsConfigCacheKey in *.
  destruct (statIsFile before tsConfigPath); cbn [bind] in H; [| discriminate].
  destruct (Js.recordGet (tsConfigPath ++ "-" ++ mtimeMs before tsConfigPath)
              tsConfigCache) as [hit |] eqn:Hget.
  - injection H as <- <-. split; [| auto].
    intros Hexists Htime.
    destruct (statIsFile after tsConfigPath); [| now elim Hexists].
    cbn [bind]. now rewrite Htime, Hget.
  - injection H as <- <-. split.
    + intros Hexists Htime.
      destruct (statIsFile after tsConfigPath); [| now elim Hexists].
      cbn [bind]. now rewrite Htime, recordGet_recordSet, String.eqb_refl.
    + intros key held Hheld. rewrite recordGet_recordSet.
      destruct (String.eqb (tsConfigPath ++ "-" ++ mtimeMs before tsConfigPath) key)
        eqn:Hkey; cbn [append] in Hkey; rewrite Hkey; [| exact Hheld].
      apply String.eqb_eq in Hkey. subst key. cbn [append] in Hget. congruence.
Qed.

(** [tsconfig.json] is read, then rewritten to reference [tsconfig.lib.json]
    within the same millisecond: the second read returns the first parse. *)
Lemma readCachedTsConfig_serves_by_path_and_time_witness :
  exists tsConfig tsConfigCache',
    readCachedTsConfig (Fixture.host (Scenario.projectTree [] [] [] [])) []
      Scenario.rootConfig = Done (tsConfig, tsConfigCache')
    /\ readTsConfig (Fixture.host (Scenario.projectTree [Scenario.libConfig] [] [] []))
         Scenario.rootConfig <> tsConfig
    /\ readCachedTsConfig
         (Fixture.host (Scenario.projectTree [Scenario.libConfig] [] [] []))
         tsConfigCache' Scenario.rootConfig = Done (tsConfig, tsConfigCache').
Proof.
  eexists. eexists. split; [vm_compute; reflexivity |]. split; [discriminate |].
  apply (proj1 (readCachedTsConfig_serves_by_path_and_time
                  (Fixture.host (Scenario.projectTree [] [] [] []))
                  (Fixture.host (Scenario.projectTree [Scenario.libConfig] [] [] []))
                  [] _ Scenario.rootConfig _ eq_refl));
    [discriminate | reflexivity].
Defined.

(** ** Upstream declaration files *)

Lemma hasExternalReferencesLoop_finds (h : Host) (workspaceRoot projectRoot : string)
  (recurse : string -> ParsedCommandLine -> list string -> Outcome (bool * list string))
  (fuel : nat) (config : ParsedCommandLine) :
  (forall via seen seen',
      In via (projectReferences config) -> existsSync h via = true ->
      recurse (refConfigPathOf via) (readTsConfig h (refConfigPathOf via)) seen
      = Done (true, seen') ->
      exists ref fuel',
        Reaches h (readTsConfig h (refConfigPathOf via)) ref
        /\ existsSync h ref = true
        /\ isExternalProjectReference h fuel' ref workspaceRoot projectRoot
           = Done true) ->
  forall (refs : list string) (seen seen' : list string),
    incl refs (projectReferences config) ->
    hasExternalReferencesLoop h recurse fuel workspaceRoot projectRoot refs seen
    = Done (true, seen') ->
    exists ref fuel',
      Reaches h config ref
      /\ existsSync h ref = true
      /\ isExternalProjectReference h fuel' ref workspaceRoot projectRoot = Done true.
Proof.
  intros Hdeeper.
  induction refs as [| via refs IH]; intros seen seen' Hincl H;
    cbn [hasExternalReferencesLoop] in H; [discriminate |].
  assert (Hin : In via (projectReferences config)) by (apply Hincl; now left).
  assert (Hrest : incl refs (projectReferences config))
    by (intros x Hx; apply Hincl; now right).
  destruct (Js.includes seen via); [now apply (IH seen seen') |].
  destruct (existsSync h via) eqn:Hexists; cbn [negb] in H;
    [| now apply (IH seen seen')].
  destruct (isExternalProjectReference h fuel via workspaceRoot projectRoot)
    as [[|] | |] eqn:Hext; cbn [bind] in H; try discriminate.
  - exists via, fuel. split; [now apply reaches_directly | auto].
  - destruct (loadTsConfig_cases h (refConfigPathOf via)) as [Hload | Hload];
      rewrite Hload in H; cbn [bind] in H; [| discriminate].
    destruct (recurse (refConfigPathOf via) (readTsConfig h (refConfigPathOf via)) seen)
      as [[[|] seen1] | |] eqn:Hrec; cbn [bind fst snd] in H; try discriminate.
    + destruct (Hdeeper via seen seen1 Hin Hexists Hrec)
        as (ref & fuel' & Hreach & Href). exists ref, fuel'.
      split; [| exact Href]. eapply reaches_through; eassumption.
    + now apply (IH seen1 seen').
Qed.

Lemma hasExternalProjectReferences_finds (h : Host)
  (workspaceRoot projectRoot : string) :
  forall (fuel : nat) (path : string) (config : ParsedCommandLine)
         (seen seen' : list string),
    hasExternalProjectReferences h fuel path config workspaceRoot projectRoot seen
    = Done (true, seen') ->
    exists ref fuel',
      Reaches h config ref
      /\ existsSync h ref = true
      /\ isExternalProjectReference h fuel' ref workspaceRoot projectRoot = Done true.
Proof.
  induction fuel as [| fuel IH]; intros path config seen seen' H; [discriminate |].
  cbn [hasExternalProjectReferences] in H.
  destruct (projectReferences config) as [| ref refs] eqn:Hrefs; [discriminate |].
  rewrite <- Hrefs in H.
  eapply (hasExternalReferencesLoop_finds h workspaceRoot projectRoot _ (S fuel) config);
    [| apply incl_refl | exact H].
  intros via s s' _ _ Hrec. eapply IH; exact Hrec.
Qed.

(** X19.  [getInputs] lists the declaration files of upstream tasks
    only when there is an external reference to depend on: the entry
    [dependentTasksOutputFiles] appears with the glob [**/*.d.ts], and its
    presence means that a reference reachable from the configuration file
    exists and is classified as external. *)
Theorem getInputs_upstream_declarations_need_external_reference :
  forall (h : Host) (fuel : nat) (names : list string) (configFilePath : string)
         (tsConfig : ParsedCommandLine)
         (internalProjectReferences : Js.Record_ ParsedCommandLine)
         (workspaceRoot projectRoot : string) (inputs : list InputDefinition)
         (glob : string),
    getInputs h fuel names configFilePath tsConfig internalProjectReferences
      workspaceRoot projectRoot = Done inputs ->
    In (InputDependentTasksOutputFiles glob) inputs ->
    glob = "**/*.d.ts"
    /\ exists ref fuel',
        Reaches h tsConfig ref
        /\ existsSync h ref = true
        /\ isExternalProjectReference h fuel' ref workspaceRoot projectRoot = Done true.
Proof.
  intros h fuel names configFilePath tsConfig internalProjectReferences workspaceRoot
    projectRoot inputs glob H Hin.
  unfold getInputs in H.
  destruct (getExtendedConfigFiles h fuel configFilePath tsConfig) as [extended | |];
    cbn [bind] in H; try discriminate.
  destruct (hasExternalProjectReferences h fuel configFilePath tsConfig workspaceRoot
              projectRoot []) as [[found seen'] | |] eqn:Hsearch;
    cbn [bind] in H; try discriminate.
  injection H as <-.
  apply in_app_or in Hin as [Hin | Hin].
  - exfalso.
    destruct (includePaths _) in Hin.
    + destruct Hin as [Hin | []]. discriminate Hin.
    + apply in_app_or in Hin as [Hin | Hin].
      * destruct (existsSync h _) in Hin; [destruct Hin as [Hin | []] | destruct Hin].
        discriminate Hin.
      * apply in_app_or in Hin as [Hin | Hin];
          apply in_map_iff in Hin as (p & Heq & _); discriminate Heq.
  - apply in_app_or in Hin as [Hin | Hin].
    + exfalso. apply in_map_iff in Hin as (p & Heq & _). discriminate Heq.
    + cbn [fst] in Hin. destruct Hin as [Hin | [Hin | []]]; [| discriminate Hin].
      destruct found; [| discriminate Hin].
      assert (Hglob : glob = "**/*.d.ts") by congruence. subst glob.
      split; [reflexivity |].
      eapply hasExternalProjectReferences_finds; exact Hsearch.
Qed.

Lemma getInputs_upstream_declarations_witness :
  exists inputs,
    getInputs Workspace.host 4 ["default"; "production"] Workspace.aConfig
      (readTsConfig Workspace.host Workspace.aConfig) [] "/ws" "libs/a" = Done inputs
    /\ In (InputDependentTasksOutputFiles "**/*.d.ts") inputs
    /\ exists ref fuel',
        Reaches Workspace.host (readTsConfig Workspace.host Workspace.aConfig) ref
        /\ existsSync Workspace.host ref = true
        /\ isExternalProjectReference Workspace.host fuel' ref "/ws" "libs/a"
           = Done true.
Proof.
  eexists. split; [vm_compute; reflexivity |].
  assert (Hlisted : forall A (x : A) l,
             (exists before after, l = (before ++ x :: after)%list) -> In x l)
    by (intros A x l (before & after & ->); apply in_elt).
  split.
  - apply Hlisted. exists [InputString "production"], [InputExternalDependencies ["typescript"]].
    reflexivity.
  - refine (proj2 (getInputs_upstream_declarations_need_external_reference
                     Workspace.host 4 ["default"; "production"] Workspace.aConfig
                     (readTsConfig Workspace.host Workspace.aConfig) [] "/ws" "libs/a"
                     _ "**/*.d.ts" _ _)).
    + vm_compute; reflexivity.
    + apply Hlisted.
      exists [InputString "production"], [InputExternalDependencies ["typescript"]].
      reflexivity.
Defined.

(** ** The source-file test *)

Lemma startsWith_append (s p : string) :
  Js.startsWith s p = true <-> exists suffix, s = p ++ suffix.
Proof.
  unfold Js.startsWith. revert s.
  induction p as [| c p IH]; intros s.
  - split; [intros _; now exists s | now destruct s].
  - destruct s as [| c' s]; cbn [prefix].
    + split; [discriminate | intros (suffix & H); discriminate H].
    + destruct (ascii_dec c c') as [<- | Hc].
      * rewrite IH. split; intros (suffix & H); exists suffix.
        -- now rewrite H.
        -- cbn [append] in H. now injection H.
      * split; [discriminate |]. intros (suffix & H). cbn [append] in H.
        injection H as H _. congruence.
Qed.

(** X20.  With an output directory, the source-file test of
    [isValidPackageJsonBuildConfig] compares strings, not directories: a path
    passes as build output exactly when its resolved form is the resolved
    output directory followed by any characters, so also a file in a sibling
    directory whose name starts with the name of the output directory. *)
Theorem isPathSourceFile_compares_prefixes :
  forall (h : Host) (resolvedOutDir workspaceRoot projectRoot path : string),
    resolvedOutDir <> "" ->
    (isPathSourceFile h (Some resolvedOutDir) workspaceRoot projectRoot path = false
     <-> exists rest,
         Path.resolve (cwd h) [workspaceRoot; projectRoot; path]
         = resolvedOutDir ++ rest).
Proof.
  intros h resolvedOutDir workspaceRoot projectRoot path Hout.
  unfold isPathSourceFile. cbn [Js.truthy valueOf].
  apply String.eqb_neq in Hout. rewrite Hout. cbn [negb].
  rewrite negb_false_iff. apply startsWith_append.
Qed.

(** [libs/mylib] compiles into [dist]; [./dist-old/index.js] is taken for
    build output. *)
Lemma isPathSourceFile_compares_prefixes_witness :
  isPathSourceFile Scenario.libraryHost (Some "/ws/libs/mylib/dist") "/ws" "libs/mylib"
    "./dist-old/index.js" = false.
Proof.
  apply (isPathSourceFile_compares_prefixes Scenario.libraryHost "/ws/libs/mylib/dist"
           "/ws" "libs/mylib" "./dist-old/index.js");
    [discriminate | now exists "-old/index.js"].
Defined.

(** ** The two blocks of [buildTscTargets] *)

(** What the typecheck block has done when it returns: nothing, or resolved
    the references and assigned the typecheck target. *)
Lemma typecheckBlock_cases (h : Host) (fuel : nat) (configFilePath projectRoot : string)
  (opts : NormalizedPluginOptions) (workspaceRoot : string)
  (tsConfig : ParsedCommandLine)
  (r : Targets * option (Js.Record_ ParsedCommandLine)) :
  typecheckBlock h fuel configFilePath projectRoot opts workspaceRoot tsConfig []
  = Done r ->
  (r = ([], None)
   /\ (typecheck opts = None \/ Path.basename configFilePath <> "tsconfig.json"))
  \/ exists tc internal external ins,
      typecheck opts = Some tc
      /\ Path.basename configFilePath = "tsconfig.json"
      /\ resolveInternalProjectReferences h fuel tsConfig workspaceRoot projectRoot []
         = Done internal
      /\ resolveShallowExternalProjectReferences h fuel tsConfig workspaceRoot
           projectRoot [] = Done external
      /\ getInputs h fuel (namedInputs h projectRoot) configFilePath tsConfig internal
           workspaceRoot projectRoot = Done ins
      /\ r = ([(typecheckTargetName tc,
                typecheckTarget h opts tc projectRoot
                  (noEmit (options tsConfig) || anyNoEmit internal || anyNoEmit external)
                  ins
                  (getOutputs h configFilePath tsConfig internal workspaceRoot
                     projectRoot))],
              Some internal).
Proof.
  unfold typecheckBlock. intros H.
  destruct (typecheck opts) as [tc |]; [| injection H as <-; left; auto].
  destruct (String.eqb (Path.basename configFilePath) "tsconfig.json") eqn:Hname.
  - apply String.eqb_eq in Hname. right.
    destruct (resolveInternalProjectReferences h fuel tsConfig workspaceRoot
                projectRoot []) as [internal | |] eqn:Hinternal;
      cbn [bind] in H; try discriminate.
    destruct (resolveShallowExternalProjectReferences h fuel tsConfig workspaceRoot
                projectRoot []) as [external | |] eqn:Hexternal;
      cbn [bind] in H; try discriminate.
    cbn [Js.recordGet] in H.
    destruct (getInputs h fuel (namedInputs h projectRoot) configFilePath tsConfig
                internal workspaceRoot projectRoot) as [ins | |] eqn:Hins;
      cbn [bind] in H; try discriminate.
    injection H as <-. exists tc, internal, external, ins.
    repeat split; try assumption; reflexivity.
  - apply String.eqb_neq in Hname. injection H as <-. left. auto.
Qed.

(** X21.  The build target does not depend on the typecheck block: when
    the build block runs, its target is made from the internal references
    resolved from an empty map, the inputs [getInputs] gives for them and
    the outputs [getOutputs] gives for them, whether the typecheck block ran
    before it and resolved them or not; the targets it is added to are none,
    or the one typecheck target. *)
Theorem buildTscTargets_build_target_contents :
  forall (h : Host) (fuel : nat) (configFilePath projectRoot : string)
         (opts : NormalizedPluginOptions) (workspaceRoot : string)
         (res : TscProjectResult) (b : BuildOptions),
    buildTscTargets h fuel configFilePath projectRoot opts workspaceRoot = Done res ->
    build opts = Some b ->
    Path.basename configFilePath = configName b ->
    isValidPackageJsonBuildConfig h (readTsConfig h configFilePath) workspaceRoot
      projectRoot = Done true ->
    exists internal ins before,
      resolveInternalProjectReferences h fuel (readTsConfig h configFilePath)
        workspaceRoot projectRoot [] = Done internal
      /\ getInputs h fuel (namedInputs h projectRoot) configFilePath
           (readTsConfig h configFilePath) internal workspaceRoot projectRoot
         = Done ins
      /\ targets res
         = addBuildAndWatchDepsTargets h workspaceRoot projectRoot
             (Js.recordSet (buildTargetName b)
                (buildTarget h b opts projectRoot ins
                   (getOutputs h configFilePath (readTsConfig h configFilePath)
                      internal workspaceRoot projectRoot))
                before)
             (buildDepsName b) (watchDepsName b)
      /\ (before = []
          \/ exists tc t, typecheck opts = Some tc
                          /\ before = [(typecheckTargetName tc, t)]).
Proof.
  intros h fuel configFilePath projectRoot opts workspaceRoot res b H Hb Hname Hvalid.
  unfold buildTscTargets in H.
  destruct (loadTsConfig_cases h configFilePath) as [Hload | Hload];
    rewrite Hload in H; cbn [bind] in H; [| discriminate].
  destruct (typecheckBlock h fuel configFilePath projectRoot opts workspaceRoot
              (readTsConfig h configFilePath) []) as [r | |] eqn:Hblock;
    cbn [bind] in H; try discriminate.
  assert (Hgate : buildGate h configFilePath projectRoot opts workspaceRoot
                    (readTsConfig h configFilePath) = Done (Some b))
    by (apply buildGate_open; auto).
  rewrite Hgate in H. cbn [bind] in H.
  apply typecheckBlock_cases in Hblock
    as [[-> _] | (tc & internal & external & ins0 & Htc & _ & Hinternal & _ & _ & ->)];
    cbn [fst snd] in H.
  - destruct (resolveInternalProjectReferences h fuel (readTsConfig h configFilePath)
                workspaceRoot projectRoot []) as [internal | |];
      cbn [bind] in H; try discriminate.
    destruct (getInputs h fuel (namedInputs h projectRoot) configFilePath
                (readTsConfig h configFilePath) internal workspaceRoot projectRoot)
      as [ins | |] eqn:Hins; cbn [bind] in H; try discriminate.
    injection H as <-. exists internal, ins, []. cbn [targets]. auto.
  - cbn [bind] in H.
    destruct (getInputs h fuel (namedInputs h projectRoot) configFilePath
                (readTsConfig h configFilePath) internal workspaceRoot projectRoot)
      as [ins | |] eqn:Hins; cbn [bind] in H; try discriminate.
    match type of H with
    | Done (mkResult ?made) = Done res =>
        assert (Hmade : targets res = made) by (injection H as <-; reflexivity)
    end.
    exists internal, ins. eexists.
    split; [exact Hinternal |]. split; [exact Hins |].
    split; [exact Hmade |]. right. eauto.
Qed.

Lemma buildTscTargets_build_target_contents_witness :
  exists res internal ins before,
    buildTscTargets Scenario.libraryHost 1 "/ws/libs/mylib/tsconfig.lib.json"
      "libs/mylib" Fixture.buildOnly "/ws" = Done res
    /\ resolveInternalProjectReferences Scenario.libraryHost 1
         (readTsConfig Scenario.libraryHost "/ws/libs/mylib/tsconfig.lib.json")
         "/ws" "libs/mylib" [] = Done internal
    /\ getInputs Scenario.libraryHost 1 (namedInputs Scenario.libraryHost "libs/mylib")
         "/ws/libs/mylib/tsconfig.lib.json"
         (readTsConfig Scenario.libraryHost "/ws/libs/mylib/tsconfig.lib.json")
         internal "/ws" "libs/mylib" = Done ins
    /\ targets res
       = addBuildAndWatchDepsTargets Scenario.libraryHost "/ws" "libs/mylib"
           (Js.recordSet "build"
              (buildTarget Scenario.libraryHost
                 (mkBuild "build" "tsconfig.lib.json" (Some "build-deps")
                    (Some "watch-deps"))
                 Fixture.buildOnly "libs/mylib" ins
                 (getOutputs Scenario.libraryHost "/ws/libs/mylib/tsconfig.lib.json"
                    (readTsConfig Scenario.libraryHost
                       "/ws/libs/mylib/tsconfig.lib.json")
                    internal "/ws" "libs/mylib"))
              before)
           (Some "build-deps") (Some "watch-deps")
    /\ (before = []
        \/ exists tc t, typecheck Fixture.buildOnly = Some tc
                        /\ before = [(typecheckTargetName tc, t)]).
Proof.
  eexists.
  refine ((fun Hrun =>
             match buildTscTargets_build_target_contents Scenario.libraryHost 1
                     "/ws/libs/mylib/tsconfig.lib.json" "libs/mylib" Fixture.buildOnly
                     "/ws" _
                     (mkBuild "build" "tsconfig.lib.json" (Some "build-deps")
                        (Some "watch-deps"))
                     Hrun eq_refl eq_refl eq_refl with
             | ex_intro _ internal (ex_intro _ ins (ex_intro _ before Hrest)) =>
                 ex_intro _ internal
                   (ex_intro _ ins (ex_intro _ before (conj Hrun Hrest)))
             end) _).
  vm_compute; reflexivity.
Defined.

(** X22.  When the typecheck and the build target are given the same
    name and [tsconfig.json] is also the build configuration, the build
    target takes the place of the typecheck target: the targets handed on
    hold the build target alone. *)
Theorem buildTscTargets_same_name_keeps_build_target :
  forall (h : Host) (fuel : nat) (configFilePath projectRoot : string)
         (opts : NormalizedPluginOptions) (workspaceRoot : string)
         (res : TscProjectResult) (tc : TypecheckOptions) (b : BuildOptions),
    buildTscTargets h fuel configFilePath projectRoot opts workspaceRoot = Done res ->
    typecheck opts = Some tc ->
    build opts = Some b ->
    typecheckTargetName tc = buildTargetName b ->
    Path.basename configFilePath = "tsconfig.json" ->
    configName b = "tsconfig.json" ->
    isValidPackageJsonBuildConfig h (readTsConfig h configFilePath) workspaceRoot
      projectRoot = Done true ->
    exists ins outs,
      targets res
      = addBuildAndWatchDepsTargets h workspaceRoot projectRoot
          [(buildTargetName b, buildTarget h b opts projectRoot ins outs)]
          (buildDepsName b) (watchDepsName b).
Proof.
  intros h fuel configFilePath projectRoot opts workspaceRoot res tc b H Htc Hb Hsame
    Hname Hconfig Hvalid.
  unfold buildTscTargets in H.
  destruct (loadTsConfig_cases h configFilePath) as [Hload | Hload];
    rewrite Hload in H; cbn [bind] in H; [| discriminate].
  destruct (typecheckBlock h fuel configFilePath projectRoot opts workspaceRoot
              (readTsConfig h configFilePath) []) as [r | |] eqn:Hblock;
    cbn [bind] in H; try discriminate.
  assert (Hgate : buildGate h configFilePath projectRoot opts workspaceRoot
                    (readTsConfig h configFilePath) = Done (Some b))
    by (apply buildGate_open; repeat split; congruence).
  rewrite Hgate in H. cbn [bind] in H.
  apply typecheckBlock_cases in Hblock
    as [[_ [Hoff | Hother]]
       | (tc' & internal & external & ins0 & Htc' & _ & _ & _ & _ & ->)];
    [congruence | congruence |].
  cbn [fst snd bind] in H.
  destruct (getInputs h fuel (namedInputs h projectRoot) configFilePath
              (readTsConfig h configFilePath) internal workspaceRoot projectRoot)
    as [ins | |]; cbn [bind] in H; try discriminate.
  assert (Hname' : typecheckTargetName tc' = buildTargetName b) by congruence.
  cbn [Js.recordSet] in H. rewrite Hname', String.eqb_refl in H.
  injection H as <-. cbn [targets]. eauto.
Qed.

Lemma buildTscTargets_same_name_witness :
  exists ins outs,
    buildTscTargets Scenario.libraryHost 1 "/ws/libs/mylib/tsconfig.json" "libs/mylib"
      (mkOptions (Some (mkTypecheck "check"))
         (Some (mkBuild "check" "tsconfig.json" None None)) false) "/ws"
    = Done (mkResult
              (addBuildAndWatchDepsTargets Scenario.libraryHost "/ws" "libs/mylib"
                 [("check",
                   buildTarget Scenario.libraryHost
                     (mkBuild "check" "tsconfig.json" None None)
                     (mkOptions (Some (mkTypecheck "check"))
                        (Some (mkBuild "check" "tsconfig.json" None None)) false)
                     "libs/mylib" ins outs)]
                 None None)).
Proof.
  destruct (buildTscTargets Scenario.libraryHost 1 "/ws/libs/mylib/tsconfig.json"
              "libs/mylib"
              (mkOptions (Some (mkTypecheck "check"))
                 (Some (mkBuild "check" "tsconfig.json" None None)) false) "/ws")
    as [res | |] eqn:Hrun; [| discriminate Hrun | discriminate Hrun].
  destruct (buildTscTargets_same_name_keeps_build_target Scenario.libraryHost 1
              "/ws/libs/mylib/tsconfig.json" "libs/mylib"
              (mkOptions (Some (mkTypecheck "check"))
                 (Some (mkBuild "check" "tsconfig.json" None None)) false) "/ws"
              res (mkTypecheck "check") (mkBuild "check" "tsconfig.json" None None)
              Hrun eq_refl eq_refl eq_refl eq_refl eq_refl eq_refl)
    as (ins & outs & Htargets).
  exists ins, outs. destruct res as [made]. cbn [targets] in Htargets. now subst made.
Defined.

(** ** Paths outside the workspace *)

Lemma endsWith_slash_append (before rest : string) :
  rest <> "" ->
  Js.endsWith (before ++ rest) "/" = Js.endsWith rest "/".
Proof.
  intros Hrest. unfold Js.endsWith.
  rewrite list_ascii_of_string_append, rev_app_distr.
  destruct (rev (list_ascii_of_string rest)) as [| c tail] eqn:Hrev.
  - exfalso. apply Hrest.
    apply (f_equal (@rev ascii)) in Hrev. rewrite rev_involutive in Hrev.
    cbn in Hrev. rewrite <- (string_of_list_ascii_of_string rest), Hrev. reflexivity.
  - change (string_of_list_ascii (rev (list_ascii_of_string "/"))) with "/".
    cbn [app string_of_list_ascii prefix].
    destruct (ascii_dec "/" c); [| reflexivity].
    now destruct (string_of_list_ascii (tail ++ rev (list_ascii_of_string before))),
                 (string_of_list_ascii tail).
Qed.

Lemma join_workspace_token_parent (rest : string) :
  rest <> "" -> Path.isAbsolute rest = false ->
  Path.join ["{workspaceRoot}"; "../" ++ rest] = Path.join [rest].
Proof.
  intros Hrest Hrelative.
  assert (Hnonempty : String.eqb rest "" = false) by now apply String.eqb_neq.
  pose proof (endsWith_slash_append "{workspaceRoot}/../" rest Hrest) as Htrailing.
  assert (Hsame : Path.normalizeString ("{workspaceRoot}/../" ++ rest) true
                  = Path.normalizeString rest true).
  { unfold Path.normalizeString, Path.normSegments.
    change ("{workspaceRoot}/../" ++ rest)
      with ("{workspaceRoot}" ++ String "/" (".." ++ String "/" rest)).
    rewrite (segments_slash "{workspaceRoot}") by reflexivity.
    rewrite (segments_slash "..") by reflexivity.
    reflexivity. }
  unfold Path.join. cbn [filter]. rewrite Hnonempty.
  change (String.eqb "{workspaceRoot}" "") with false.
  change (String.eqb ("../" ++ rest) "") with false.
  cbn [negb String.concat].
  unfold Path.normalize. rewrite Hnonempty, Hrelative.
  cbn [append String.eqb Path.isAbsolute Ascii.eqb Bool.eqb Path.isSlash negb] in *.
  now rewrite Htrailing, Hsame.
Qed.

(** X23.  For a path outside the workspace [pathToInputOrOutput] loses
    its token: when the path from the workspace root to the file is [../]
    followed by [rest], joining it to [{workspaceRoot}] lets the [..] consume
    the token, and the result is [rest] alone, normalized. *)
Theorem pathToInputOrOutput_outside_workspace :
  forall (h : Host) (path workspaceRoot projectRoot rest : string),
    Js.startsWith
      (normalizePath
         (Path.relative (cwd h)
            (Path.resolve (cwd h) [workspaceRoot; projectRoot])
            (Path.resolve (cwd h) [workspaceRoot; path]))) ".." = true ->
    Path.relative (cwd h) workspaceRoot (Path.resolve (cwd h) [workspaceRoot; path])
    = "../" ++ rest ->
    rest <> "" ->
    Path.isAbsolute rest = false ->
    pathToInputOrOutput h path workspaceRoot projectRoot = joinPathFragments [rest].
Proof.
  intros h path workspaceRoot projectRoot rest Houtside Hrelative Hrest Hplain.
  unfold pathToInputOrOutput. rewrite Houtside, Hrelative.
  unfold joinPathFragments. now rewrite join_workspace_token_parent.
Qed.

(** A build-info file written next to the workspace, at [/cache/lib.tsbuildinfo]. *)
Lemma pathToInputOrOutput_outside_workspace_witness :
  pathToInputOrOutput Scenario.libraryHost "/cache/lib.tsbuildinfo" "/ws" "libs/mylib"
  = "cache/lib.tsbuildinfo".
Proof.
  apply (pathToInputOrOutput_outside_workspace Scenario.libraryHost
           "/cache/lib.tsbuildinfo" "/ws" "libs/mylib" "cache/lib.tsbuildinfo");
    [reflexivity | reflexivity | discriminate | reflexivity].
Defined.
